(** * Decision-support engine of the predictive-maintenance services

    A shallow embedding of the scoring and decision logic found in

    - [app/services/ml_models.py] and [app/services/rag_agent.py]
      (base service), and
    - [grinding-peru/app/services/*.py] and
      [grinding-peru/app/core/database.py] (Grinding Peru services),

    together with the properties that the design document states about them.

    Conventions of the embedding.

    - Python [float]s are rationals ([Q]).  Where the last digit of a
      result decides what the code answers, the arithmetic is the one of
      the machine: the criticality score is rounded to double precision
      after every operation ([Float64]), the trend classifiers compare
      with the doubles nearest to 0.1 and 0.01, and the line fitted by
      [numpy.polyfit] is whatever the library returns ([Frame.NumPy]).
      Elsewhere a decimal literal such as [0.4] denotes the rational 4/10
      and the operations are exact; every concrete evaluation there stays
      far away from the thresholds it is compared with.
    - A value that may be [None], SQL [NULL] or [NaN] is an [option].
    - A Python [dict] keyed by strings is a [gmap string _]; a table of
      the data store keyed by its primary key is a [gmap] as well.
    - An exception is a [None] of the function that raises it; a
      [try]/[except] is a [match] on it.
    - The data-access object handed to the incident manager is a
      parameter of its functions; [database_connection] is the one the
      routes of the repository hand to it.
    - Strings are byte strings; [lower], [upper], [strip] and [split] act
      on ASCII.

    The file has two parts: the model (one module per source file), then
    the theorems. *)

From Stdlib Require Import QArith Qminmax Qabs Qround Qpower Lqa ZArith Lia.
From Stdlib Require Import Bool.
From Stdlib Require Import Ascii String.
From stdpp Require Import gmap strings list.

(** * Part I: the model *)

(** ** Comparisons on rationals, as booleans *)

Module PyNum.

Definition Qgeb (x y : Q) : bool := Qle_bool y x.
Definition Qgtb (x y : Q) : bool := negb (Qle_bool x y).
Definition Qltb (x y : Q) : bool := Qgtb y x.
Definition Qleb (x y : Q) : bool := Qle_bool x y.

(** [x or d] on a number that may be [None]: [d] when [x] is [None] or
    zero. *)
Definition Q_or (x : option Q) (d : Q) : Q :=
  match x with
  | Some v => if Qeq_bool v 0 then d else v
  | None => d
  end.

Definition Qsum (l : list Q) : Q := foldr Qplus 0%Q l.

Definition Q_of_nat (n : nat) : Q := inject_Z (Z.of_nat n).

End PyNum.

(** ** Double precision
    A [float] is the rational it stands for.  [b64] rounds a rational to
    the nearest double (53 bits of precision, ties to the even neighbour,
    subnormal spacing below [2^-1022]); the overflow to infinity above
    [1.8e308] is left out, since no value here comes near it. *)

Module Float64.
Local Open Scope Q_scope.

(** [floor (log2 |x|)] for [x] other than zero. *)
Definition ilog2 (x : Q) : Z :=
  let k := (Z.log2 (Z.abs (Qnum x)) - Z.log2 (Zpos (Qden x)))%Z in
  if Qle_bool (2 ^ k) (Qabs x) then k else (k - 1)%Z.

(** The integer nearest to [q], the even one of two that are equally
    near. *)
Definition rne (q : Q) : Z :=
  let f := Qfloor q in
  match Qcompare (q - inject_Z f) (1 # 2) with
  | Lt => f
  | Gt => (f + 1)%Z
  | Eq => if Z.even f then f else (f + 1)%Z
  end.

(** The exponent of the last place of the doubles around [x]. *)
Definition ulp_exponent (x : Q) : Z := Z.max (ilog2 x - 52) (-1074).

(** The multiple of [2 ^ u] nearest to [x]. *)
Definition round_to (u : Z) (x : Q) : Q :=
  inject_Z (rne (x / 2 ^ u)) * 2 ^ u.

Definition round_magnitude (a : Q) : Q := round_to (ulp_exponent a) a.

(** The double nearest to [x]: the value of a decimal literal, and of
    the exact result of an operation. *)
Definition b64 (x : Q) : Q :=
  match Qcompare x 0 with
  | Eq => 0
  | Gt => round_magnitude x
  | Lt => - round_magnitude (- x)
  end.

(** [x + y] and [x * y] on floats. *)
Definition fadd (x y : Q) : Q := b64 (x + y).
Definition fmul (x y : Q) : Q := b64 (x * y).

End Float64.

(** ** Calendar time
    A [datetime] is a count of microseconds, a [timedelta] a difference
    of two such counts. *)

Module PyTime.

Definition datetime := Z.
Definition timedelta := Z.

Definition timedelta_hours (h : Z) : timedelta := (h * 3600 * 1000000)%Z.
Definition timedelta_days (d : Z) : timedelta :=
  (d * 24 * 3600 * 1000000)%Z.

(** [datetime.max] is 9999-12-31 23:59:59.999999, here counted from
    0001-01-01; an addition that leaves the range raises
    [OverflowError]. *)
Definition datetime_max : Z := (3652059 * 24 * 3600 * 1000000 - 1)%Z.

Definition datetime_add (t : datetime) (d : timedelta) : option datetime :=
  let r := (t + d)%Z in
  if bool_decide (0 <= r <= datetime_max)%Z then Some r else None.

End PyTime.

(** ** Strings: [str.lower], [str.upper], [str.strip], [in] on strings,
    [str.split] *)

Module PyStr.

Definition lower_ascii (c : ascii) : ascii :=
  let n := nat_of_ascii c in
  if ((65 <=? n) && (n <=? 90))%nat then ascii_of_nat (n + 32) else c.

Fixpoint lower (s : string) : string :=
  match s with
  | EmptyString => EmptyString
  | String c s' => String (lower_ascii c) (lower s')
  end.

Definition upper_ascii (c : ascii) : ascii :=
  let n := nat_of_ascii c in
  if ((97 <=? n) && (n <=? 122))%nat then ascii_of_nat (n - 32) else c.

Fixpoint upper (s : string) : string :=
  match s with
  | EmptyString => EmptyString
  | String c s' => String (upper_ascii c) (upper s')
  end.

(** [s.startswith(prefix)] *)
Definition startswith (s prefix : string) : bool := String.prefix prefix s.

(** [needle in hay] *)
Fixpoint contains (needle hay : string) : bool :=
  String.prefix needle hay ||
  match hay with
  | EmptyString => false
  | String _ hay' => contains needle hay'
  end.

Definition is_space (c : ascii) : bool :=
  let n := nat_of_ascii c in
  (((9 <=? n) && (n <=? 13)) || ((28 <=? n) && (n <=? 32)))%nat.

(** [s.lstrip()] and [s.strip()] *)
Fixpoint lstrip (s : string) : string :=
  match s with
  | EmptyString => EmptyString
  | String c s' => if is_space c then lstrip s' else s
  end.

Definition reversed (s : string) : string :=
  string_of_list_ascii (rev (list_ascii_of_string s)).

Definition strip (s : string) : string :=
  reversed (lstrip (reversed (lstrip s))).

(** The line feed, and a text given by its lines. *)
Definition line_feed : string := String (ascii_of_nat 10) EmptyString.

Definition text_of_lines (lines : list string) : string :=
  String.concat line_feed lines.

(** [split_aux cur s]: [cur] is the word being read, reversed. *)
Fixpoint split_aux (cur : list ascii) (s : string) : list string :=
  let flush (rest : list string) :=
    match cur with
    | [] => rest
    | _ => string_of_list_ascii (rev cur) :: rest
    end in
  match s with
  | EmptyString => flush []
  | String c s' =>
      if is_space c then flush (split_aux [] s')
      else split_aux (c :: cur) s'
  end.

(** [s.split()] *)
Definition split (s : string) : list string := split_aux [] s.

(** [x in l] for a list of strings *)
Definition mem (x : string) (l : list string) : bool :=
  existsb (String.eqb x) l.

End PyStr.

(** ** Columns of a data frame and the numpy / pandas reductions used *)

Module Frame.
Import PyNum.
Local Open Scope Q_scope.

(** A column holds a number or a null per row. *)
Definition column := list (option Q).

(** [Series.dropna()] *)
Definition dropna (c : column) : list Q := omap id c.

(** [Series.isna().all()] *)
Definition isna_all (c : column) : bool :=
  forallb (fun v => match v with None => true | Some _ => false end) c.

(** [Series.mean()] of a non-empty series *)
Definition mean (values : list Q) : Q :=
  Qsum values / Q_of_nat (length values).

(** [Series.min()] and [Series.max()] of [v :: values] *)
Definition min_of (v : Q) (values : list Q) : Q := foldr Qmin v values.
Definition max_of (v : Q) (values : list Q) : Q := foldr Qmax v values.

(** The square of [Series.std()] (sample standard deviation, one degree
    of freedom removed).  With fewer than two values pandas yields NaN,
    here [None].  The standard deviation itself is irrational in general:
    the model carries its square, and decides [|z| > c] as [z^2 > c^2]. *)
Definition sample_var (values : list Q) : option Q :=
  match values with
  | [] | [_] => None
  | _ =>
      let m := mean values in
      Some (Qsum (map (fun v => (v - m) * (v - m)) values)
            / (Q_of_nat (length values) - 1))
  end.

(** [np.arange(n)] *)
Definition arange (n : nat) : list Q := map Q_of_nat (seq 0 n).

(** [np.polyfit(x, y, 1)], as (slope, intercept).  numpy computes the
    fit in double precision, through a scaled least-squares solver, and
    the last digits of the coefficients are the library's: the model
    takes what the call returns as a parameter. *)
Class NumPy := { np_polyfit : list Q -> list Q -> Q * Q }.

(** The least-squares line through the points, as (slope, intercept),
    by its closed form: the line that [np.polyfit] approximates. *)
Definition polyfit1 (x y : list Q) : Q * Q :=
  let n := Q_of_nat (length x) in
  let sx := Qsum x in
  let sy := Qsum y in
  let sxy := Qsum (zip_with Qmult x y) in
  let sxx := Qsum (map (fun v => v * v) x) in
  let slope := (n * sxy - sx * sy) / (n * sxx - sx * sx) in
  (slope, (sy - slope * sx) / n).

(** The library without rounding, which the concrete evaluations
    use. *)
Definition exact_fit : NumPy := {| np_polyfit := polyfit1 |}.

(** [np.polyval([slope, intercept], x)] *)
Definition polyval1 (coeffs : Q * Q) (x : list Q) : list Q :=
  map (fun v => fst coeffs * v + snd coeffs) x.

(** A division whose result is infinite or NaN when the divisor is
    zero: [None]. *)
Definition safe_div (a b : Q) : option Q :=
  if Qeq_bool b 0 then None else Some (a / b).

End Frame.

(** ** [grinding-peru/app/services/advanced_predictive_maintenance.py] *)

Module AdvancedPredictiveMaintenance.
Import PyNum Float64.
Local Open Scope Q_scope.

(** The four tiers an equipment row may carry, and their stored text. *)
Inductive tier := Low | Medium | High | Critical.

Definition tier_value (t : tier) : string :=
  match t with
  | Low => "low"
  | Medium => "medium"
  | High => "high"
  | Critical => "critical"
  end.

(** The two keys of [equipment_data] that the evaluator reads; [None] is
    a key that the dict does not hold. *)
Record equipment_data := {
  criticality : option string;
  operating_hours : option Z
}.

Definition equipment_of (t : tier) : equipment_data :=
  {| criticality := Some (tier_value t); operating_hours := None |}.

(** The local [criticality_score], in the arithmetic of the machine:
    three products and two sums, each rounded. *)
Definition criticality_score
    (failure_probability anomaly_score : Q)
    (equipment_criticality : string) : Q :=
  fadd
    (fadd (fmul failure_probability (b64 0.4))
          (fmul anomaly_score (b64 0.3)))
    (fmul (if String.eqb equipment_criticality "high" then 1 else 0.5)
          (b64 0.3)).

Definition level_of_score (criticality_score : Q) : string :=
  if Qgeb criticality_score (b64 0.8) then "critical"
  else if Qgeb criticality_score (b64 0.6) then "high"
  else if Qgeb criticality_score (b64 0.4) then "medium"
  else "low".

(** The [except] branch (result ["unknown"]) is taken on an argument of
    the wrong type only and has no counterpart for typed arguments. *)
Definition _assess_criticality
    (failure_probability anomaly_score : Q)
    (equipment_data : equipment_data) : string :=
  let equipment_criticality :=
    default "medium" (criticality equipment_data) in
  level_of_score
    (criticality_score failure_probability anomaly_score
       equipment_criticality).

(** The weight table and the score in the words of the design document,
    kept apart from the code above and only compared with it. *)
Definition documented_weight (t : tier) : Q :=
  match t with
  | Critical => 1.0
  | High => 0.75
  | Medium => 0.5
  | Low => 0.25
  end.

Definition documented_score (p a : Q) (t : tier) : Q :=
  0.4 * p + 0.3 * a + 0.3 * documented_weight t.

(** The first row of the feature matrix; [None] is NaN, which no
    comparison holds for.  Reading past the end of the row raises
    [IndexError]. *)
Definition feature_above (x : option Q) (bound : Q) : bool :=
  match x with
  | Some v => Qgtb v bound
  | None => false
  end.

Definition failure_type_body (features : list (option Q))
    : option string :=
  f0 ← features !! 0%nat;
  if feature_above f0 0.7 then Some "sobrecalentamiento"
  else
    f1 ← features !! 1%nat;
    if feature_above f1 0.7 then Some "desbalance"
    else
      f2 ← features !! 2%nat;
      if feature_above f2 0.7 then Some "sobrepresión"
      else Some "desgaste_general".

Definition _predict_failure_type (features : list (option Q)) : string :=
  default "desconocido" (failure_type_body features).

Definition time_to_failure_body (features : list (option Q))
    : option Q :=
  let base_hours := 168 in
  f0 ← features !! 0%nat;
  if feature_above f0 0.8 then Some (Qmax 24 (base_hours * 0.2))
  else
    f1 ← features !! 1%nat;
    if feature_above f1 0.8 then Some (Qmax 48 (base_hours * 0.4))
    else Some base_hours.

Definition _estimate_time_to_failure (features : list (option Q)) : Q :=
  default 168 (time_to_failure_body features).

(** The levels in their order of severity. *)
Definition level_rank (level : string) : nat :=
  if String.eqb level "critical" then 3
  else if String.eqb level "high" then 2
  else if String.eqb level "medium" then 1
  else 0.

End AdvancedPredictiveMaintenance.

(** ** [app/services/ml_models.py] *)

Module MlModels.
Import PyNum.
Local Open Scope Q_scope.

Definition _estimate_days_until_failure (probability : Q) : Z :=
  if Qgtb probability 0.9 then 1
  else if Qgtb probability 0.8 then 3
  else if Qgtb probability 0.7 then 7
  else if Qgtb probability 0.6 then 14
  else 30.

(** One entry of the list returned by [predict_failures]. *)
Record failure_prediction := {
  index : nat;
  probability : Q;
  confidence : string;
  days_until_failure : Z
}.

(** The loop of [predict_failures] over the outputs of the classifier,
    one pair of predicted class and probability of failure per row; the
    timestamp of the row is left out. *)
Definition failure_predictions (outputs : list (Z * Q))
    : list failure_prediction :=
  omap (fun e : nat * (Z * Q) =>
          let pred := fst (snd e) in
          let prob := snd (snd e) in
          if (pred =? 1)%Z
          then Some {| index := fst e;
                       probability := prob;
                       confidence :=
                         if Qgtb prob 0.8 then "high" else "medium";
                       days_until_failure :=
                         _estimate_days_until_failure prob |}
          else None)
       (imap (fun i o => (i, o)) outputs).

End MlModels.

(** ** [app/services/rag_agent.py]: pattern analysis *)

Module RagAgent.
Import PyNum Float64 Frame.
Local Open Scope Q_scope.

(** The dict returned by [_analyze_trend]; the two short results carry
    no [current_value] and no [average_value] key. *)
Record trend_result := {
  trend : string;
  slope : Q;
  r_squared : Q;
  current_value : option Q;
  average_value : option Q
}.

Definition classify_slope (slope : Q) : string :=
  if Qltb (Qabs slope) (b64 0.01) then "stable"
  else if Qgtb slope 0 then "increasing"
  else "decreasing".

Section WithNumPy.
Context {numpy : NumPy}.

Definition _analyze_trend (df : gmap string column) (column : string)
    : trend_result :=
  match df !! column with
  | None => Build_trend_result "no_data" 0 0 None None
  | Some c =>
      if isna_all c then Build_trend_result "no_data" 0 0 None None
      else
        let y := dropna c in
        if (length y <? 2)%nat
        then Build_trend_result "insufficient_data" 0 0 None None
        else
          let x := arange (length y) in
          let coeffs := np_polyfit x y in
          let slope := fst coeffs in
          let y_pred := polyval1 coeffs x in
          let ss_res :=
            Qsum (zip_with (fun a b => (a - b) * (a - b)) y y_pred) in
          let ss_tot :=
            Qsum (map (fun a => (a - mean y) * (a - mean y)) y) in
          let r_squared :=
            if Qeq_bool ss_tot 0 then 0 else 1 - ss_res / ss_tot in
          Build_trend_result (classify_slope slope) slope r_squared
            (last y) (Some (mean y))
  end.

End WithNumPy.

(** One entry of the list returned by [_detect_anomalies].  [row] is the
    position of the reading in the frame (the entry reports that row's
    timestamp); [z_score_sq] is the square of the reported z-score. *)
Record anomaly := {
  column_name : string;
  row : nat;
  value : Q;
  z_score_sq : Q;
  severity : string
}.

Definition numeric_columns : list string :=
  ["temperature"; "vibration"; "pressure"; "humidity"; "voltage";
   "current"].

(** The non-null readings of a column with their row positions. *)
Definition indexed_dropna (c : column) : list (nat * Q) :=
  omap (fun iv => match snd iv with
                  | Some v => Some (fst iv, v)
                  | None => None
                  end)
       (imap (fun i v => (i, v)) c).

(** The body of the loop of [_detect_anomalies] for one column.  [None]
    is an infinite or NaN z-score. *)
Definition detect_column (name : string) (c : column)
    : option (list anomaly) :=
  let clean_data := indexed_dropna c in
  let values := map snd clean_data in
  if (length clean_data <? 10)%nat then Some []
  else
    match sample_var values with
    | None => Some []
    | Some var =>
        if Qeq_bool var 0 then Some []
        else
          z ← mapM (fun iv =>
                 zq ← safe_div ((snd iv - mean values) *
                                (snd iv - mean values)) var;
                 Some (iv, zq)) clean_data;
          Some (map (fun e =>
                  Build_anomaly name (fst (fst e)) (snd (fst e)) (snd e)
                    (if Qgtb (snd e) 9 then "high" else "medium"))
                  (List.filter (fun e => Qgtb (snd e) 6.25) z))
    end.

Definition _detect_anomalies (df : gmap string column)
    : option (list anomaly) :=
  per_column ← mapM (fun name =>
      match df !! name with
      | None => Some []
      | Some c => if isna_all c then Some [] else detect_column name c
      end) numeric_columns;
  Some (concat per_column).

End RagAgent.

(** ** [grinding-peru/app/services/predictive_maintenance.py] *)

Module PredictiveMaintenance.
Import PyNum PyTime Float64 Frame.
Local Open Scope Q_scope.

(** The local [days] of [_estimate_failure_date]. *)
Definition failure_date_days (failure_probability : Q) : Z :=
  if Qgtb failure_probability 0.8 then 1
  else if Qgtb failure_probability 0.6 then 3
  else if Qgtb failure_probability 0.4 then 7
  else if Qgtb failure_probability 0.2 then 14
  else 30.

(** [now] is the reading of the clock taken by the call; the result is
    the estimated date, before it is printed as year-month-day. *)
Definition _estimate_failure_date
    (now : datetime) (failure_probability : Q) : option datetime :=
  datetime_add now (timedelta_days (failure_date_days failure_probability)).

Section WithNumPy.
Context {numpy : NumPy}.

Definition _calculate_trend (values : list Q) : string :=
  if (length values <? 2)%nat then "stable"
  else
    let x := arange (length values) in
    let slope := fst (np_polyfit x values) in
    if Qgtb slope (b64 0.1) then "increasing"
    else if Qltb slope (- b64 0.1) then "decreasing"
    else "stable".

(** One entry of the dict returned by [_calculate_sensor_metrics].
    [std_sq] is the square of the reported [std]; [None] is NaN. *)
Record sensor_metric := {
  current : option Q;
  average : Q;
  min : Q;
  max : Q;
  std_sq : option Q;
  trend : string
}.

Definition metric_columns : list string :=
  ["temperature"; "vibration"; "pressure"; "humidity"; "voltage";
   "current"].

(** The entry of one channel; none for a channel without a value. *)
Definition metric_of_values (values : list Q) : option sensor_metric :=
  match values with
  | [] => None
  | v :: rest =>
      Some {| current := last values;
              average := mean values;
              min := min_of v rest;
              max := max_of v rest;
              std_sq := sample_var values;
              trend := _calculate_trend values |}
  end.

Definition add_metric (df : gmap string column)
    (metrics : gmap string sensor_metric) (col : string)
    : gmap string sensor_metric :=
  match df !! col with
  | None => metrics
  | Some c =>
      match metric_of_values (dropna c) with
      | None => metrics
      | Some m => <[col := m]> metrics
      end
  end.

Definition _calculate_sensor_metrics (df : gmap string column)
    : gmap string sensor_metric :=
  foldl (add_metric df) ∅ metric_columns.

End WithNumPy.

Definition sensor_columns : list string :=
  ["temperature"; "vibration"; "pressure"; "voltage"; "current"].

Definition count_if {A} (f : A -> bool) (l : list A) : nat :=
  length (List.filter f l).

(** The body of the loop of [_calculate_health_score] for one channel
    with values: the score after it.  The score is touched under the
    guard [std_val > 0] only.  [None] is an infinite or NaN z-score. *)
Definition penalise (score : Q) (values : list Q) : option Q :=
  let mean_val := mean values in
  match sample_var values with
  | Some var =>
      if Qgtb var 0 then
        z_sq ← mapM (fun v =>
                 safe_div ((v - mean_val) * (v - mean_val)) var) values;
        let anomaly_count := count_if (fun z => Qgtb z 6.25) z_sq in
        let anomaly_rate :=
          Q_of_nat anomaly_count / Q_of_nat (length values) in
        Some (score - anomaly_rate * 20)
      else Some score
  | None => Some score
  end.

(** The values of a channel that the loops below look at: none when the
    column is missing or holds nulls only. *)
Definition channel_values (df : gmap string column) (col : string)
    : list Q :=
  match df !! col with
  | Some c => dropna c
  | None => []
  end.

Definition health_step (df : gmap string column) (acc : option Q)
    (col : string) : option Q :=
  score ← acc;
  match channel_values df col with
  | [] => Some score
  | values => penalise score values
  end.

Definition _calculate_health_score (df : gmap string column) : option Q :=
  score ← foldl (health_step df) (Some 100) sensor_columns;
  Some (Qmax 0 (Qmin 100 score)).

(** The lines of [_generate_health_recommendations], without their
    wording. *)
Inductive recommendation :=
  | CriticalValue (col : string) (current_val : Q)
  | AnomalousValue (col : string) (current_val : Q)
  | WithinNormalParameters
  | ReviewManufacturerManual
  | ScheduleVisualInspection.

(** The body of the loop for one channel. *)
Definition channel_recommendations (col : string) (values : list Q)
    : option (list recommendation) :=
  match last values, sample_var values with
  | Some current_val, Some var =>
      if Qgtb var 0 then
        z_sq ← safe_div ((current_val - mean values) *
                         (current_val - mean values)) var;
        if Qgtb z_sq 9 then Some [CriticalValue col current_val]
        else if Qgtb z_sq 4 then Some [AnomalousValue col current_val]
        else Some []
      else Some []
  | _, _ => Some []
  end.

Definition _generate_health_recommendations
    (equipment_id : string) (df : gmap string column)
    : option (list recommendation) :=
  found ← mapM (fun col => channel_recommendations col
                             (channel_values df col)) sensor_columns;
  let recommendations := concat found in
  let recommendations :=
    match recommendations with
    | [] => [WithinNormalParameters]
    | _ => recommendations
    end in
  Some (take 8 (recommendations ++
                [ReviewManufacturerManual; ScheduleVisualInspection])).

Definition _determine_alert_level (failure_probability : Q)
    (is_anomaly : bool) : string :=
  if Qgtb failure_probability 0.8 || is_anomaly then "critical"
  else if Qgtb failure_probability 0.6 then "high"
  else if Qgtb failure_probability 0.4 then "medium"
  else "low".

Definition _calculate_confidence (failure_probability : Q)
    (is_anomaly : bool) : Q :=
  let base_confidence := Qmin 0.9 (0.5 + failure_probability * 0.4) in
  let base_confidence :=
    if is_anomaly then base_confidence + 0.1 else base_confidence in
  Qmin 0.95 base_confidence.

(** The [priority] of the alert that [_create_predictive_alert]
    builds. *)
Definition predictive_alert_priority (failure_probability : Q) : string :=
  if Qgtb failure_probability 0.6 then "high" else "medium".

(** The step of [predict_equipment_failure] that decides on the alert:
    the priority of the alert that [_create_predictive_alert] is called
    to send, [None] when it is not called. *)
Definition raised_alert (failure_probability : Q) (is_anomaly : bool)
    : option string :=
  let alert_level := _determine_alert_level failure_probability is_anomaly in
  if PyStr.mem alert_level ["high"; "critical"]
  then Some (predictive_alert_priority failure_probability)
  else None.

End PredictiveMaintenance.

(** ** Python values held by the rows and dicts of the services *)

Module PyVal.
Import PyNum.

Inductive pyval :=
  | PyNone
  | PyInt (z : Z)
  | PyFloat (q : Q)
  | PyStr (s : string)
  | PyList (l : list string)
  | PyDateTime (t : Z).

(** The number a value stands for in arithmetic and comparisons; any
    other value raises [TypeError] there. *)
Definition as_number (v : pyval) : option Q :=
  match v with
  | PyInt z => Some (inject_Z z)
  | PyFloat q => Some q
  | _ => None
  end.

(** The string a method such as [lower] is called on; on any other value
    the call raises [AttributeError]. *)
Definition as_str (v : pyval) : option string :=
  match v with
  | PyStr s => Some s
  | _ => None
  end.

(** The moment a [timedelta] is added to; any other value raises
    [TypeError] there. *)
Definition as_datetime (v : pyval) : option Z :=
  match v with
  | PyDateTime t => Some t
  | _ => None
  end.

(** Truth value of [v] in a condition. *)
Definition truthy (v : pyval) : bool :=
  match v with
  | PyNone => false
  | PyInt z => negb (z =? 0)%Z
  | PyFloat q => negb (Qeq_bool q 0)
  | PyStr s => negb (String.eqb s "")
  | PyList l => match l with [] => false | _ => true end
  | PyDateTime _ => true
  end.

(** [d.get(key, default)] *)
Definition get_or (d : gmap string pyval) (key : string) (dflt : pyval)
    : pyval :=
  default dflt (d !! key).

End PyVal.

(** ** [grinding-peru/app/core/database.py] *)

Module Database.
Import PyStr PyVal.

Abbreviation row := (gmap string pyval).

(** The Supabase client as [execute_query] uses it: the rows with which
    [table(name).select("*").execute()] and
    [rpc("execute_sql", {"query": query}).execute()] answer, [None] when
    the call raises. *)
Record Client := {
  table_select : string -> option (list row);
  rpc_execute_sql : string -> option (list row)
}.

(** A request that reached the client. *)
Inductive request :=
  | TableSelect (table : string)
  | RpcExecuteSql (query : string).

(** [DatabaseConnection.execute_query]: the rows it returns, and the
    requests it made to the client.  [client] is [self.client], [None]
    for a connection that was not configured.  The parameters of the
    statement are never looked at.  Every exception ends in the [except]
    branch, which returns the empty list: the function never raises. *)
Definition execute_query (client : option Client) (query : string)
    (params : option (list pyval)) : list row * list request :=
  match client with
  | None => ([], [])
  | Some c =>
      if startswith (upper (strip query)) "SELECT" then
        if contains "FROM users" (upper query)
        then (default [] (table_select c "users"), [TableSelect "users"])
        else if contains "FROM equipment" (upper query)
        then (default [] (table_select c "equipment"),
              [TableSelect "equipment"])
        else if contains "FROM incidents" (upper query)
        then (default [] (table_select c "incidents"),
              [TableSelect "incidents"])
        else (default [] (rpc_execute_sql c query), [RpcExecuteSql query])
      else ([], [])
  end.

End Database.

(** ** [grinding-peru/app/services/technician_recommendation.py] *)

Module TechnicianRecommendation.
Import PyNum PyStr PyVal.
Local Open Scope Q_scope.

(** A row of the technician query, and an incident as the recommender
    receives it. *)
Abbreviation technician := (gmap string pyval).
Abbreviation incident_data := (gmap string pyval).

(** One row of the performance query; a [None] field is SQL [NULL]. *)
Record performance_row := {
  completion_rate : option Q;
  avg_resolution_time : option Q;
  critical_resolved : option Z
}.

(** The data store as the recommender sees it: the result of each of its
    two queries, [None] when the query raises. *)
Record db_connection := {
  technician_rows : option (list technician);
  performance_rows : pyval -> option (list performance_row)
}.

Definition specialty_equipment_map : gmap string (list string) :=
  list_to_map
    [("mecanico", ["motor"; "bomba"; "compresor"; "generador"]);
     ("electrico", ["motor"; "generador"; "transformador"; "panel"]);
     ("electronico", ["sensor"; "controlador"; "plc"; "hmi"]);
     ("hidraulico", ["bomba"; "valvula"; "cilindro"; "actuador"]);
     ("neumatico", ["compresor"; "valvula"; "cilindro"; "actuador"])].

Definition failure_specialty_map : gmap string (list string) :=
  list_to_map
    [("mecanica", ["mecanico"]);
     ("electrica", ["electrico"; "electronico"]);
     ("hidraulica", ["hidraulico"; "mecanico"]);
     ("neumatica", ["neumatico"; "mecanico"]);
     ("vibracion", ["mecanico"; "electrico"]);
     ("temperatura", ["mecanico"; "electrico"])].

(** The [try] body of [_calculate_specialty_match]; [None] is an
    exception. *)
Definition specialty_match_body
    (technician_specialty equipment_type failure_type : pyval)
    : option Q :=
  et ← as_str equipment_type;
  ts ← as_str technician_specialty;
  let score :=
    if mem (lower et)
         (default [] (specialty_equipment_map !! lower ts))
    then 0.5 else 0 in
  ft ← as_str failure_type;
  match failure_specialty_map !! lower ft with
  | Some specialties =>
      if mem (lower ts) specialties then Some (score + 0.5)
      else Some score
  | None => Some score
  end.

Definition _calculate_specialty_match
    (technician_specialty equipment_type failure_type : pyval) : Q :=
  default 0.0
    (specialty_match_body technician_specialty equipment_type
       failure_type).

Definition skill_multiplier (skill_level : string) : Q :=
  default 0.8
    ((list_to_map
        [("junior", 0.6); ("intermediate", 0.8); ("senior", 1.0);
         ("expert", 1.2)] : gmap string Q) !! skill_level).

Definition priority_multiplier (priority : string) : Q :=
  default 1.0
    ((list_to_map
        [("low", 0.8); ("medium", 1.0); ("high", 1.2);
         ("critical", 1.4)] : gmap string Q) !! priority).

Definition experience_score_body
    (experience_years skill_level priority : pyval) : option Q :=
  years ← as_number experience_years;
  let years_score := Qmin (years / 10) 1.0 in
  sl ← as_str skill_level;
  pr ← as_str priority;
  Some (years_score * skill_multiplier (lower sl)
        * priority_multiplier (lower pr)).

Definition _calculate_experience_score
    (experience_years skill_level priority : pyval) : Q :=
  default 0.0 (experience_score_body experience_years skill_level priority).

(** [==] against [0] is false, not an error, on a value that is no
    number; [<=] raises on it. *)
Definition workload_score_body (current_workload : pyval) : option Q :=
  match as_number current_workload with
  | Some w =>
      if Qeq_bool w 0 then Some 1.0
      else if Qleb w 2 then Some 0.8
      else if Qleb w 4 then Some 0.6
      else Some 0.4
  | None => None
  end.

Definition _calculate_workload_score (current_workload : pyval) : Q :=
  default 0.5 (workload_score_body current_workload).

Definition location_score_body (tech_location incident_location : pyval)
    : option Q :=
  if negb (truthy tech_location) || negb (truthy incident_location)
  then Some 0.5
  else
    tl ← as_str tech_location;
    il ← as_str incident_location;
    if String.eqb (lower tl) (lower il) then Some 1.0
    else if existsb (fun word => contains word (lower tl))
              (split (lower il))
    then Some 0.8
    else Some 0.6.

Definition _calculate_location_score
    (tech_location incident_location : pyval) : Q :=
  default 0.5 (location_score_body tech_location incident_location).

Definition performance_of_row (r : performance_row) : Q :=
  let completion_rate := Q_or (completion_rate r) 0 in
  let avg_time := Q_or (avg_resolution_time r) 24 in
  let critical_resolved :=
    Q_or (inject_Z <$> critical_resolved r) 0 in
  let completion_score := completion_rate in
  let time_score := Qmax 0 (1 - avg_time / 48) in
  let critical_score := Qmin (critical_resolved / 5) 1.0 in
  completion_score * 0.5 + time_score * 0.3 + critical_score * 0.2.

Definition _calculate_performance_score
    (db : db_connection) (technician_id : pyval) : Q :=
  match performance_rows db technician_id with
  | None => 0.5
  | Some [] => 0.5
  | Some (r :: _) => performance_of_row r
  end.

(** The five component scores in the order the scorer adds them; a
    missing technician key raises [KeyError] before the component is
    computed. *)
Definition specialty_component (t : technician) (i : incident_data)
    : option Q :=
  s ← t !! "specialty";
  Some (_calculate_specialty_match s
          (get_or i "equipment_type" (PyStr ""))
          (get_or i "failure_type" (PyStr ""))).

Definition experience_component (t : technician) (i : incident_data)
    : option Q :=
  y ← t !! "experience_years";
  s ← t !! "skill_level";
  Some (_calculate_experience_score y s
          (get_or i "priority" (PyStr "medium"))).

Definition workload_component (t : technician) : option Q :=
  w ← t !! "current_workload";
  Some (_calculate_workload_score w).

Definition location_component (t : technician) (i : incident_data)
    : option Q :=
  l ← t !! "location";
  Some (_calculate_location_score l (get_or i "location" (PyStr ""))).

Definition performance_component (db : db_connection) (t : technician)
    : option Q :=
  id ← t !! "id";
  Some (_calculate_performance_score db id).

(** The running [score] after the five additions, before the final
    [min]; [None] is a [KeyError]. *)
Definition weighted_sum (db : db_connection) (t : technician)
    (i : incident_data) : option Q :=
  specialty_score ← specialty_component t i;
  experience_score ← experience_component t i;
  workload_score ← workload_component t;
  location_score ← location_component t i;
  performance_score ← performance_component db t;
  Some (0.0 + specialty_score * 0.4 + experience_score * 0.25
        + workload_score * 0.2 + location_score * 0.1
        + performance_score * 0.05).

Definition _calculate_technician_score (db : db_connection)
    (t : technician) (i : incident_data) : Q :=
  match weighted_sum db t i with
  | Some score => Qmin score 1.0
  | None => 0.0
  end.

(** The lines of [_get_recommendation_reasons], without their wording. *)
Inductive reason :=
  | SpecialtyIdeal (specialty : string)
  | SolidExperience (experience_years : pyval)
  | ImmediateAvailability
  | NearbyLocation
  | RelevantCertifications
  | QualifiedTechnicianAvailable.

Definition reasons_body (t : technician) (i : incident_data)
    : option (list reason) :=
  specialty ← t !! "specialty";
  s ← as_str specialty;
  let r1 :=
    if mem (lower s) ["mecanico"; "electrico"]
    then [SpecialtyIdeal s] else [] in
  experience_years ← t !! "experience_years";
  y ← as_number experience_years;
  let r2 := if Qgeb y 5 then [SolidExperience experience_years] else [] in
  current_workload ← t !! "current_workload";
  w ← as_number current_workload;
  let r3 := if Qleb w 2 then [ImmediateAvailability] else [] in
  location ← t !! "location";
  r4 ← (if truthy location && truthy (get_or i "location" PyNone)
        then
          tl ← as_str location;
          il ← as_str (get_or i "location" PyNone);
          Some (if String.eqb (lower tl) (lower il)
                then [NearbyLocation] else [])
        else Some []);
  let r5 :=
    if truthy (get_or t "certifications" PyNone)
    then [RelevantCertifications] else [] in
  Some (take 3 (r1 ++ r2 ++ r3 ++ r4 ++ r5)).

Definition _get_recommendation_reasons (t : technician)
    (i : incident_data) : list reason :=
  default [QualifiedTechnicianAvailable] (reasons_body t i).

(** One entry of the list returned by
    [get_technician_recommendations]. *)
Record recommendation := {
  rec_technician : technician;
  score : Q;
  reasons : list reason
}.

(** [list.sort(key=score, reverse=True)]: a stable sort, highest score
    first; entries of equal score keep their order. *)
Fixpoint insert_desc (x : recommendation) (l : list recommendation)
    : list recommendation :=
  match l with
  | [] => [x]
  | y :: l' =>
      if Qleb (score y) (score x) then x :: y :: l'
      else y :: insert_desc x l'
  end.

Definition sort_desc (l : list recommendation) : list recommendation :=
  foldr insert_desc [] l.

(** [l[:limit]] *)
Definition slice_to {A} (l : list A) (limit : Z) : list A :=
  if (0 <=? limit)%Z then take (Z.to_nat limit) l
  else take (length l - Z.to_nat (- limit)) l.

Definition _get_available_technicians (db : db_connection)
    : list technician :=
  default [] (technician_rows db).

Definition get_technician_recommendations (db : db_connection)
    (i : incident_data) (limit : Z) : list recommendation :=
  match _get_available_technicians db with
  | [] => []
  | available_technicians =>
      let technician_scores :=
        map (fun tech =>
               {| rec_technician := tech;
                  score := _calculate_technician_score db tech i;
                  reasons := _get_recommendation_reasons tech i |})
            available_technicians in
      slice_to (sort_desc technician_scores) limit
  end.

(** The rows of the technician query carry the columns it selects;
    the assignment reads two of them. *)
Definition selected_columns (db : db_connection) : Prop :=
  forall t, t ∈ _get_available_technicians db ->
    is_Some (t !! "id") /\ is_Some (t !! "name").

(** Assumptions on the rows the store returns, for the bounds below:
    the years of experience, when a number, are not negative; the
    aggregates of the performance query are a rate in [0, 1], a mean
    duration that is not negative and a count. *)
Definition nonneg_years (t : technician) : Prop :=
  forall y, t !! "experience_years" ≫= as_number = Some y -> 0 <= y.

Definition sane_row (r : performance_row) : Prop :=
  (forall q, completion_rate r = Some q -> 0 <= q <= 1) /\
  (forall q, avg_resolution_time r = Some q -> 0 <= q) /\
  (forall z, critical_resolved r = Some z -> (0 <= z)%Z).

Definition sane_performance (db : db_connection) : Prop :=
  forall technician_id r rest,
    performance_rows db technician_id = Some (r :: rest) -> sane_row r.

(** No entry of the list is followed by one with a higher score. *)
Fixpoint descending (l : list recommendation) : Prop :=
  match l with
  | [] => True
  | x :: l' => Forall (fun y => score y <= score x) l' /\ descending l'
  end.

End TechnicianRecommendation.

(** ** [grinding-peru/app/services/incident_management.py]: the SLA
    and the record of a new incident *)

Module IncidentManagement.
Import PyTime.

Inductive Priority := CRITICAL | HIGH | MEDIUM | LOW.

Definition Priority_value (p : Priority) : string :=
  match p with
  | CRITICAL => "critical"
  | HIGH => "high"
  | MEDIUM => "medium"
  | LOW => "low"
  end.

(** [Priority(text)], which raises [ValueError] on any other text. *)
Definition Priority_of_value (text : string) : option Priority :=
  if String.eqb text "critical" then Some CRITICAL
  else if String.eqb text "high" then Some HIGH
  else if String.eqb text "medium" then Some MEDIUM
  else if String.eqb text "low" then Some LOW
  else None.

(** [self.sla_hours], set by the constructor; the table holds every
    member of the enumeration. *)
Definition sla_hours (p : Priority) : option Z :=
  match p with
  | CRITICAL => Some 4%Z
  | HIGH => Some 8%Z
  | MEDIUM => Some 24%Z
  | LOW => Some 72%Z
  end.

Definition _calculate_sla_deadline (priority : Priority)
    (created_at : datetime) : option datetime :=
  let sla_hours := default 24%Z (sla_hours priority) in
  datetime_add created_at (timedelta_hours sla_hours).

(** [create_incident] up to the insert.  As written the function is a
    plain [def] that holds two [await]s, and Python refuses to compile
    the module; the body is read here as if the function were declared
    [async].  [incident_number] is the number drawn for the incident;
    [now_sla], [now_created] and [now_updated] are the three readings of
    the clock the body takes, in that order.  The record is the dict
    handed to the insert, without its [analysis] entry (the answer of
    the language model); the moments are kept as moments, where the dict
    holds them printed. *)
Inductive record_outcome :=
  | MissingField (field : string)
  | RecordError
  | Prepared (incident_record : gmap string PyVal.pyval).

Definition required_fields : list string :=
  ["title"; "description"; "category"; "priority"; "reported_by"].

Definition sla_deadline_of (now_sla : datetime)
    (incident_data : gmap string PyVal.pyval) : option datetime :=
  priority ← incident_data !! "priority";
  text ← PyVal.as_str priority;
  p ← Priority_of_value text;
  created_at ←
    PyVal.as_datetime
      (PyVal.get_or incident_data "created_at" (PyVal.PyDateTime now_sla));
  _calculate_sla_deadline p created_at.

Definition create_incident_record (incident_number : string)
    (now_sla now_created now_updated : datetime)
    (incident_data : gmap string PyVal.pyval) : record_outcome :=
  match
    List.find (fun field => bool_decide (incident_data !! field = None))
      required_fields
  with
  | Some field => MissingField field
  | None =>
      match sla_deadline_of now_sla incident_data with
      | None => RecordError
      | Some sla_deadline =>
          Prepared
            (list_to_map
               [("incident_number", PyVal.PyStr incident_number);
                ("title",
                 PyVal.get_or incident_data "title" PyVal.PyNone);
                ("description",
                 PyVal.get_or incident_data "description" PyVal.PyNone);
                ("category",
                 PyVal.get_or incident_data "category" PyVal.PyNone);
                ("priority",
                 PyVal.get_or incident_data "priority" PyVal.PyNone);
                ("status", PyVal.PyStr "new");
                ("reported_by",
                 PyVal.get_or incident_data "reported_by" PyVal.PyNone);
                ("assigned_to", PyVal.PyNone);
                ("sla_deadline", PyVal.PyDateTime sla_deadline);
                ("affected_services",
                 PyVal.get_or incident_data "affected_services"
                   (PyVal.PyList []));
                ("tags",
                 PyVal.get_or incident_data "tags" (PyVal.PyList []));
                ("created_at", PyVal.PyDateTime now_created);
                ("updated_at", PyVal.PyDateTime now_updated)])
      end
  end.

(** [table.get(key, dflt)] on a table keyed by strings: a list is no
    key and raises [TypeError]; any other value that is no string is a
    key the table does not hold. *)
Definition table_get {V} (table : gmap string V) (key : PyVal.pyval)
    (dflt : V) : option V :=
  match key with
  | PyVal.PyList _ => None
  | PyVal.PyStr s => Some (default dflt (table !! s))
  | _ => Some dflt
  end.

Definition base_times : gmap string (Z * Z) :=
  list_to_map
    [("critical", (1, 4)%Z); ("high", (2, 8)%Z); ("medium", (4, 24)%Z);
     ("low", (8, 72)%Z)].

Definition category_multipliers : gmap string Q :=
  list_to_map
    [("hardware", 1.5%Q); ("software", 1.0%Q); ("network", 1.2%Q);
     ("application", 1.3%Q); ("infrastructure", 1.4%Q);
     ("security", 1.6%Q)].

(** The dict returned by [_estimate_resolution_time]. *)
Record resolution_estimate := {
  estimated_min_hours : Q;
  estimated_max_hours : Q;
  confidence : Q
}.

(** The function has no [try]: [None] is the [TypeError] it lets
    through. *)
Definition _estimate_resolution_time
    (incident_data : gmap string PyVal.pyval)
    : option resolution_estimate :=
  let priority :=
    PyVal.get_or incident_data "priority" (PyVal.PyStr "medium") in
  let category :=
    PyVal.get_or incident_data "category" (PyVal.PyStr "infrastructure") in
  base_time ← table_get base_times priority (4, 24)%Z;
  multiplier ← table_get category_multipliers category 1.0%Q;
  Some {| estimated_min_hours := (inject_Z (fst base_time) * multiplier)%Q;
          estimated_max_hours := (inject_Z (snd base_time) * multiplier)%Q;
          confidence := 0.7%Q |}.

End IncidentManagement.

(** ** [grinding-peru/app/services/intelligent_incident_management.py] *)

Module IntelligentIncidentManagement.
Import PyNum PyTime PyStr PyVal.
Local Open Scope Q_scope.

Inductive IncidentStatus :=
  PENDING | IN_PROGRESS | COMPLETED | CANCELLED | ESCALATED.

Definition IncidentStatus_value (s : IncidentStatus) : string :=
  match s with
  | PENDING => "pending"
  | IN_PROGRESS => "in_progress"
  | COMPLETED => "completed"
  | CANCELLED => "cancelled"
  | ESCALATED => "escalated"
  end.

Inductive IncidentPriority := LOW | MEDIUM | HIGH | CRITICAL.

Definition IncidentPriority_value (p : IncidentPriority) : string :=
  match p with
  | LOW => "low"
  | MEDIUM => "medium"
  | HIGH => "high"
  | CRITICAL => "critical"
  end.

(** The dataclass [Incident].  The text fields hold whatever the caller
    put under the key. *)
Record Incident := {
  id : string;
  title : pyval;
  description : pyval;
  equipment_id : pyval;
  location : pyval;
  priority : IncidentPriority;
  status : IncidentStatus;
  created_by : pyval;
  assigned_technician : pyval;
  created_at : datetime;
  updated_at : datetime;
  estimated_duration : option Z;
  actual_duration : option Z;
  resolution_notes : option string;
  attachments : pyval;
  tags : list string
}.

(** The dict built by [_analyze_incident]. *)
Record analysis := {
  suggested_tags : list string;
  risk_level : string;
  complexity : string;
  required_specialties : gset string;
  estimated_parts : list string;
  safety_concerns : list string
}.

Definition any_in (keywords : list string) (text : string) : bool :=
  existsb (fun keyword => contains keyword text) keywords.

Definition failure_types : list (string * list string) :=
  [("mecanica", ["motor"; "bomba"; "compresor"; "vibracion"; "ruido"]);
   ("electrica", ["corto"; "cable"; "voltaje"; "corriente"; "electrico"]);
   ("hidraulica", ["presion"; "fuga"; "aceite"; "hidraulico"]);
   ("neumatica", ["aire"; "neumatico"; "valvula"; "cilindro"]);
   ("electronica", ["sensor"; "controlador"; "plc"; "hmi"; "digital"])].

Definition specialty_mapping : gmap string (list string) :=
  list_to_map
    [("mecanica", ["mecanico"]);
     ("electrica", ["electrico"]);
     ("hidraulica", ["hidraulico"; "mecanico"]);
     ("neumatica", ["neumatico"; "mecanico"]);
     ("electronica", ["electronico"; "electrico"])].

Definition analyze_body (incident_data : gmap string pyval)
    : option analysis :=
  description ← as_str (get_or incident_data "description" (PyStr ""));
  title ← as_str (get_or incident_data "title" (PyStr ""));
  let full_text := (lower title ++ " " ++ lower description)%string in
  let detected_types :=
    map fst (List.filter (fun e => any_in (snd e) full_text)
               failure_types) in
  let critical :=
    any_in ["parada"; "emergencia"; "critico"; "urgente"; "falla total"]
      full_text in
  Some {|
    suggested_tags :=
      detected_types ++ (if critical then ["critico"] else []);
    risk_level := if critical then "high" else "medium";
    complexity :=
      if any_in ["complejo"; "multiple"; "sistema"; "integrado"] full_text
      then "high" else "medium";
    required_specialties :=
      list_to_set
        (concat (map (fun ft => default [] (specialty_mapping !! ft))
                   detected_types));
    estimated_parts := [];
    safety_concerns :=
      if any_in ["seguridad"; "riesgo"; "peligro"; "accidente"] full_text
      then ["requiere_evaluacion_seguridad"] else []
  |}.

(** The dict of the [except] branch holds three keys; the readers of
    the other three take a missing key for an empty list. *)
Definition _analyze_incident (incident_data : gmap string pyval)
    : analysis :=
  default
    {| suggested_tags := []; risk_level := "medium";
       complexity := "medium"; required_specialties := ∅;
       estimated_parts := []; safety_concerns := [] |}
    (analyze_body incident_data).

(** [table.get(key, dflt)] on a table keyed by strings: a list is no
    key and raises [TypeError]; any other value that is no string is a
    key the table does not hold. *)
Definition lookup_code (table : gmap string Z) (key : pyval) (dflt : Z)
    : option Z :=
  match key with
  | PyList _ => None
  | PyStr s => Some (default dflt (table !! s))
  | _ => Some dflt
  end.

Definition priority_body (incident_data : gmap string pyval)
    (a : analysis) : option IncidentPriority :=
  let risk :=
    default 2%Z
      ((list_to_map [("low", 1%Z); ("medium", 2%Z); ("high", 3%Z)]
          : gmap string Z) !! risk_level a) in
  crit ← lookup_code
           (list_to_map [("low", 1%Z); ("medium", 2%Z); ("high", 3%Z);
                         ("critical", 4%Z)])
           (get_or incident_data "equipment_criticality" (PyStr "medium"))
           2%Z;
  impact ← lookup_code
             (list_to_map [("none", 0%Z); ("low", 1%Z); ("medium", 2%Z);
                           ("high", 3%Z)])
             (get_or incident_data "production_impact" (PyStr "medium"))
             2%Z;
  description ← as_str (get_or incident_data "description" (PyStr ""));
  let priority_score :=
    (0 + risk + crit + impact +
     (if any_in ["parada"; "emergencia"; "critico"; "urgente"]
           (lower description) then 2 else 0))%Z in
  Some (if (8 <=? priority_score)%Z then CRITICAL
        else if (6 <=? priority_score)%Z then HIGH
        else if (4 <=? priority_score)%Z then MEDIUM
        else LOW).

Definition _determine_priority (incident_data : gmap string pyval)
    (a : analysis) : IncidentPriority :=
  default MEDIUM (priority_body incident_data a).

(** [int(x)]: truncation towards zero. *)
Definition py_int (x : Q) : Z :=
  if Qltb x 0 then (- Qfloor (- x))%Z else Qfloor x.

Definition _estimate_resolution_time (incident_data : gmap string pyval)
    (a : analysis) : Z :=
  let base_time := 120 in
  let base_time :=
    base_time *
    default 1.0
      ((list_to_map [("low", 0.5); ("medium", 1.0); ("high", 2.0)]
          : gmap string Q) !! complexity a) in
  let failure_type := suggested_tags a in
  let base_time :=
    if mem "electronica" failure_type then base_time * 1.5
    else if mem "mecanica" failure_type then base_time * 1.2
    else base_time in
  let specialties_count := size (required_specialties a) in
  let base_time :=
    if (1 <? specialties_count)%nat then base_time * 1.3 else base_time in
  py_int base_time.

(** The dict returned by [_auto_assign_technician]: either the chosen
    technician with the score, the reasons and the alternatives, or
    [success: False] with a message and [technician_id: None]. *)
Inductive assignment_result :=
  | Assigned (technician_id technician_name : pyval) (score : Q)
      (reasons : list TechnicianRecommendation.reason)
      (alternatives : list TechnicianRecommendation.recommendation)
  | NotAssigned (message : string).

Definition assignment_technician_id (r : assignment_result) : pyval :=
  match r with
  | Assigned technician_id _ _ _ _ => technician_id
  | NotAssigned _ => PyNone
  end.

Definition no_technicians_available : string :=
  "No hay técnicos disponibles".

Definition recommender_incident_data (incident : Incident)
    : gmap string pyval :=
  list_to_map
    [("equipment_type", equipment_id incident);
     ("failure_type", description incident);
     ("location", location incident);
     ("priority", PyStr (IncidentPriority_value (priority incident)));
     ("required_specialties", PyList [])].

Definition _auto_assign_technician
    (recommender : TechnicianRecommendation.db_connection)
    (incident : Incident) : assignment_result :=
  let recommendations :=
    TechnicianRecommendation.get_technician_recommendations recommender
      (recommender_incident_data incident) 3 in
  match recommendations with
  | [] => NotAssigned no_technicians_available
  | best_technician :: alternatives =>
      let tech := TechnicianRecommendation.rec_technician best_technician in
      match tech !! "id", tech !! "name" with
      | Some technician_id, Some technician_name =>
          Assigned technician_id technician_name
            (TechnicianRecommendation.score best_technician)
            (TechnicianRecommendation.reasons best_technician)
            alternatives
      | None, _ => NotAssigned "'id'"
      | _, None => NotAssigned "'name'"
      end
  end.

(** *** The data store of the incident manager *)

(** A row of [incident_performance]. *)
Record performance_record := {
  perf_incident_id : string;
  perf_estimated_duration : Q;
  perf_actual_duration : Q;
  efficiency : Q;
  completed_at : datetime
}.

(** The tables the manager writes: [incidents], keyed by [id], each row
    a map from column name to value, and [incident_performance]. *)
Record store := {
  incidents : gmap string (gmap string pyval);
  incident_performance : list performance_record
}.

(** The data-access object handed to the manager ([self.db]) as the
    queries of one call meet it: which of them it answers with an
    exception, and whether it carries out a statement that is no
    [SELECT]. *)
Record faults := {
  insert_incident_fails : bool;
  update_incident_fails : bool;
  select_incident_fails : bool;
  insert_performance_fails : bool;
  executes_writes : bool
}.

(** A data store that answers every query and carries out every
    statement. *)
Definition no_faults : faults :=
  {| insert_incident_fails := false; update_incident_fails := false;
     select_incident_fails := false; insert_performance_fails := false;
     executes_writes := true |}.

(** The [DatabaseConnection] of [core/database.py], which the routes
    hand to the manager ([get_incident_manager]).  Its [execute_query]
    catches every exception, and returns the empty list for a statement
    that is no [SELECT] without passing it on: see
    [Database.execute_query].  What it answers to the [SELECT] of
    [_generate_performance_analysis] makes no difference to the store,
    since the [INSERT] that may follow is not carried out. *)
Definition database_connection : faults :=
  {| insert_incident_fails := false; update_incident_fails := false;
     select_incident_fails := false; insert_performance_fails := false;
     executes_writes := false |}.

(** The statements of the manager, as the source spells them. *)
Definition insert_incident_query : string :=
  text_of_lines
    [""; "            INSERT INTO incidents (";
     "                id, title, description, equipment_id, location, priority,";
     ("                status, created_by, assigned_technician_id, " ++
      "created_at, updated_at,")%string;
     ("                estimated_duration, resolution_notes, " ++
      "attachments, tags")%string;
     "            ) VALUES (";
     ("                %s, %s, %s, %s, %s, %s, %s, %s, %s, %s, " ++
      "%s, %s, %s, %s, %s")%string;
     "            )"; "            "].

Definition update_incident_query : string :=
  text_of_lines
    [""; "            UPDATE incidents ";
     ("            SET status = %s, updated_at = %s, " ++
      "resolution_notes = %s, actual_duration = %s")%string;
     "            WHERE id = %s"; "            "].

Definition select_incident_query : string :=
  text_of_lines
    [""; "            SELECT * FROM incidents WHERE id = %s";
     "            "].

Definition insert_performance_query : string :=
  text_of_lines
    [""; "                INSERT INTO incident_performance (";
     "                    incident_id, estimated_duration, actual_duration, ";
     "                    efficiency, completed_at";
     "                ) VALUES (%s, %s, %s, %s, %s)"; "                "].

Definition opt_int (o : option Z) : pyval :=
  match o with Some z => PyInt z | None => PyNone end.

Definition opt_str (o : option string) : pyval :=
  match o with Some s => PyStr s | None => PyNone end.

(** The row [_save_incident] inserts. *)
Definition row_of_incident (incident : Incident) : gmap string pyval :=
  list_to_map
    [("id", PyStr (id incident));
     ("title", title incident);
     ("description", description incident);
     ("equipment_id", equipment_id incident);
     ("location", location incident);
     ("priority", PyStr (IncidentPriority_value (priority incident)));
     ("status", PyStr (IncidentStatus_value (status incident)));
     ("created_by", created_by incident);
     ("assigned_technician_id", assigned_technician incident);
     ("created_at", PyDateTime (created_at incident));
     ("updated_at", PyDateTime (updated_at incident));
     ("estimated_duration", opt_int (estimated_duration incident));
     ("resolution_notes", opt_str (resolution_notes incident));
     ("attachments", attachments incident);
     ("tags", PyList (tags incident))].

(** [json.dumps] of the attachments raises [TypeError] on a value it
    cannot write. *)
Definition json_serializable (v : pyval) : bool :=
  match v with
  | PyDateTime _ => false
  | _ => true
  end.

(** [None]: building the row or the insert raised (the store refused
    it, or the key is taken), and [_save_incident] raises again.  The
    function does not look at what [execute_query] returns. *)
Definition _save_incident (st : store) (f : faults) (incident : Incident)
    : option store :=
  if negb (json_serializable (attachments incident)) then None
  else if insert_incident_fails f then None
  else if negb (executes_writes f) then Some st
  else
    match incidents st !! id incident with
    | Some _ => None
    | None =>
        Some {| incidents :=
                  <[id incident := row_of_incident incident]> (incidents st);
                incident_performance := incident_performance st |}
    end.

Inductive incident_recommendation :=
  | VibrationMeasuringTools
  | HydraulicSealsAvailability
  | SpecialSafetyProcedure.

Definition _get_incident_recommendations (incident : Incident)
    : list incident_recommendation :=
  (if mem "mecanica" (tags incident) then [VibrationMeasuringTools] else [])
  ++ (if mem "hidraulica" (tags incident)
      then [HydraulicSealsAvailability] else [])
  ++ (match priority incident with
      | CRITICAL => [SpecialSafetyProcedure]
      | _ => []
      end).

Inductive create_result :=
  | Created (incident : Incident) (a : analysis)
      (assignment : option assignment_result)
      (recommendations : list incident_recommendation)
  | CreateError.

(** [incident_id] is the identifier drawn for the incident and [now] the
    reading of the clock; the notifications are empty stubs. *)
Definition create_incident
    (recommender : TechnicianRecommendation.db_connection)
    (st : store) (f : faults) (incident_id : string) (now : datetime)
    (incident_data : gmap string pyval) (auto_assign : bool)
    : create_result * store :=
  let a := _analyze_incident incident_data in
  let priority := _determine_priority incident_data a in
  let estimated_duration := _estimate_resolution_time incident_data a in
  let incident :=
    {| id := incident_id;
       title := get_or incident_data "title" (PyStr "");
       description := get_or incident_data "description" (PyStr "");
       equipment_id := get_or incident_data "equipment_id" (PyStr "");
       location := get_or incident_data "location" (PyStr "");
       priority := priority;
       status := PENDING;
       created_by := get_or incident_data "created_by" (PyStr "");
       assigned_technician := PyNone;
       created_at := now;
       updated_at := now;
       estimated_duration := Some estimated_duration;
       actual_duration := None;
       resolution_notes := None;
       attachments := get_or incident_data "attachments" (PyList []);
       tags := suggested_tags a |} in
  let assignment_result :=
    if auto_assign then Some (_auto_assign_technician recommender incident)
    else None in
  let incident :=
    match assignment_result with
    | Some r =>
        {| id := id incident; title := title incident;
           description := description incident;
           equipment_id := equipment_id incident;
           location := location incident;
           priority := IntelligentIncidentManagement.priority incident;
           status := status incident;
           created_by := created_by incident;
           assigned_technician := assignment_technician_id r;
           created_at := created_at incident;
           updated_at := updated_at incident;
           estimated_duration :=
             IntelligentIncidentManagement.estimated_duration incident;
           actual_duration := actual_duration incident;
           resolution_notes := resolution_notes incident;
           attachments := attachments incident;
           tags := tags incident |}
    | None => incident
    end in
  match _save_incident st f incident with
  | None => (CreateError, st)
  | Some st' =>
      (Created incident a assignment_result
         (_get_incident_recommendations incident), st')
  end.

(** [_generate_performance_analysis]: every exception is caught and
    leaves the store as it is. *)
Definition _generate_performance_analysis (st : store) (f : faults)
    (now : datetime) (incident_id : string) : store :=
  if select_incident_fails f then st
  else
    match incidents st !! incident_id with
    | None => st
    | Some incident =>
        let estimated := get_or incident "estimated_duration" (PyInt 0) in
        let actual := get_or incident "actual_duration" (PyInt 0) in
        match as_number estimated with
        | None => st
        | Some e =>
            if Qgtb e 0 then
              match as_number actual with
              | None => st
              | Some a =>
                  if Qgtb a 0 then
                    if insert_performance_fails f then st
                    else if negb (executes_writes f) then st
                    else
                      {| incidents := incidents st;
                         incident_performance :=
                           incident_performance st ++
                           [{| perf_incident_id := incident_id;
                               perf_estimated_duration := e;
                               perf_actual_duration := a;
                               efficiency := Qmin 1.0 (e / a);
                               completed_at := now |}] |}
                  else st
              end
            else st
        end
    end.

(** The dict returned by [update_incident_status]. *)
Inductive update_result :=
  | Updated (incident_id : string) (new_status : string)
      (updated_at : datetime)
  | UpdateError.

(** The [UPDATE] statement: four columns of the row with that [id]. *)
Definition update_row (new_status : IncidentStatus) (now : datetime)
    (notes : option string) (actual_duration : option Z)
    (row : gmap string pyval) : gmap string pyval :=
  <["status" := PyStr (IncidentStatus_value new_status)]>
    (<["updated_at" := PyDateTime now]>
       (<["resolution_notes" := opt_str notes]>
          (<["actual_duration" := opt_int actual_duration]> row))).

Definition update_incident_status (st : store) (f : faults)
    (now : datetime) (incident_id : string) (new_status : IncidentStatus)
    (notes : option string) (actual_duration : option Z)
    : update_result * store :=
  if update_incident_fails f then (UpdateError, st)
  else
    let st1 :=
      if negb (executes_writes f) then st
      else
        {| incidents :=
             alter (update_row new_status now notes actual_duration)
               incident_id (incidents st);
           incident_performance := incident_performance st |} in
    let st2 :=
      match new_status with
      | COMPLETED => _generate_performance_analysis st1 f now incident_id
      | _ => st1
      end in
    (Updated incident_id (IncidentStatus_value new_status) now, st2).

(** The calls of the manager that write to the store, and a history of
    such calls applied in order. *)
Inductive operation :=
  | OpCreate (recommender : TechnicianRecommendation.db_connection)
      (f : faults) (incident_id : string) (now : datetime)
      (incident_data : gmap string pyval) (auto_assign : bool)
  | OpUpdateStatus (f : faults) (now : datetime) (incident_id : string)
      (new_status : IncidentStatus) (notes : option string)
      (actual_duration : option Z).

Definition apply_operation (st : store) (op : operation) : store :=
  match op with
  | OpCreate recommender f incident_id now incident_data auto_assign =>
      snd (create_incident recommender st f incident_id now incident_data
             auto_assign)
  | OpUpdateStatus f now incident_id new_status notes actual_duration =>
      snd (update_incident_status st f now incident_id new_status notes
             actual_duration)
  end.

Definition run (st : store) (history : list operation) : store :=
  foldl apply_operation st history.

(** The columns the [UPDATE] of [update_incident_status] writes. *)
Definition written_by_update (column : string) : Prop :=
  column = "status" \/ column = "updated_at" \/
  column = "resolution_notes" \/ column = "actual_duration".

(** The value a stored incident holds in a column, if any. *)
Definition column_of (st : store) (incident_id column : string)
    : option pyval :=
  row ← incidents st !! incident_id; row !! column.

End IntelligentIncidentManagement.

(** ** [intelligent_incident_management.py]: the workload of a
    technician as the manager rates it *)

Module ManagerWorkload.
Import PyNum PyVal.
Local Open Scope Q_scope.

(** The [try] body of [_calculate_workload_score], on the row of
    [get_technician_workload]. *)
Definition manager_workload_body (workload : gmap string pyval)
    : option Q :=
  let score := 0 in
  pending ← as_number (get_or workload "pending" (PyInt 0));
  let score :=
    if Qgtb pending 5 then score + 0.4
    else if Qgtb pending 3 then score + 0.3
    else if Qgtb pending 1 then score + 0.2
    else score in
  in_progress ← as_number (get_or workload "in_progress" (PyInt 0));
  let score :=
    if Qgtb in_progress 3 then score + 0.3
    else if Qgtb in_progress 2 then score + 0.2
    else if Qgtb in_progress 0 then score + 0.1
    else score in
  critical ← as_number (get_or workload "critical_count" (PyInt 0));
  let score :=
    if Qgtb critical 2 then score + 0.3
    else if Qgtb critical 0 then score + 0.2
    else score in
  Some (Qmin score 1.0).

Definition _calculate_workload_score (workload : gmap string pyval) : Q :=
  default 0.5 (manager_workload_body workload).

Definition _get_workload_status (score : Q) : string :=
  if Qgeb score 0.8 then "overloaded"
  else if Qgeb score 0.6 then "high"
  else if Qgeb score 0.4 then "medium"
  else "low".

End ManagerWorkload.

(** ** Synthetic series, for stating the trend properties *)

Module Synthetic.
Import PyNum.
Local Open Scope Q_scope.

(** Every value exceeds its predecessor by more than [d]; with [d = 0]
    the series is strictly increasing. *)
Fixpoint steps_above (d : Q) (values : list Q) : Prop :=
  match values with
  | a :: (b :: _) as rest => a + d < b /\ steps_above d rest
  | _ => True
  end.

(** Every value exceeds its predecessor by [d] at least. *)
Fixpoint steps_at_least (d : Q) (values : list Q) : Prop :=
  match values with
  | a :: (b :: _) as rest => a + d <= b /\ steps_at_least d rest
  | _ => True
  end.

(** The series 0, step, 2 step, ... of [n] values. *)
Definition ramp (step : Q) (n : nat) : list Q :=
  map (fun i => Q_of_nat i * step) (seq 0 n).

(** A frame with a single channel. *)
Definition one_channel (name : string) (c : Frame.column)
    : gmap string Frame.column :=
  {[ name := c ]}.

(** A data store without any row, and a recommender whose technician
    query comes back empty. *)
Definition empty_store : IntelligentIncidentManagement.store :=
  {| IntelligentIncidentManagement.incidents := ∅;
     IntelligentIncidentManagement.incident_performance := [] |}.

Definition no_technicians : TechnicianRecommendation.db_connection :=
  {| TechnicianRecommendation.technician_rows := Some [];
     TechnicianRecommendation.performance_rows := fun _ => Some [] |}.

(** A report of a vibrating motor, and the store after it was created
    with automatic assignment while no technician was available. *)
Definition motor_report : gmap string PyVal.pyval :=
  list_to_map
    [("title", PyVal.PyStr "Vibracion en motor");
     ("description", PyVal.PyStr "El motor vibra");
     ("equipment_id", PyVal.PyStr "motor");
     ("location", PyVal.PyStr "Planta Lima");
     ("created_by", PyVal.PyStr "operador")].

Definition store_with_pending : IntelligentIncidentManagement.store :=
  snd (IntelligentIncidentManagement.create_incident no_technicians
         empty_store IntelligentIncidentManagement.no_faults "INC-1" 1000%Z
         motor_report true).

(** A technician row as the technician query returns it. *)
Definition technician_row (id : Z) (name specialty : string)
    (experience_years : Z) (skill_level : string) (current_workload : Z)
    (location : string) : gmap string PyVal.pyval :=
  list_to_map
    [("id", PyVal.PyInt id);
     ("name", PyVal.PyStr name);
     ("specialty", PyVal.PyStr specialty);
     ("experience_years", PyVal.PyInt experience_years);
     ("skill_level", PyVal.PyStr skill_level);
     ("current_workload", PyVal.PyInt current_workload);
     ("location", PyVal.PyStr location)].

(** A pool of one junior electronics technician without experience and
    without open work, far from the plant, and without history. *)
Definition single_candidate : TechnicianRecommendation.db_connection :=
  {| TechnicianRecommendation.technician_rows :=
       Some [technician_row 7 "Ana" "electronico" 0 "junior" 0 "Arequipa"];
     TechnicianRecommendation.performance_rows := fun _ => Some [] |}.

(** The incident of [motor_report] as [create_incident] builds it. *)
Definition motor_incident : IntelligentIncidentManagement.Incident :=
  {| IntelligentIncidentManagement.id := "INC-1";
     IntelligentIncidentManagement.title := PyVal.PyStr "Vibracion en motor";
     IntelligentIncidentManagement.description :=
       PyVal.PyStr "El motor vibra";
     IntelligentIncidentManagement.equipment_id := PyVal.PyStr "motor";
     IntelligentIncidentManagement.location := PyVal.PyStr "Planta Lima";
     IntelligentIncidentManagement.priority :=
       IntelligentIncidentManagement.HIGH;
     IntelligentIncidentManagement.status :=
       IntelligentIncidentManagement.PENDING;
     IntelligentIncidentManagement.created_by := PyVal.PyStr "operador";
     IntelligentIncidentManagement.assigned_technician := PyVal.PyNone;
     IntelligentIncidentManagement.created_at := 1000%Z;
     IntelligentIncidentManagement.updated_at := 1000%Z;
     IntelligentIncidentManagement.estimated_duration := Some 144%Z;
     IntelligentIncidentManagement.actual_duration := None;
     IntelligentIncidentManagement.resolution_notes := None;
     IntelligentIncidentManagement.attachments := PyVal.PyList [];
     IntelligentIncidentManagement.tags := ["mecanica"] |}.

(** An expert mechanic with twelve years, no open work, at the plant,
    with a good history; and a critical mechanical failure of a motor at
    the plant. *)
Definition veteran : gmap string PyVal.pyval :=
  technician_row 3 "Luis" "mecanico" 12 "expert" 0 "Planta Lima".

Definition good_history : TechnicianRecommendation.db_connection :=
  {| TechnicianRecommendation.technician_rows := Some [veteran];
     TechnicianRecommendation.performance_rows := fun _ =>
       Some [{| TechnicianRecommendation.completion_rate := Some 1;
                TechnicianRecommendation.avg_resolution_time := Some 0.48;
                TechnicianRecommendation.critical_resolved := Some 5%Z |}]
  |}.

Definition critical_motor_failure : gmap string PyVal.pyval :=
  list_to_map
    [("equipment_type", PyVal.PyStr "motor");
     ("failure_type", PyVal.PyStr "mecanica");
     ("location", PyVal.PyStr "Planta Lima");
     ("priority", PyVal.PyStr "critical")].

(** A row like the one of [veteran], with the specialty left NULL. *)
Definition no_specialty : gmap string PyVal.pyval :=
  <["specialty" := PyVal.PyNone]> veteran.


(** A technician row whose years of experience are negative. *)
Definition negative_years : gmap string PyVal.pyval :=
  technician_row 7 "Ana" "electronico" (-40) "expert" 9 "Arequipa".

(** The series [b], [a + b], [2 a + b], ... of [n] values. *)
Definition line (a b : Q) (n : nat) : list Q :=
  map (fun i => a * Q_of_nat i + b) (seq 0 n).

(** A store with one incident in progress, estimated at 144 minutes. *)
Definition store_with_estimate : IntelligentIncidentManagement.store :=
  {| IntelligentIncidentManagement.incidents :=
       {[ "INC-2" :=
            list_to_map
              [("status", PyVal.PyStr "in_progress");
               ("estimated_duration", PyVal.PyInt 144)]
       ]};
     IntelligentIncidentManagement.incident_performance := [] |}.

End Synthetic.

(** * Part II: the theorems *)

(** ** Comparisons *)

Section Comparisons.
Import PyNum.
Local Open Scope Q_scope.

Lemma Qgeb_true (x y : Q) : Qgeb x y = true <-> y <= x.
Proof. unfold Qgeb. apply Qle_bool_iff. Qed.

Lemma Qgeb_false (x y : Q) : Qgeb x y = false <-> x < y.
Proof.
  unfold Qgeb. rewrite <- not_true_iff_false, Qle_bool_iff.
  split; [apply Qnot_le_lt | apply Qlt_not_le].
Qed.

Lemma Qgtb_true (x y : Q) : Qgtb x y = true <-> y < x.
Proof. unfold Qgtb. rewrite negb_true_iff. apply (Qgeb_false y x). Qed.

Lemma Qgtb_false (x y : Q) : Qgtb x y = false <-> x <= y.
Proof. unfold Qgtb. rewrite negb_false_iff. apply Qle_bool_iff. Qed.

Lemma Qltb_true (x y : Q) : Qltb x y = true <-> x < y.
Proof. apply Qgtb_true. Qed.

Lemma Qltb_false (x y : Q) : Qltb x y = false <-> y <= x.
Proof. apply Qgtb_false. Qed.

Lemma Qleb_true (x y : Q) : Qleb x y = true <-> x <= y.
Proof. apply Qle_bool_iff. Qed.

Lemma Qleb_false (x y : Q) : Qleb x y = false <-> y < x.
Proof. apply (Qgeb_false y x). Qed.

End Comparisons.

(** Splits on the first comparison of the goal and keeps the order fact. *)
Ltac qcase :=
  match goal with
  | |- context [PyNum.Qgeb ?x ?y] =>
      let E := fresh "Hcmp" in
      destruct (PyNum.Qgeb x y) eqn:E;
      [ apply Qgeb_true in E | apply Qgeb_false in E ]
  | |- context [PyNum.Qgtb ?x ?y] =>
      let E := fresh "Hcmp" in
      destruct (PyNum.Qgtb x y) eqn:E;
      [ apply Qgtb_true in E | apply Qgtb_false in E ]
  | |- context [PyNum.Qltb ?x ?y] =>
      let E := fresh "Hcmp" in
      destruct (PyNum.Qltb x y) eqn:E;
      [ apply Qltb_true in E | apply Qltb_false in E ]
  | |- context [PyNum.Qleb ?x ?y] =>
      let E := fresh "Hcmp" in
      destruct (PyNum.Qleb x y) eqn:E;
      [ apply Qleb_true in E | apply Qleb_false in E ]
  end.

Ltac qcases := repeat qcase.

(** ** Double precision: rounding is monotone and accurate *)

Section FloatFacts.
Import Float64.
Local Open Scope Q_scope.

Lemma Qfloor_unique (q : Q) (z : Z) :
  inject_Z z <= q -> q < inject_Z (z + 1) -> Qfloor q = z.
Proof.
  intros H1 H2.
  pose proof (Qfloor_le q) as F1. pose proof (Qlt_floor q) as F2.
  assert (A : (z < Qfloor q + 1)%Z).
  { rewrite Zlt_Qlt. eapply Qle_lt_trans; [exact H1|exact F2]. }
  assert (B : (Qfloor q < z + 1)%Z).
  { rewrite Zlt_Qlt. eapply Qle_lt_trans; [exact F1|exact H2]. }
  lia.
Qed.

Lemma rne_floor (q : Q) : rne q = Qfloor q \/ rne q = (Qfloor q + 1)%Z.
Proof.
  unfold rne. destruct (Qcompare _ _); [destruct (Z.even _)| |]; auto.
Qed.

Lemma rne_error (q : Q) :
  - (1 # 2) <= inject_Z (rne q) - q <= 1 # 2.
Proof.
  pose proof (Qfloor_le q) as F1. pose proof (Qlt_floor q) as F2.
  rewrite inject_Z_plus in F2. change (inject_Z 1) with 1 in F2.
  unfold rne.
  destruct (Qcompare_spec (q - inject_Z (Qfloor q)) (1 # 2)) as [E|E|E].
  - destruct (Z.even (Qfloor q)).
    + lra.
    + rewrite inject_Z_plus. change (inject_Z 1) with 1. lra.
  - lra.
  - rewrite inject_Z_plus. change (inject_Z 1) with 1. lra.
Qed.

Lemma rne_inject_Z (q : Q) (z : Z) : q == inject_Z z -> rne q = z.
Proof.
  intros E.
  assert (F : Qfloor q = z).
  { apply Qfloor_unique; rewrite E.
    - apply Qle_refl.
    - rewrite <- Zlt_Qlt. lia. }
  unfold rne. rewrite F.
  destruct (Qcompare_spec (q - inject_Z z) (1 # 2)) as [H|H|H]; [lra|reflexivity|lra].
Qed.

Lemma rne_mono (q q' : Q) : q <= q' -> (rne q <= rne q')%Z.
Proof.
  intros H.
  pose proof (Qfloor_resp_le _ _ H) as Hf.
  destruct (Z.eq_dec (Qfloor q) (Qfloor q')) as [E|Hne].
  - unfold rne. rewrite <- E.
    destruct (Qcompare_spec (q - inject_Z (Qfloor q)) (1 # 2)) as [H1|H1|H1];
      destruct (Qcompare_spec (q' - inject_Z (Qfloor q)) (1 # 2))
        as [H2|H2|H2];
      try destruct (Z.even (Qfloor q)); try lia; exfalso; lra.
  - destruct (rne_floor q) as [-> | ->], (rne_floor q') as [-> | ->]; lia.
Qed.

Lemma rne_nonneg (q : Q) : 0 <= q -> (0 <= rne q)%Z.
Proof.
  intros H. replace 0%Z with (rne 0) by reflexivity. by apply rne_mono.
Qed.

Lemma pow2_pos (z : Z) : 0 < 2 ^ z.
Proof. apply Qpower_0_lt. reflexivity. Qed.

Lemma pow2_succ (z : Z) : 2 ^ (z + 1) == 2 * 2 ^ z.
Proof.
  rewrite Qpower_plus by (intros H; discriminate H).
  rewrite Qpower_1_r. ring.
Qed.

Lemma pow2_inject_Z (z : Z) : (0 <= z)%Z -> 2 ^ z == inject_Z (2 ^ z).
Proof. intros H. by rewrite Zpower_Qpower. Qed.

Lemma pow2_le (a b : Z) : (a <= b)%Z -> 2 ^ a <= 2 ^ b.
Proof. intros H. apply Qpower_le_compat_l; [exact H|]. discriminate. Qed.

(** The powers of two that bracket a number other than zero. *)
Lemma ilog2_spec (x : Q) :
  ~ x == 0 -> 2 ^ ilog2 x <= Qabs x < 2 ^ (ilog2 x + 1).
Proof.
  intros Hx. unfold ilog2.
  set (n := Z.abs (Qnum x)). set (d := Zpos (Qden x)).
  assert (Hn : (0 < n)%Z).
  { unfold n. destruct x as [[|p|p] dd]; simpl; try lia.
    exfalso. apply Hx. reflexivity. }
  assert (Hd : (0 < d)%Z) by (unfold d; lia).
  destruct (Z.log2_spec n Hn) as [N1 N2].
  destruct (Z.log2_spec d Hd) as [D1 D2].
  pose proof (Z.log2_nonneg n) as Ln. pose proof (Z.log2_nonneg d) as Ld.
  set (ln := Z.log2 n) in *. set (ld := Z.log2 d) in *.
  assert (EX : Qabs x * inject_Z d == inject_Z n).
  { unfold n, d. destruct x as [nn dd]. unfold Qabs, Qeq, Qmult, inject_Z.
    simpl. lia. }
  assert (N1' : 2 ^ ln <= inject_Z n).
  { rewrite pow2_inject_Z by lia. by rewrite <- Zle_Qle. }
  assert (N2' : inject_Z n < 2 * 2 ^ ln).
  { rewrite <- pow2_succ, pow2_inject_Z by lia. rewrite <- Zlt_Qlt.
    rewrite Z.add_1_r. exact N2. }
  assert (D1' : 2 ^ ld <= inject_Z d).
  { rewrite pow2_inject_Z by lia. by rewrite <- Zle_Qle. }
  assert (D2' : inject_Z d < 2 * 2 ^ ld).
  { rewrite <- pow2_succ, pow2_inject_Z by lia. rewrite <- Zlt_Qlt.
    rewrite Z.add_1_r. exact D2. }
  clear N1 N2 D1 D2.
  assert (EK : 2 ^ (ln - ld) * 2 ^ ld == 2 ^ ln).
  { rewrite <- Qpower_plus by (intros H; discriminate H).
    by replace (ln - ld + ld)%Z with ln by lia. }
  pose proof (pow2_pos (ln - ld)) as PK.
  pose proof (pow2_pos ld) as PD. pose proof (pow2_pos ln) as PN.
  assert (Hd' : 0 < inject_Z d).
  { change 0 with (inject_Z 0). by rewrite <- Zlt_Qlt. }
  pose proof (Qabs_nonneg x) as HX.
  set (X := Qabs x) in *. set (A := 2 ^ ln) in *. set (B := 2 ^ ld) in *.
  set (P := 2 ^ (ln - ld)) in *. set (N := inject_Z n) in *.
  set (D := inject_Z d) in *.
  destruct (Qle_bool P X) eqn:T.
  - apply Qle_bool_iff in T. split; [exact T|].
    rewrite pow2_succ. fold P.
    (* X * D == N < 2 A == 2 P B <= 2 P D *)
    apply (Qmult_lt_r _ _ D Hd').
    assert (H1 : 2 * P * B <= 2 * P * D) by nra.
    nra.
  - apply not_true_iff_false in T.
    assert (T' : X < P).
    { apply Qnot_le_lt. intros H. apply T. by apply Qle_bool_iff. }
    replace (ln - ld - 1 + 1)%Z with (ln - ld)%Z by lia. fold P.
    split; [|exact T'].
    assert (EP : 2 * 2 ^ (ln - ld - 1) == P).
    { rewrite <- pow2_succ. unfold P. by replace (ln - ld - 1 + 1)%Z
        with (ln - ld)%Z by lia. }
    set (P' := 2 ^ (ln - ld - 1)) in *.
    apply (Qmult_le_r _ _ D Hd').
    (* 2 P' D < 2 P' 2 B = 2 A <= 2 N = 2 X D *)
    assert (H1 : P' * D <= P' * (2 * B))
      by (pose proof (pow2_pos (ln - ld - 1)); fold P' in H; nra).
    nra.
Qed.

Lemma ilog2_le (x y : Q) :
  ~ x == 0 -> ~ y == 0 -> Qabs x <= Qabs y -> (ilog2 x <= ilog2 y)%Z.
Proof.
  intros Hx Hy H.
  destruct (ilog2_spec x Hx) as [X1 _]. destruct (ilog2_spec y Hy) as [_ Y2].
  assert (L : 2 ^ ilog2 x < 2 ^ (ilog2 y + 1)) by lra.
  apply Qpower_lt_compat_l_inv in L; [lia|reflexivity].
Qed.

Lemma round_to_mono (u : Z) (x y : Q) :
  x <= y -> round_to u x <= round_to u y.
Proof.
  intros H. unfold round_to. pose proof (pow2_pos u) as P.
  apply Qmult_le_compat_r; [|lra].
  rewrite <- Zle_Qle. apply rne_mono.
  apply Qmult_le_compat_r; [exact H|].
  apply Qlt_le_weak, Qinv_lt_0_compat, P.
Qed.

Lemma round_to_pow2 (u e : Z) : (u <= e)%Z -> round_to u (2 ^ e) == 2 ^ e.
Proof.
  intros H. unfold round_to.
  assert (E : 2 ^ e / 2 ^ u == inject_Z (2 ^ (e - u))).
  { rewrite <- Qpower_minus by (intros H0; discriminate H0).
    apply pow2_inject_Z. lia. }
  rewrite (rne_inject_Z _ _ E), <- pow2_inject_Z by lia.
  rewrite <- Qpower_plus by (intros H0; discriminate H0).
  by replace (e - u + u)%Z with e by lia.
Qed.

Lemma round_to_error (u : Z) (x : Q) :
  Qabs (round_to u x - x) <= 2 ^ u * (1 # 2).
Proof.
  unfold round_to. pose proof (pow2_pos u) as P.
  pose proof (rne_error (x / 2 ^ u)) as [E1 E2].
  assert (Ex : x / 2 ^ u * 2 ^ u == x).
  { rewrite Qmult_comm. apply Qmult_div_r. lra. }
  set (r := inject_Z (rne (x / 2 ^ u))) in *.
  set (s := x / 2 ^ u) in *. set (w := 2 ^ u) in *.
  apply Qabs_Qle_condition. split; nra.
Qed.

Lemma ulp_exponent_le (x y : Q) :
  ~ x == 0 -> ~ y == 0 -> Qabs x <= Qabs y ->
  (ulp_exponent x <= ulp_exponent y)%Z.
Proof.
  intros Hx Hy H. pose proof (ilog2_le x y Hx Hy H).
  unfold ulp_exponent. lia.
Qed.

Lemma round_magnitude_mono (x y : Q) :
  0 < x -> x <= y -> round_magnitude x <= round_magnitude y.
Proof.
  intros Hx Hxy. unfold round_magnitude.
  assert (Nx : ~ x == 0) by lra. assert (Ny : ~ y == 0) by lra.
  assert (Ha : Qabs x <= Qabs y).
  { rewrite !Qabs_pos by lra. exact Hxy. }
  pose proof (ulp_exponent_le x y Nx Ny Ha) as Hu.
  pose proof (ilog2_le x y Nx Ny Ha) as He.
  destruct (Z.eq_dec (ulp_exponent x) (ulp_exponent y)) as [E|Hne].
  - rewrite E. by apply round_to_mono.
  - destruct (ilog2_spec x Nx) as [_ X2].
    destruct (ilog2_spec y Ny) as [Y1 _].
    rewrite Qabs_pos in X2, Y1 by lra.
    assert (Hlt : (ilog2 x < ilog2 y)%Z).
    { unfold ulp_exponent in *. lia. }
    assert (Huy : (ulp_exponent y <= ilog2 y)%Z).
    { unfold ulp_exponent in *. lia. }
    assert (X3 : x <= 2 ^ ilog2 y).
    { assert (Hs : (ilog2 x + 1 <= ilog2 y)%Z) by lia.
      pose proof (pow2_le _ _ Hs). lra. }
    apply Qle_trans with (2 ^ ilog2 y).
    + rewrite <- (round_to_pow2 (ulp_exponent x) (ilog2 y)) by lia.
      by apply round_to_mono.
    + rewrite <- (round_to_pow2 (ulp_exponent y) (ilog2 y)) at 1 by lia.
      by apply round_to_mono.
Qed.

Lemma round_magnitude_nonneg (x : Q) : 0 <= x -> 0 <= round_magnitude x.
Proof.
  intros H. unfold round_magnitude, round_to.
  pose proof (pow2_pos (ulp_exponent x)) as P.
  apply Qmult_le_0_compat; [|lra].
  change 0 with (inject_Z 0). rewrite <- Zle_Qle. apply rne_nonneg.
  apply Qle_shift_div_l; lra.
Qed.

(** Rounding to the nearest double keeps the order. *)
Lemma b64_mono (x y : Q) : x <= y -> b64 x <= b64 y.
Proof.
  intros H. unfold b64.
  destruct (Qcompare_spec x 0) as [Ex|Ex|Ex];
    destruct (Qcompare_spec y 0) as [Ey|Ey|Ey]; try lra.
  - pose proof (round_magnitude_nonneg y). lra.
  - pose proof (round_magnitude_nonneg (- x)). lra.
  - assert (H' : round_magnitude (- y) <= round_magnitude (- x))
      by (apply round_magnitude_mono; lra).
    lra.
  - pose proof (round_magnitude_nonneg (- x)).
    pose proof (round_magnitude_nonneg y). lra.
  - by apply round_magnitude_mono.
Qed.

Lemma round_magnitude_error (a : Q) (e : Z) :
  0 < a -> a < 2 ^ (e + 1) -> (-1022 <= e)%Z ->
  Qabs (round_magnitude a - a) <= 2 ^ (e - 53).
Proof.
  intros Ha Hlt He. unfold round_magnitude.
  assert (Na : ~ a == 0) by lra.
  destruct (ilog2_spec a Na) as [A1 _]. rewrite Qabs_pos in A1 by lra.
  assert (L : 2 ^ ilog2 a < 2 ^ (e + 1)) by lra.
  apply Qpower_lt_compat_l_inv in L; [|reflexivity].
  assert (Hu : (ulp_exponent a <= e - 52)%Z) by (unfold ulp_exponent; lia).
  pose proof (round_to_error (ulp_exponent a) a) as Herr.
  pose proof (pow2_le _ _ Hu) as Hp.
  assert (E : 2 ^ (e - 52) * (1 # 2) == 2 ^ (e - 53)).
  { replace (e - 52)%Z with (e - 53 + 1)%Z by lia. rewrite pow2_succ. ring. }
  lra.
Qed.

(** The rounding error of a result below [2 ^ (e + 1)] in magnitude is
    at most half a unit in the last place of that binade. *)
Lemma b64_error (x : Q) (e : Z) :
  Qabs x < 2 ^ (e + 1) -> (-1022 <= e)%Z ->
  Qabs (b64 x - x) <= 2 ^ (e - 53).
Proof.
  intros Hx He. unfold b64.
  destruct (Qcompare_spec x 0) as [E|E|E].
  - pose proof (pow2_pos (e - 53)).
    apply Qabs_Qle_condition. split; lra.
  - rewrite Qabs_neg in Hx by lra.
    assert (Ha : 0 < - x) by lra.
    pose proof (round_magnitude_error (- x) e Ha Hx He) as H.
    assert (Eq : - round_magnitude (- x) - x ==
                 - (round_magnitude (- x) - - x)) by ring.
    rewrite Eq, Qabs_opp. exact H.
  - rewrite Qabs_pos in Hx by lra.
    by apply round_magnitude_error.
Qed.

Lemma b64_error_below_1 (x : Q) :
  Qabs x < 1 -> Qabs (b64 x - x) <= 1 # 18014398509481984.
Proof. intros H. apply (b64_error x (-1)); [exact H|lia]. Qed.

Lemma b64_error_below_2 (x : Q) :
  Qabs x < 2 -> Qabs (b64 x - x) <= 1 # 9007199254740992.
Proof. intros H. apply (b64_error x 0); [exact H|lia]. Qed.

(** The model against the machine: the doubles of 0.1 and of
    0.1 + 0.2, and the criticality score whose exact value is 0.4. *)
Lemma b64_examples :
  b64 0.1 == 3602879701896397 # 36028797018963968 /\
  fadd (b64 0.1) (b64 0.2) == 1351079888211149 # 4503599627370496 /\
  fadd (fadd (fmul (b64 0.58) (b64 0.4)) (fmul (b64 0.06) (b64 0.3)))
       (fmul 0.5 (b64 0.3)) == 7205759403792793 # 18014398509481984.
Proof. repeat split; vm_compute; reflexivity. Qed.

End FloatFacts.

(** ** Criticality evaluator *)

Section CriticalityFacts.
Import PyNum Float64 AdvancedPredictiveMaintenance.
Local Open Scope Q_scope.

Lemma level_of_score_bands (s : Q) :
  (level_of_score s = "critical" <-> b64 0.8 <= s) /\
  (level_of_score s = "high" <-> b64 0.6 <= s < b64 0.8) /\
  (level_of_score s = "medium" <-> b64 0.4 <= s < b64 0.6) /\
  (level_of_score s = "low" <-> s < b64 0.4).
Proof.
  assert (T1 : b64 0.4 < b64 0.6) by (vm_compute; reflexivity).
  assert (T2 : b64 0.6 < b64 0.8) by (vm_compute; reflexivity).
  unfold level_of_score.
  set (t4 := b64 0.4) in *. set (t6 := b64 0.6) in *.
  set (t8 := b64 0.8) in *. clearbody t4 t6 t8.
  qcases; repeat split; intros; try discriminate; try lra.
Qed.

(** The thresholds are the doubles nearest to 0.8, 0.6 and 0.4. *)
Lemma thresholds_near :
  Qabs (b64 0.8 - 0.8) <= 1 # 10000000000000000 /\
  Qabs (b64 0.6 - 0.6) <= 1 # 10000000000000000 /\
  Qabs (b64 0.4 - 0.4) <= 1 # 10000000000000000.
Proof.
  repeat split; apply Qle_bool_iff; vm_compute; reflexivity.
Qed.

(** The computed score is the exact weighted sum up to the rounding of
    the five operations and of the two literals. *)
Lemma criticality_score_error (p a : Q) (c : string) :
  0 <= p <= 1 -> 0 <= a <= 1 ->
  Qabs (criticality_score p a c -
        (0.4 * p + 0.3 * a +
         0.3 * (if String.eqb c "high" then 1 else 0.5)))
  <= 1 # 1000000000000000.
Proof.
  intros Hp Ha. unfold criticality_score, fadd, fmul.
  remember (b64 0.4) as c4 eqn:E4. vm_compute in E4. subst c4.
  remember (b64 0.3) as c3 eqn:E3. vm_compute in E3. subst c3.
  set (w := if String.eqb c "high" then 1 else 0.5).
  assert (Hw : w = 1 \/ w = 0.5)
    by (unfold w; destruct (String.eqb c "high"); auto).
  clearbody w.
  match goal with
  | |- context [b64 (p * ?k)] =>
      pose proof (b64_error_below_1 (p * k)) as E1;
      set (x1 := b64 (p * k)) in *
  end.
  match goal with
  | |- context [b64 (a * ?k)] =>
      pose proof (b64_error_below_1 (a * k)) as E2;
      set (x2 := b64 (a * k)) in *;
      pose proof (b64_error_below_1 (w * k)) as E3;
      set (x3 := b64 (w * k)) in *
  end.
  pose proof (b64_error_below_1 (x1 + x2)) as E4.
  set (y := b64 (x1 + x2)) in *.
  pose proof (b64_error_below_2 (y + x3)) as E5.
  set (z := b64 (y + x3)) in *.
  clearbody x1 x2 x3 y z.
  assert (B1 : Qabs (x1 - _) <= _)
    by (apply E1, Qabs_Qlt_condition; split; lra).
  assert (B2 : Qabs (x2 - _) <= _)
    by (apply E2, Qabs_Qlt_condition; split; lra).
  assert (B3 : Qabs (x3 - _) <= _)
    by (apply E3, Qabs_Qlt_condition;
        destruct Hw as [-> | ->]; split; lra).
  clear E1 E2 E3.
  apply Qabs_Qle_condition in B1, B2, B3.
  assert (B4 : Qabs (y - _) <= _)
    by (apply E4, Qabs_Qlt_condition; split; lra).
  apply Qabs_Qle_condition in B4.
  assert (B5 : Qabs (z - _) <= _)
    by (apply E5, Qabs_Qlt_condition;
        destruct Hw as [-> | ->]; split; lra).
  apply Qabs_Qle_condition in B5.
  apply Qabs_Qle_condition.
  destruct Hw as [-> | ->]; split; lra.
Qed.

(** C1, as the code has it.  For every failure probability and anomaly
    score in [0, 1] and every equipment whose stored criticality is
    high, medium or low (a missing one counts as medium), the evaluator
    computes, in double precision, [p*0.4 + a*0.3 + w*0.3] with [w] = 1
    for high and 0.5 for medium and low; the result is within 1e-15 of
    the exact sum.  It answers critical iff the computed score is at
    least the double 0.8, high iff it lies in [0.6, 0.8), medium iff in
    [0.4, 0.6), low below: so the tier is the one of the exact sum
    whenever that sum is 2e-15 away from the thresholds.  A
    high-criticality equipment with p = 0.72 and a = 0.55 scores 0.753,
    tier high; on a threshold the rounding decides, as for a medium
    equipment with p = 0.58 and a = 0.06, whose exact sum is 0.4 and
    whose tier is low. *)
Theorem assess_criticality_bands
    (p a : Q) (d : equipment_data) :
  default "medium" (criticality d) ∈ ["high"; "medium"; "low"] ->
  0 <= p <= 1 -> 0 <= a <= 1 ->
  let w :=
    if String.eqb (default "medium" (criticality d)) "high"
    then 1 else 0.5 in
  let exact := 0.4 * p + 0.3 * a + 0.3 * w in
  let score := criticality_score p a (default "medium" (criticality d)) in
  let margin := 2 # 1000000000000000 in
  score =
    fadd (fadd (fmul p (b64 0.4)) (fmul a (b64 0.3))) (fmul w (b64 0.3)) /\
  Qabs (score - exact) <= 1 # 1000000000000000 /\
  (_assess_criticality p a d = "critical" <-> b64 0.8 <= score) /\
  (_assess_criticality p a d = "high" <-> b64 0.6 <= score < b64 0.8) /\
  (_assess_criticality p a d = "medium" <-> b64 0.4 <= score < b64 0.6) /\
  (_assess_criticality p a d = "low" <-> score < b64 0.4) /\
  (0.8 + margin <= exact -> _assess_criticality p a d = "critical") /\
  (0.6 + margin <= exact <= 0.8 - margin ->
   _assess_criticality p a d = "high") /\
  (0.4 + margin <= exact <= 0.6 - margin ->
   _assess_criticality p a d = "medium") /\
  (exact <= 0.4 - margin -> _assess_criticality p a d = "low") /\
  Qabs (criticality_score (b64 0.72) (b64 0.55) (tier_value High) - 0.753)
    <= 1 # 1000000000000000 /\
  _assess_criticality (b64 0.72) (b64 0.55) (equipment_of High) = "high" /\
  0.4 * 0.58 + 0.3 * 0.06 + 0.3 * 0.5 == 0.4 /\
  _assess_criticality (b64 0.58) (b64 0.06) (equipment_of Medium) = "low".
Proof.
  intros Hd Hp Ha w exact score margin.
  pose proof (level_of_score_bands score) as (Hc & Hh & Hm & Hl).
  pose proof (criticality_score_error p a
                (default "medium" (criticality d)) Hp Ha) as He.
  fold w in He. fold exact in He. fold score in He.
  apply Qabs_Qle_condition in He.
  destruct thresholds_near as (T8 & T6 & T4).
  apply Qabs_Qle_condition in T8, T6, T4.
  unfold _assess_criticality. fold score.
  rewrite Hc, Hh, Hm, Hl.
  split; [reflexivity|].
  split; [apply Qabs_Qle_condition; lra|].
  do 4 (split; [tauto|]).
  unfold margin.
  set (t4 := b64 0.4) in *. set (t6 := b64 0.6) in *.
  set (t8 := b64 0.8) in *. clearbody t4 t6 t8 score exact.
  do 4 (split; [intros; lra|]).
  split; [apply Qle_bool_iff; vm_compute; reflexivity|].
  split; [vm_compute; reflexivity|].
  split; [lra | vm_compute; reflexivity].
Qed.

(** A medium-criticality equipment with p = a = 1/2. *)
Lemma assess_criticality_bands_witness :
  Qabs (criticality_score (1 # 2) (1 # 2) "medium" -
        (0.4 * (1 # 2) + 0.3 * (1 # 2) + 0.3 * 0.5))
    <= 1 # 1000000000000000 /\
  _assess_criticality (1 # 2) (1 # 2) (equipment_of Medium) = "medium".
Proof.
  assert (Hd : default "medium" (criticality (equipment_of Medium))
               ∈ ["high"; "medium"; "low"]) by (simpl; set_solver).
  assert (Hp : 0 <= 1 # 2 <= 1) by (split; lra).
  destruct (assess_criticality_bands (1 # 2) (1 # 2) (equipment_of Medium)
              Hd Hp Hp) as (_ & He & _ & _ & _ & _ & _ & _ & Hm & _).
  split; [exact He|].
  apply Hm. split; vm_compute; discriminate.
Defined.

(** C1, the documented weights against the code: with criticality high
    and p = a = 0.5 the documented score is 0.575, tier medium by the
    documented bands, and the evaluator answers high; the worked example
    of the document scores 0.753 in the code, not 0.678. *)
Lemma documented_weights_differ :
  0.4 <= documented_score 0.5 0.5 High < 0.6 /\
  _assess_criticality 0.5 0.5 (equipment_of High) = "high" /\
  _assess_criticality 0.5 0.5 (equipment_of High) <> "medium" /\
  0.678 + 0.07 <
    criticality_score (b64 0.72) (b64 0.55) (tier_value High).
Proof.
  split; [ unfold documented_score; simpl; lra | ].
  split; [ vm_compute; reflexivity | ].
  split; [ vm_compute; discriminate | ].
  vm_compute; reflexivity.
Qed.

End CriticalityFacts.

(** ** Time to failure *)

Section TimeToFailureFacts.
Import PyNum.
Local Open Scope Q_scope.

Lemma days_until_failure_cases (p : Q) :
  (0.9 < p /\ MlModels._estimate_days_until_failure p = 1%Z) \/
  (0.8 < p <= 0.9 /\ MlModels._estimate_days_until_failure p = 3%Z) \/
  (0.7 < p <= 0.8 /\ MlModels._estimate_days_until_failure p = 7%Z) \/
  (0.6 < p <= 0.7 /\ MlModels._estimate_days_until_failure p = 14%Z) \/
  (p <= 0.6 /\ MlModels._estimate_days_until_failure p = 30%Z).
Proof.
  unfold MlModels._estimate_days_until_failure.
  qcases; intuition lra.
Qed.

Lemma failure_date_days_cases (p : Q) :
  (0.8 < p /\ PredictiveMaintenance.failure_date_days p = 1%Z) \/
  (0.6 < p <= 0.8 /\ PredictiveMaintenance.failure_date_days p = 3%Z) \/
  (0.4 < p <= 0.6 /\ PredictiveMaintenance.failure_date_days p = 7%Z) \/
  (0.2 < p <= 0.4 /\ PredictiveMaintenance.failure_date_days p = 14%Z) \/
  (p <= 0.2 /\ PredictiveMaintenance.failure_date_days p = 30%Z).
Proof.
  unfold PredictiveMaintenance.failure_date_days.
  qcases; intuition lra.
Qed.

Lemma days_until_failure_antitone (p q : Q) :
  p <= q ->
  (MlModels._estimate_days_until_failure q <=
   MlModels._estimate_days_until_failure p)%Z.
Proof.
  intros Hpq.
  destruct (days_until_failure_cases p) as [H|[H|[H|[H|H]]]];
  destruct (days_until_failure_cases q) as [H'|[H'|[H'|[H'|H']]]];
  destruct H as [Hp ->]; destruct H' as [Hq ->]; try lia; lra.
Qed.

Lemma failure_date_days_antitone (p q : Q) :
  p <= q ->
  (PredictiveMaintenance.failure_date_days q <=
   PredictiveMaintenance.failure_date_days p)%Z.
Proof.
  intros Hpq.
  destruct (failure_date_days_cases p) as [H|[H|[H|[H|H]]]];
  destruct (failure_date_days_cases q) as [H'|[H'|[H'|[H'|H']]]];
  destruct H as [Hp ->]; destruct H' as [Hq ->]; try lia; lra.
Qed.

(** C6, as the code has it.  The estimator of the base service
    ([_estimate_days_until_failure]) is the documented step function:
    1 day above 0.9, 3 days in (0.8, 0.9], 7 in (0.7, 0.8], 14 in
    (0.6, 0.7], 30 up to 0.6.  The estimator of the Grinding Peru service
    ([_estimate_failure_date]) has the same values at the breakpoints
    0.8, 0.6, 0.4 and 0.2.  Both never increase with the probability. *)
Theorem time_to_failure_steps (p : Q) :
  ((0.9 < p -> MlModels._estimate_days_until_failure p = 1%Z) /\
   (0.8 < p <= 0.9 -> MlModels._estimate_days_until_failure p = 3%Z) /\
   (0.7 < p <= 0.8 -> MlModels._estimate_days_until_failure p = 7%Z) /\
   (0.6 < p <= 0.7 -> MlModels._estimate_days_until_failure p = 14%Z) /\
   (p <= 0.6 -> MlModels._estimate_days_until_failure p = 30%Z)) /\
  ((0.8 < p -> PredictiveMaintenance.failure_date_days p = 1%Z) /\
   (0.6 < p <= 0.8 -> PredictiveMaintenance.failure_date_days p = 3%Z) /\
   (0.4 < p <= 0.6 -> PredictiveMaintenance.failure_date_days p = 7%Z) /\
   (0.2 < p <= 0.4 -> PredictiveMaintenance.failure_date_days p = 14%Z) /\
   (p <= 0.2 -> PredictiveMaintenance.failure_date_days p = 30%Z)) /\
  (forall q, p <= q ->
     (MlModels._estimate_days_until_failure q <=
      MlModels._estimate_days_until_failure p)%Z /\
     (PredictiveMaintenance.failure_date_days q <=
      PredictiveMaintenance.failure_date_days p)%Z).
Proof.
  split; [ | split ].
  - destruct (days_until_failure_cases p) as [H|[H|[H|[H|H]]]];
      destruct H as [Hp ->]; repeat split; intros; try reflexivity; lra.
  - destruct (failure_date_days_cases p) as [H|[H|[H|[H|H]]]];
      destruct H as [Hp ->]; repeat split; intros; try reflexivity; lra.
  - intros q Hpq. split.
    + by apply days_until_failure_antitone.
    + by apply failure_date_days_antitone.
Qed.

(** The estimated date is the clock reading moved by the days of the
    step function. *)
Lemma estimate_failure_date_days (now : Z) (p : Q) :
  (0 <= now)%Z ->
  (now + 30 * 24 * 3600 * 1000000 <= PyTime.datetime_max)%Z ->
  PredictiveMaintenance._estimate_failure_date now p =
  Some (now + PredictiveMaintenance.failure_date_days p * 24 * 3600
                * 1000000)%Z.
Proof.
  intros H0 Hmax.
  unfold PredictiveMaintenance._estimate_failure_date, PyTime.datetime_add,
    PyTime.timedelta_days.
  rewrite bool_decide_eq_true_2; [ done | ].
  destruct (failure_date_days_cases p) as [H|[H|[H|[H|H]]]];
    destruct H as [_ ->]; lia.
Qed.

(** C6, the documented steps against the Grinding Peru estimator: at
    p = 0.85, which lies in (0.8, 0.9], it plans 1 day and not 3. *)
Lemma failure_date_not_claimed_steps :
  0.8 < 0.85 <= 0.9 /\
  PredictiveMaintenance.failure_date_days 0.85 = 1%Z /\
  PredictiveMaintenance.failure_date_days 0.85 <> 3%Z.
Proof.
  split; [ lra | ]. split; [ reflexivity | discriminate ].
Qed.

End TimeToFailureFacts.

(** ** Trend classification and short channels *)

Section TrendFacts.
Import PyNum Float64 Frame Synthetic.
Local Open Scope Q_scope.
Context {numpy : NumPy}.

Lemma calculate_trend_bands (values : list Q) :
  (2 <= length values)%nat ->
  let slope := fst (np_polyfit (arange (length values)) values) in
  (PredictiveMaintenance._calculate_trend values = "increasing"
     <-> b64 0.1 < slope) /\
  (PredictiveMaintenance._calculate_trend values = "decreasing"
     <-> slope < - b64 0.1) /\
  (PredictiveMaintenance._calculate_trend values = "stable"
     <-> - b64 0.1 <= slope <= b64 0.1).
Proof.
  intros Hlen slope. unfold PredictiveMaintenance._calculate_trend.
  destruct (Nat.ltb_spec (length values) 2) as [Hlt|_]; [lia|].
  fold slope.
  assert (T : 0 < b64 0.1) by (vm_compute; reflexivity).
  set (t := b64 0.1) in *. clearbody t slope.
  qcases; repeat split; intros; try discriminate; try lra.
Qed.

Lemma classify_slope_bands (slope : Q) :
  (RagAgent.classify_slope slope = "stable" <-> Qabs slope < b64 0.01) /\
  (RagAgent.classify_slope slope = "increasing" <-> b64 0.01 <= slope) /\
  (RagAgent.classify_slope slope = "decreasing" <-> slope <= - b64 0.01).
Proof.
  unfold RagAgent.classify_slope.
  assert (T : 0 < b64 0.01) by (vm_compute; reflexivity).
  set (t := b64 0.01) in *. clearbody t.
  assert (Habs : Qabs slope < t <-> - t < slope < t).
  { split; intros Hs.
    - apply Qabs_Qlt_condition in Hs. lra.
    - apply Qabs_Qlt_condition. lra. }
  qcases; rewrite Habs in *; repeat split; intros;
    try discriminate; try lra.
Qed.

Lemma isna_all_dropna (c : column) : isna_all c = true <-> dropna c = [].
Proof.
  unfold isna_all, dropna. induction c as [|[v|] c IH]; simpl.
  - done.
  - split; discriminate.
  - exact IH.
Qed.

(** With two valid points or more the base analyzer reports the fitted
    slope and classifies it. *)
Lemma analyze_trend_long
    (df : gmap string column) (name : string) (c : column) :
  df !! name = Some c -> (2 <= length (dropna c))%nat ->
  let slope := fst (np_polyfit (arange (length (dropna c))) (dropna c)) in
  RagAgent.trend (RagAgent._analyze_trend df name) =
    RagAgent.classify_slope slope /\
  RagAgent.slope (RagAgent._analyze_trend df name) = slope.
Proof.
  intros Hc Hlen slope. unfold RagAgent._analyze_trend. rewrite Hc.
  destruct (isna_all c) eqn:E.
  - apply isna_all_dropna in E. rewrite E in Hlen. simpl in Hlen. lia.
  - destruct (Nat.ltb_spec (length (dropna c)) 2) as [Hlt|_]; [lia|].
    simpl. done.
Qed.

Lemma analyze_trend_short (df : gmap string column) (name : string) :
  (length (PredictiveMaintenance.channel_values df name) < 2)%nat ->
  RagAgent._analyze_trend df name =
  RagAgent.Build_trend_result
    (match PredictiveMaintenance.channel_values df name with
     | [] => "no_data"
     | _ => "insufficient_data"
     end) 0 0 None None.
Proof.
  unfold PredictiveMaintenance.channel_values, RagAgent._analyze_trend.
  destruct (df !! name) as [c|]; [|done].
  intros Hlen.
  destruct (isna_all c) eqn:E.
  - apply isna_all_dropna in E. by rewrite E.
  - destruct (dropna c) as [|v l] eqn:Ed.
    + apply isna_all_dropna in Ed. congruence.
    + destruct (Nat.ltb_spec (length (v :: l)) 2) as [_|Hge]; [done|lia].
Qed.

Lemma arange_24 :
  arange 24 =
  [0; 1; 2; 3; 4; 5; 6; 7; 8; 9; 10; 11; 12; 13; 14; 15; 16; 17; 18; 19;
   20; 21; 22; 23].
Proof. reflexivity. Qed.

(** Takes a list of known length apart into its elements. *)
Ltac explode values Hlen :=
  repeat (destruct values as [|? values]; [discriminate Hlen|]);
  destruct values; [|discriminate Hlen]; clear Hlen.

(** The least-squares slope of 24 values is above any bound that all the
    steps of the series are above. *)
Lemma slope_24_above (d : Q) (values : list Q) :
  length values = 24%nat -> steps_above d values ->
  d < fst (polyfit1 (arange 24) values).
Proof.
  intros Hlen Hinc. explode values Hlen.
  simpl in Hinc. rewrite arange_24.
  unfold polyfit1. cbn [fst length zip_with map Qsum foldr].
  change (Q_of_nat 24) with 24.
  apply Qlt_shift_div_l; [ lra | ].
  lra.
Qed.

Lemma slope_24_at_least (d : Q) (values : list Q) :
  length values = 24%nat -> steps_at_least d values ->
  d <= fst (polyfit1 (arange 24) values).
Proof.
  intros Hlen Hinc. explode values Hlen.
  simpl in Hinc. rewrite arange_24.
  unfold polyfit1. cbn [fst length zip_with map Qsum foldr].
  change (Q_of_nat 24) with 24.
  apply Qle_shift_div_l; [ lra | ].
  lra.
Qed.

(** C7, as the code has it.  For a series with two valid points or
    more, both classifiers fit a line over the reading index and compare
    the slope that the library returns.  The classifier of the Grinding
    Peru service answers increasing iff that slope is above 0.1,
    decreasing iff it is below -0.1, stable in between; the analyzer of
    the base service reports the slope and classifies it as stable iff
    its absolute value is below 0.01, increasing iff it is at least 0.01,
    decreasing iff it is at most -0.01 (0.1 and 0.01 being the doubles of
    these literals).  When the library's slope is within [tol] of the
    least-squares slope, a series of 24 values is classified increasing
    by the former when every step exceeds 0.1 + [tol] and by the latter
    when every step is 0.01 + [tol] at least. *)
Theorem trend_classification
    (df : gmap string column) (name : string) (c : column) :
  df !! name = Some c ->
  (2 <= length (dropna c))%nat ->
  let values := dropna c in
  let slope := fst (np_polyfit (arange (length values)) values) in
  let least_squares := fst (polyfit1 (arange (length values)) values) in
  ((PredictiveMaintenance._calculate_trend values = "increasing"
      <-> b64 0.1 < slope) /\
   (PredictiveMaintenance._calculate_trend values = "decreasing"
      <-> slope < - b64 0.1) /\
   (PredictiveMaintenance._calculate_trend values = "stable"
      <-> - b64 0.1 <= slope <= b64 0.1)) /\
  (RagAgent.slope (RagAgent._analyze_trend df name) = slope /\
   (RagAgent.trend (RagAgent._analyze_trend df name) = "stable"
      <-> Qabs slope < b64 0.01) /\
   (RagAgent.trend (RagAgent._analyze_trend df name) = "increasing"
      <-> b64 0.01 <= slope) /\
   (RagAgent.trend (RagAgent._analyze_trend df name) = "decreasing"
      <-> slope <= - b64 0.01)) /\
  (forall tol : Q,
     Qabs (slope - least_squares) <= tol ->
     length values = 24%nat -> steps_above (b64 0.1 + tol) values ->
     PredictiveMaintenance._calculate_trend values = "increasing") /\
  (forall tol : Q,
     Qabs (slope - least_squares) <= tol ->
     length values = 24%nat -> steps_at_least (b64 0.01 + tol) values ->
     RagAgent.trend (RagAgent._analyze_trend df name) = "increasing").
Proof.
  intros Hc Hlen values slope least_squares.
  pose proof (calculate_trend_bands values Hlen) as Hb. cbv zeta in Hb.
  fold slope in Hb.
  pose proof (analyze_trend_long df name c Hc Hlen) as [Ht Hs].
  fold values in Ht, Hs. fold slope in Ht, Hs.
  pose proof (classify_slope_bands slope) as Hk.
  rewrite Ht.
  split; [exact Hb|]. split; [by split|]. split.
  - intros tol Htol H24 Hsteps. apply Hb.
    pose proof (slope_24_above _ _ H24 Hsteps) as Hl.
    unfold least_squares in Htol. rewrite H24 in Htol.
    apply Qabs_Qle_condition in Htol. lra.
  - intros tol Htol H24 Hsteps. apply Hk.
    pose proof (slope_24_at_least _ _ H24 Hsteps) as Hl.
    unfold least_squares in Htol. rewrite H24 in Htol.
    apply Qabs_Qle_condition in Htol. lra.
Qed.

End TrendFacts.

(** ** Trends of concrete series, with the fit computed exactly *)

Section TrendExamples.
Import PyNum Float64 Frame Synthetic.
Local Open Scope Q_scope.
#[local] Existing Instance exact_fit.

Lemma steps_above_ramp :
  steps_above (b64 0.1 + 0) (ramp 0.2 24) /\
  steps_at_least (b64 0.01 + 0) (ramp 0.2 24).
Proof. vm_compute. repeat split; discriminate. Qed.

Lemma exact_fit_error (x y : list Q) :
  Qabs (fst (np_polyfit x y) - fst (polyfit1 x y)) <= 0.
Proof. apply Qabs_Qle_condition. simpl. split; lra. Qed.

(** A frame with one channel of 24 readings that grow by 0.2 each. *)
Lemma trend_classification_witness :
  PredictiveMaintenance._calculate_trend (ramp 0.2 24) = "increasing" /\
  RagAgent.trend
    (RagAgent._analyze_trend (one_channel "temperature" (Some <$> ramp 0.2 24))
       "temperature") = "increasing".
Proof.
  assert (Hlen : (2 <= length (dropna (Some <$> ramp 0.2 24)))%nat)
    by (vm_compute; lia).
  pose proof (trend_classification
                (one_channel "temperature" (Some <$> ramp 0.2 24))
                "temperature" (Some <$> ramp 0.2 24)
                eq_refl Hlen) as H.
  cbv zeta in H. destruct H as (_ & _ & H1 & H2).
  split.
  - exact (H1 0 (exact_fit_error _ _) eq_refl (proj1 steps_above_ramp)).
  - exact (H2 0 (exact_fit_error _ _) eq_refl (proj2 steps_above_ramp)).
Defined.

(** C7, the documented statement against the code.  The 24 readings
    0, 0.001, ..., 0.023 increase strictly, their fitted slope is 0.001,
    and both classifiers call them stable; the 24 readings 0, 0.05, ...,
    1.15 have slope 0.05, which is at least 0.01, and the Grinding Peru
    classifier calls them stable. *)
Lemma strictly_increasing_classified_stable :
  length (ramp 0.001 24) = 24%nat /\
  steps_above 0 (ramp 0.001 24) /\
  PredictiveMaintenance._calculate_trend (ramp 0.001 24) = "stable" /\
  RagAgent.trend
    (RagAgent._analyze_trend (one_channel "temperature" (Some <$> ramp 0.001 24))
       "temperature") = "stable" /\
  0.01 <= fst (np_polyfit (arange 24) (ramp 0.05 24)) /\
  PredictiveMaintenance._calculate_trend (ramp 0.05 24) = "stable".
Proof.
  split; [reflexivity|].
  split; [vm_compute; repeat split; reflexivity|].
  split; [vm_compute; reflexivity|].
  split.
  - assert (Hlen : (2 <= length (dropna (Some <$> ramp 0.001 24)))%nat)
      by (vm_compute; lia).
    pose proof (analyze_trend_long
                  (one_channel "temperature" (Some <$> ramp 0.001 24))
                  "temperature" (Some <$> ramp 0.001 24)
                  eq_refl Hlen) as [Ht _].
    rewrite Ht. vm_compute. reflexivity.
  - split; [vm_compute; discriminate | vm_compute; reflexivity].
Qed.

End TrendExamples.

(** ** Channels with fewer than two valid points *)

Section ShortChannelFacts.
Import PyNum Frame Synthetic.
Local Open Scope Q_scope.
Context {numpy : NumPy}.

Lemma foldl_add_metric (df : gmap string column) (cols : list string)
    (m : gmap string PredictiveMaintenance.sensor_metric) (col : string) :
  foldl (PredictiveMaintenance.add_metric df) m cols !! col =
  if bool_decide (col ∈ cols)
  then match PredictiveMaintenance.metric_of_values
               (PredictiveMaintenance.channel_values df col) with
       | Some e => Some e
       | None => m !! col
       end
  else m !! col.
Proof.
  revert m. induction cols as [|c cols IH]; intros m; simpl; [done|].
  rewrite IH.
  assert (Hstep : PredictiveMaintenance.add_metric df m c !! col =
    if bool_decide (col = c)
    then match PredictiveMaintenance.metric_of_values
                 (PredictiveMaintenance.channel_values df col) with
         | Some e => Some e
         | None => m !! col
         end
    else m !! col).
  { unfold PredictiveMaintenance.add_metric,
      PredictiveMaintenance.channel_values.
    destruct (decide (col = c)) as [->|Hne].
    - rewrite bool_decide_eq_true_2 by done.
      destruct (df !! c) as [cc|]; [|done].
      destruct (PredictiveMaintenance.metric_of_values (dropna cc));
        [|done].
      by rewrite lookup_insert_eq.
    - rewrite bool_decide_eq_false_2 by done.
      destruct (df !! c) as [cc|]; [|done].
      destruct (PredictiveMaintenance.metric_of_values (dropna cc));
        [|done].
      by rewrite lookup_insert_ne. }
  rewrite Hstep.
  destruct (decide (col = c)) as [->|Hne].
  - rewrite (bool_decide_eq_true_2 (c = c)) by done.
    rewrite (bool_decide_eq_true_2 (c ∈ c :: cols))
      by apply list_elem_of_here.
    destruct (PredictiveMaintenance.metric_of_values _);
      repeat case_bool_decide; done.
  - rewrite (bool_decide_eq_false_2 (col = c)) by done.
    assert (bool_decide (col ∈ c :: cols) = bool_decide (col ∈ cols))
      as ->; [ | done ].
    apply bool_decide_ext. rewrite elem_of_cons. tauto.
Qed.

(** The metrics dict holds an entry exactly for the listed channels that
    have a value. *)
Lemma sensor_metrics_lookup (df : gmap string column) (col : string) :
  PredictiveMaintenance._calculate_sensor_metrics df !! col =
  if bool_decide (col ∈ PredictiveMaintenance.metric_columns)
  then PredictiveMaintenance.metric_of_values
         (PredictiveMaintenance.channel_values df col)
  else None.
Proof.
  unfold PredictiveMaintenance._calculate_sensor_metrics.
  rewrite foldl_add_metric, lookup_empty.
  case_bool_decide; [|done].
  by destruct (PredictiveMaintenance.metric_of_values _).
Qed.

(** C8, as the code has it.  For a channel with fewer than two valid
    points nothing raises.  The Grinding Peru classifier answers
    ["stable"]; its metrics dict has no entry for a channel without any
    valid point and, for a listed channel with exactly one, an entry with
    that value, an undefined deviation and the trend ["stable"].  The
    analyzer of the base service answers ["no_data"] for a channel
    without any valid point and ["insufficient_data"] for a channel with
    one, each with slope 0 and fit 0. *)
Theorem short_channel_results (df : gmap string column) (col : string) :
  (length (PredictiveMaintenance.channel_values df col) < 2)%nat ->
  PredictiveMaintenance._calculate_trend
    (PredictiveMaintenance.channel_values df col) = "stable" /\
  (PredictiveMaintenance.channel_values df col = [] ->
   PredictiveMaintenance._calculate_sensor_metrics df !! col = None) /\
  (forall v : Q,
     PredictiveMaintenance.channel_values df col = [v] ->
     col ∈ PredictiveMaintenance.metric_columns ->
     exists m,
       PredictiveMaintenance._calculate_sensor_metrics df !! col = Some m /\
       PredictiveMaintenance.current m = Some v /\
       PredictiveMaintenance.std_sq m = None /\
       PredictiveMaintenance.trend m = "stable") /\
  RagAgent._analyze_trend df col =
  RagAgent.Build_trend_result
    (match PredictiveMaintenance.channel_values df col with
     | [] => "no_data"
     | _ => "insufficient_data"
     end) 0 0 None None.
Proof.
  intros Hlen. split; [|split; [|split]].
  - unfold PredictiveMaintenance._calculate_trend.
    by destruct (Nat.ltb_spec
                   (length (PredictiveMaintenance.channel_values df col))
                   2) as [_|Hge]; [|lia].
  - intros Hnil. rewrite sensor_metrics_lookup, Hnil.
    by case_bool_decide.
  - intros v Hv Hin. rewrite sensor_metrics_lookup, Hv.
    rewrite bool_decide_eq_true_2 by done.
    eexists. split; [reflexivity|]. by repeat split.
  - by apply analyze_trend_short.
Qed.

End ShortChannelFacts.

(** ** Short channels, concretely *)

Section ShortChannelExamples.
Import PyNum Frame Synthetic.
Local Open Scope Q_scope.
#[local] Existing Instance exact_fit.

(** A frame whose temperature channel holds one reading and one null. *)
Lemma short_channel_results_witness :
  PredictiveMaintenance._calculate_trend [5] = "stable" /\
  RagAgent.trend
    (RagAgent._analyze_trend (one_channel "temperature" [Some 5; None])
       "temperature") = "insufficient_data".
Proof.
  assert (Hlen : (length (PredictiveMaintenance.channel_values
                            (one_channel "temperature" [Some 5%Q; None])
                            "temperature") < 2)%nat)
    by (vm_compute; lia).
  pose proof (short_channel_results
                (one_channel "temperature" [Some 5; None]) "temperature"
                Hlen) as (H1 & _ & _ & H4).
  split; [exact H1|]. rewrite H4. reflexivity.
Defined.

(** C8, the documented statement against the code: for a temperature
    channel with a single valid reading the Grinding Peru metrics carry
    the trend ["stable"], and for a channel of nulls only they carry no
    entry at all, where the document promises an explicit
    insufficient-data or no-data result. *)
Lemma single_reading_reported_stable :
  PredictiveMaintenance._calculate_trend [5] = "stable" /\
  PredictiveMaintenance.trend <$>
    (PredictiveMaintenance._calculate_sensor_metrics
       (one_channel "temperature" [Some 5; None]) !! "temperature")
  = Some "stable" /\
  PredictiveMaintenance._calculate_sensor_metrics
    (one_channel "temperature" [None; None]) !! "temperature" = None.
Proof. repeat split; vm_compute; reflexivity. Qed.

End ShortChannelExamples.

(** ** Z-scores and channels without variance *)

Section ZScoreFacts.
Import PyNum Frame.
Local Open Scope Q_scope.

Lemma safe_div_nonzero (a b : Q) :
  Qeq_bool b 0 = false -> safe_div a b = Some (a / b).
Proof. intros H. unfold safe_div. by rewrite H. Qed.

Lemma mapM_safe_div {A} (f : A -> Q) (b : Q) (l : list A) :
  Qeq_bool b 0 = false ->
  mapM (fun x => safe_div (f x) b) l = Some (map (fun x => f x / b) l).
Proof.
  intros H. induction l as [|x l IH]; simpl; [done|].
  rewrite safe_div_nonzero by done. simpl. rewrite IH. done.
Qed.

Lemma Qgtb_nonzero (x : Q) : Qgtb x 0 = true -> Qeq_bool x 0 = false.
Proof.
  intros H%Qgtb_true. apply not_true_iff_false.
  intros E%Qeq_bool_iff. lra.
Qed.

Lemma Qgtb_zero (x : Q) : x == 0 -> Qgtb x 0 = false.
Proof. intros H. apply Qgtb_false. lra. Qed.

Lemma penalise_defined (score : Q) (values : list Q) :
  is_Some (PredictiveMaintenance.penalise score values).
Proof.
  unfold PredictiveMaintenance.penalise.
  destruct (sample_var values) as [var|]; [|done].
  destruct (Qgtb var 0) eqn:E; [|done].
  rewrite mapM_safe_div by by apply Qgtb_nonzero. done.
Qed.

Lemma penalise_no_variance (score : Q) (values : list Q) :
  (forall var, sample_var values = Some var -> var == 0) ->
  PredictiveMaintenance.penalise score values = Some score.
Proof.
  intros H. unfold PredictiveMaintenance.penalise.
  destruct (sample_var values) as [var|]; [|done].
  by rewrite Qgtb_zero by by apply H.
Qed.

Lemma channel_recommendations_defined (col : string) (values : list Q) :
  is_Some (PredictiveMaintenance.channel_recommendations col values).
Proof.
  unfold PredictiveMaintenance.channel_recommendations.
  destruct (last values) as [cur|]; [|done].
  destruct (sample_var values) as [var|]; [|done].
  destruct (Qgtb var 0) eqn:E; [|done].
  rewrite safe_div_nonzero by by apply Qgtb_nonzero. simpl.
  repeat case_match; done.
Qed.

Lemma channel_recommendations_no_variance (col : string) (values : list Q) :
  (forall var, sample_var values = Some var -> var == 0) ->
  PredictiveMaintenance.channel_recommendations col values = Some [].
Proof.
  intros H. unfold PredictiveMaintenance.channel_recommendations.
  destruct (last values) as [cur|]; [|done].
  destruct (sample_var values) as [var|]; [|done].
  by rewrite Qgtb_zero by by apply H.
Qed.

Lemma map_snd_indexed (g : nat -> nat) (c : column) :
  map snd
    (omap (fun iv : nat * option Q =>
             match snd iv with
             | Some v => Some (fst iv, v)
             | None => None
             end)
          (imap (fun i v => (g i, v)) c)) = dropna c.
Proof.
  unfold dropna. revert g.
  induction c as [|[v|] c IH]; intros g; simpl; [done| |].
  - f_equal. apply (IH (g ∘ S)).
  - apply (IH (g ∘ S)).
Qed.

Lemma map_snd_indexed_dropna (c : column) :
  map snd (RagAgent.indexed_dropna c) = dropna c.
Proof. apply (map_snd_indexed (fun i => i)). Qed.

Lemma mapM_tag_safe_div {A} (f : A -> Q) (b : Q) (l : list A) :
  Qeq_bool b 0 = false ->
  mapM (fun x => zq ← safe_div (f x) b; Some (x, zq)) l =
  Some (map (fun x => (x, f x / b)) l).
Proof.
  intros H. induction l as [|x l IH]; simpl; [done|].
  rewrite safe_div_nonzero by done. simpl. by rewrite IH.
Qed.

Lemma detect_column_defined (name : string) (c : column) :
  is_Some (RagAgent.detect_column name c).
Proof.
  unfold RagAgent.detect_column.
  destruct (_ <? _)%nat; [done|].
  destruct (sample_var _) as [var|]; [|done].
  destruct (Qeq_bool var 0) eqn:E; [done|].
  rewrite (mapM_tag_safe_div
             (fun iv : nat * Q =>
                (snd iv - mean (map snd (RagAgent.indexed_dropna c))) *
                (snd iv - mean (map snd (RagAgent.indexed_dropna c)))))
    by done.
  done.
Qed.

Lemma detect_column_no_variance (name : string) (c : column) :
  (forall var, sample_var (dropna c) = Some var -> var == 0) ->
  RagAgent.detect_column name c = Some [].
Proof.
  intros H. unfold RagAgent.detect_column.
  destruct (_ <? _)%nat; [done|].
  rewrite map_snd_indexed_dropna.
  destruct (sample_var (dropna c)) as [var|] eqn:E; [|done].
  assert (Qeq_bool var 0 = true) as ->; [|done].
  apply Qeq_bool_iff. by apply H.
Qed.


(** A channel without variance next to the same frame without the
    channel: the loops see values that produce nothing, or no values. *)
Lemma channel_values_insert (df : gmap string column) (col name : string)
    (c : column) :
  PredictiveMaintenance.channel_values (<[col := c]> df) name =
  if bool_decide (name = col) then dropna c
  else PredictiveMaintenance.channel_values df name.
Proof.
  unfold PredictiveMaintenance.channel_values.
  case_bool_decide as H.
  - subst. by rewrite lookup_insert_eq.
  - by rewrite lookup_insert_ne.
Qed.

Lemma channel_values_delete (df : gmap string column) (col name : string) :
  PredictiveMaintenance.channel_values (delete col df) name =
  if bool_decide (name = col) then []
  else PredictiveMaintenance.channel_values df name.
Proof.
  unfold PredictiveMaintenance.channel_values.
  case_bool_decide as H.
  - subst. by rewrite lookup_delete_eq.
  - by rewrite lookup_delete_ne.
Qed.

Lemma health_step_skips (df : gmap string column) (col : string)
    (c : column) (acc : option Q) (name : string) :
  (forall var, sample_var (dropna c) = Some var -> var == 0) ->
  PredictiveMaintenance.health_step (<[col := c]> df) acc name =
  PredictiveMaintenance.health_step (delete col df) acc name.
Proof.
  intros H. unfold PredictiveMaintenance.health_step.
  rewrite channel_values_insert, channel_values_delete.
  case_bool_decide; [|done].
  destruct acc as [score|]; [simpl|done].
  pose proof (penalise_no_variance score (dropna c) H) as Hp.
  by destruct (dropna c).
Qed.

Lemma foldl_health_step_skips (df : gmap string column) (col : string)
    (c : column) (cols : list string) (acc : option Q) :
  (forall var, sample_var (dropna c) = Some var -> var == 0) ->
  foldl (PredictiveMaintenance.health_step (<[col := c]> df)) acc cols =
  foldl (PredictiveMaintenance.health_step (delete col df)) acc cols.
Proof.
  intros H. revert acc. induction cols as [|name cols IH]; intros acc;
    simpl; [done|].
  by rewrite health_step_skips, IH.
Qed.

Lemma foldl_health_step_defined (df : gmap string column)
    (cols : list string) (acc : option Q) :
  is_Some acc ->
  is_Some (foldl (PredictiveMaintenance.health_step df) acc cols).
Proof.
  revert acc. induction cols as [|name cols IH]; intros acc Hacc;
    simpl; [done|].
  apply IH. destruct Hacc as [score ->].
  unfold PredictiveMaintenance.health_step. simpl.
  destruct (PredictiveMaintenance.channel_values df name); [done|].
  apply penalise_defined.
Qed.

(** The health score is always a number, between 0 and 100. *)
Lemma health_score_defined (df : gmap string column) :
  exists s, PredictiveMaintenance._calculate_health_score df = Some s /\
            0 <= s <= 100.
Proof.
  unfold PredictiveMaintenance._calculate_health_score.
  destruct (foldl_health_step_defined df
              PredictiveMaintenance.sensor_columns (Some 100))
    as [x ->]; [done|].
  simpl. eexists. split; [reflexivity|]. split.
  - apply Q.le_max_l.
  - apply Q.max_lub; [lra|]. apply Q.le_min_l.
Qed.

Lemma health_recommendations_defined (equipment_id : string)
    (df : gmap string column) :
  is_Some
    (PredictiveMaintenance._generate_health_recommendations equipment_id df).
Proof.
  unfold PredictiveMaintenance._generate_health_recommendations.
  destruct (mapM _ _) as [found|] eqn:E; [done|].
  exfalso.
  assert (Hs : is_Some
            (mapM (fun col =>
                     PredictiveMaintenance.channel_recommendations col
                       (PredictiveMaintenance.channel_values df col))
               PredictiveMaintenance.sensor_columns)).
  { apply mapM_is_Some, Forall_forall. intros col _.
    apply channel_recommendations_defined. }
  rewrite E in Hs. by destruct Hs.
Qed.

Lemma detect_anomalies_defined (df : gmap string column) :
  is_Some (RagAgent._detect_anomalies df).
Proof.
  unfold RagAgent._detect_anomalies.
  destruct (mapM _ _) as [found|] eqn:E; [done|].
  exfalso.
  match type of E with
  | mapM ?f ?l = None => assert (Hs : is_Some (mapM f l))
  end.
  { apply mapM_is_Some, Forall_forall. intros name _. simpl.
    destruct (df !! name) as [c|]; [|done].
    destruct (isna_all c); [done|]. apply detect_column_defined. }
  rewrite E in Hs. by destruct Hs.
Qed.

(** C9.  A channel whose sample variance is zero (or undefined) is
    skipped by the z-score analysis: with the channel in the frame the
    health score, the health recommendations and the anomaly list are
    what they are without it, and the channel itself yields no anomaly.
    Every division by the deviation stands under its guard: the three
    results are always defined, none is an infinite or NaN z-score. *)
Theorem zero_variance_channel_skipped
    (df : gmap string column) (col equipment_id : string) (c : column)
    (var : Q) :
  sample_var (dropna c) = Some var ->
  var == 0 ->
  PredictiveMaintenance._calculate_health_score (<[col := c]> df) =
    PredictiveMaintenance._calculate_health_score (delete col df) /\
  PredictiveMaintenance._generate_health_recommendations equipment_id
      (<[col := c]> df) =
    PredictiveMaintenance._generate_health_recommendations equipment_id
      (delete col df) /\
  PredictiveMaintenance.channel_recommendations col (dropna c) = Some [] /\
  RagAgent.detect_column col c = Some [] /\
  RagAgent._detect_anomalies (<[col := c]> df) =
    RagAgent._detect_anomalies (delete col df) /\
  (forall df' : gmap string column,
     (exists s, PredictiveMaintenance._calculate_health_score df' = Some s
                /\ 0 <= s <= 100) /\
     is_Some (PredictiveMaintenance._generate_health_recommendations
                equipment_id df') /\
     is_Some (RagAgent._detect_anomalies df')).
Proof.
  intros Hvar Hzero.
  assert (H : forall v, sample_var (dropna c) = Some v -> v == 0).
  { intros v Hv. rewrite Hvar in Hv. by injection Hv as <-. }
  repeat split.
  - unfold PredictiveMaintenance._calculate_health_score.
    by rewrite foldl_health_step_skips.
  - unfold PredictiveMaintenance._generate_health_recommendations.
    erewrite mapM_ext; [reflexivity|].
    intros name. simpl.
    rewrite channel_values_insert, channel_values_delete.
    case_bool_decide; [|done].
    by rewrite channel_recommendations_no_variance.
  - by apply channel_recommendations_no_variance.
  - by apply detect_column_no_variance.
  - unfold RagAgent._detect_anomalies.
    erewrite mapM_ext; [reflexivity|].
    intros name. simpl.
    destruct (decide (name = col)) as [->|Hne].
    + rewrite lookup_insert_eq, lookup_delete_eq.
      rewrite detect_column_no_variance by done. by destruct (isna_all c).
    + by rewrite lookup_insert_ne, lookup_delete_ne.
  - apply health_score_defined.
  - apply health_recommendations_defined.
  - apply detect_anomalies_defined.
Qed.

(** A frame whose temperature channel reads 5 three times. *)
Lemma zero_variance_channel_skipped_witness :
  PredictiveMaintenance._calculate_health_score
    (<["temperature" := [Some 5; Some 5; Some 5]]> ∅) =
  PredictiveMaintenance._calculate_health_score (delete "temperature" ∅) /\
  RagAgent.detect_column "temperature" [Some 5; Some 5; Some 5] = Some [].
Proof.
  assert (Hzero : 0 # 1458 == 0) by reflexivity.
  pose proof (zero_variance_channel_skipped ∅ "temperature" "EQ-1"
                [Some 5; Some 5; Some 5] (0 # 1458) eq_refl Hzero)
    as (H1 & _ & _ & H4 & _).
  split; [exact H1 | exact H4].
Defined.

End ZScoreFacts.

(** ** The data-access object of the repository *)

Section DatabaseFacts.
Import PyVal Database IntelligentIncidentManagement.

(** The three statements with which the manager writes are no [SELECT]:
    [execute_query] returns the empty list for them and makes no request
    to the client, whatever the client and the parameters. *)
Lemma execute_query_drops_writes (client : option Client)
    (params : option (list pyval)) (query : string) :
  query ∈ [insert_incident_query; update_incident_query;
           insert_performance_query] ->
  execute_query client query params = ([], []).
Proof.
  intros Hq.
  repeat (apply elem_of_cons in Hq as [-> | Hq]);
    [ .. | by apply elem_of_nil in Hq ];
    destruct client; vm_compute; reflexivity.
Qed.

(** The [SELECT] of the manager is handed to the [execute_sql] procedure
    as it is spelled, its placeholder unfilled: the table names are
    looked for in the upper-cased statement, where they cannot be. *)
Lemma execute_query_select (c : Client) (params : option (list pyval)) :
  execute_query (Some c) select_incident_query params =
  (default [] (rpc_execute_sql c select_incident_query),
   [RpcExecuteSql select_incident_query]).
Proof. vm_compute. reflexivity. Qed.

End DatabaseFacts.

(** ** The incident store: status updates *)

Section IncidentStoreFacts.
Import PyNum PyTime PyVal Synthetic IntelligentIncidentManagement.
Local Open Scope Z_scope.

Lemma performance_analysis_incidents (st : store) (f : faults)
    (now : datetime) (incident_id : string) :
  incidents (_generate_performance_analysis st f now incident_id) =
  incidents st.
Proof.
  unfold _generate_performance_analysis.
  repeat case_match; done.
Qed.

Lemma update_row_other (new_status : IncidentStatus) (now : datetime)
    (notes : option string) (actual_duration : option Z)
    (row : gmap string pyval) (column : string) :
  ~ written_by_update column ->
  update_row new_status now notes actual_duration row !! column =
  row !! column.
Proof.
  intros H. unfold update_row, written_by_update in *.
  rewrite !lookup_insert_ne; [done | | | |]; intros <-; tauto.
Qed.

Lemma update_row_status (new_status : IncidentStatus) (now : datetime)
    (notes : option string) (actual_duration : option Z)
    (row : gmap string pyval) :
  update_row new_status now notes actual_duration row !! "status" =
  Some (PyStr (IncidentStatus_value new_status)).
Proof. unfold update_row. apply lookup_insert_eq. Qed.

Lemma update_incidents (st : store) (f : faults) (now : datetime)
    (incident_id : string) (new_status : IncidentStatus)
    (notes : option string) (actual_duration : option Z) :
  incidents (snd (update_incident_status st f now incident_id new_status
                    notes actual_duration)) =
  if update_incident_fails f || negb (executes_writes f)
  then incidents st
  else alter (update_row new_status now notes actual_duration)
         incident_id (incidents st).
Proof.
  unfold update_incident_status.
  destruct (update_incident_fails f); [done|].
  destruct (executes_writes f); simpl;
    destruct new_status; try done;
    by rewrite performance_analysis_incidents.
Qed.

(** A data-access object that carries out no statement leaves the store
    as it is. *)
Lemma performance_analysis_dropped (st : store) (f : faults)
    (now : datetime) (incident_id : string) :
  executes_writes f = false ->
  _generate_performance_analysis st f now incident_id = st.
Proof.
  intros Hf. unfold _generate_performance_analysis. rewrite Hf. simpl.
  repeat case_match; done.
Qed.

Lemma update_dropped (st : store) (f : faults) (now : datetime)
    (incident_id : string) (new_status : IncidentStatus)
    (notes : option string) (actual_duration : option Z) :
  update_incident_fails f = false -> executes_writes f = false ->
  update_incident_status st f now incident_id new_status notes
    actual_duration =
  (Updated incident_id (IncidentStatus_value new_status) now, st).
Proof.
  intros H1 H2. unfold update_incident_status. rewrite H1, H2. simpl.
  destruct new_status; try done.
  by rewrite performance_analysis_dropped.
Qed.

(** A status update leaves every other column of every row alone. *)
Lemma update_keeps_column (st : store) (f : faults) (now : datetime)
    (incident_id : string) (new_status : IncidentStatus)
    (notes : option string) (actual_duration : option Z)
    (other column : string) :
  ~ written_by_update column ->
  column_of (snd (update_incident_status st f now incident_id new_status
                    notes actual_duration)) other column =
  column_of st other column.
Proof.
  intros H. unfold column_of. rewrite update_incidents.
  destruct (update_incident_fails f || negb (executes_writes f)); [done|].
  rewrite lookup_alter. case_decide as E; [|done]. subst other.
  destruct (incidents st !! incident_id) as [row|]; [simpl|done].
  by apply update_row_other.
Qed.

(** Creating an incident leaves the rows that exist as they are. *)
Lemma create_keeps_row
    (recommender : TechnicianRecommendation.db_connection) (st : store)
    (f : faults) (incident_id : string) (now : datetime)
    (incident_data : gmap string pyval) (auto_assign : bool)
    (other : string) (row : gmap string pyval) :
  incidents st !! other = Some row ->
  incidents (snd (create_incident recommender st f incident_id now
                    incident_data auto_assign)) !! other = Some row.
Proof.
  intros Hrow. unfold create_incident.
  set (incident := match (if auto_assign then _ else _) with
                   | Some _ => _ | None => _ end).
  assert (Hid : id incident = incident_id).
  { unfold incident. by destruct auto_assign. }
  unfold _save_incident. rewrite Hid.
  destruct (negb _); [done|].
  destruct (insert_incident_fails f); [done|].
  destruct (negb _); [done|].
  destruct (incidents st !! incident_id) eqn:E; [done|]. simpl.
  rewrite lookup_insert_ne; [done|]. intros ->. congruence.
Qed.

Lemma operation_keeps_column (st : store) (op : operation)
    (other column : string) (v : pyval) :
  ~ written_by_update column ->
  column_of st other column = Some v ->
  column_of (apply_operation st op) other column = Some v.
Proof.
  intros H Hv. destruct op; simpl.
  - unfold column_of in *.
    destruct (incidents st !! other) as [row|] eqn:E; [|done].
    by erewrite create_keeps_row.
  - by rewrite update_keeps_column.
Qed.

Lemma run_keeps_column (history : list operation) (st : store)
    (other column : string) (v : pyval) :
  ~ written_by_update column ->
  column_of st other column = Some v ->
  column_of (run st history) other column = Some v.
Proof.
  intros H. revert st. unfold run.
  induction history as [|op history IH]; intros st Hv; simpl; [done|].
  apply IH. by apply operation_keeps_column.
Qed.

(** C2, as the code has it.  A status update is not guarded by the
    state of the incident.  Unless the data-access object raises on the
    statement, the call reports success with the requested status,
    whatever the status and the assigned technician of the incident are;
    it reports an error, with the store unchanged, only when the object
    raises.  The assigned technician is never touched.  The requested
    status is stored when the object carries the statement out; one that
    does not leaves the store as it is.  The [DatabaseConnection] of the
    repository is of the latter kind and never raises: with it every
    status update reports success and stores nothing. *)
Theorem status_update_unguarded
    (st : store) (f : faults) (now : datetime) (incident_id : string)
    (new_status : IncidentStatus) (notes : option string)
    (actual_duration : option Z) :
  let result :=
    update_incident_status st f now incident_id new_status notes
      actual_duration in
  fst result =
    (if update_incident_fails f then UpdateError
     else Updated incident_id (IncidentStatus_value new_status) now) /\
  column_of (snd result) incident_id "assigned_technician_id" =
    column_of st incident_id "assigned_technician_id" /\
  (update_incident_fails f = true -> snd result = st) /\
  (update_incident_fails f = false -> executes_writes f = true ->
   forall row, incidents st !! incident_id = Some row ->
     column_of (snd result) incident_id "status" =
       Some (PyStr (IncidentStatus_value new_status))) /\
  (executes_writes f = false -> snd result = st) /\
  update_incident_status st database_connection now incident_id new_status
    notes actual_duration =
  (Updated incident_id (IncidentStatus_value new_status) now, st).
Proof.
  intros result. split; [|split; [|split; [|split; [|split]]]].
  - unfold result, update_incident_status.
    by destruct (update_incident_fails f).
  - apply update_keeps_column. unfold written_by_update.
    intros [H|[H|[H|H]]]; discriminate.
  - intros Hf. unfold result, update_incident_status. by rewrite Hf.
  - intros Hf He row Hrow. unfold result, column_of.
    rewrite update_incidents, Hf, He. cbn [orb negb].
    rewrite lookup_alter_eq, Hrow. simpl. apply update_row_status.
  - intros He. unfold result.
    destruct (update_incident_fails f) eqn:Hf.
    + unfold update_incident_status. by rewrite Hf.
    + by rewrite update_dropped.
  - by apply update_dropped.
Qed.

(** C2, the documented statement against the code: the incident of
    [store_with_pending] is pending and has no technician; the request to
    complete it, made through the [DatabaseConnection] of the repository,
    is answered with success and the status completed, not with an
    error. *)
Lemma pending_completed_in_one_update :
  column_of store_with_pending "INC-1" "status" = Some (PyStr "pending") /\
  column_of store_with_pending "INC-1" "assigned_technician_id" =
    Some PyNone /\
  update_incident_status store_with_pending database_connection 2000
    "INC-1" COMPLETED None None =
  (Updated "INC-1" "completed" 2000, store_with_pending).
Proof.
  split; [vm_compute; reflexivity|].
  split; [vm_compute; reflexivity|].
  by apply update_dropped.
Qed.

End IncidentStoreFacts.

(** ** The record of a new incident: deadline and creation time *)

Section IncidentRecordFacts.
Import PyTime PyVal Synthetic IncidentManagement.
Local Open Scope Z_scope.

Lemma sla_deadline_value (p : Priority) (T : datetime) :
  0 <= T -> T + 72 * 3600 * 1000000 <= datetime_max ->
  _calculate_sla_deadline p T =
  Some (T + (match p with
             | CRITICAL => 4 | HIGH => 8 | MEDIUM => 24 | LOW => 72
             end) * 3600 * 1000000).
Proof.
  intros H0 Hmax.
  unfold _calculate_sla_deadline, datetime_add, timedelta_hours.
  destruct p; simpl; rewrite bool_decide_eq_true_2; try done; lia.
Qed.

(** The record of a report that carries the five required fields, a
    valid priority and no [created_at] of its own: the deadline is
    counted from the first reading of the clock, the creation time is
    the second reading. *)
Lemma create_incident_record_moments (incident_number : string)
    (now_sla now_created now_updated : datetime)
    (incident_data : gmap string pyval) (p : Priority) :
  0 <= now_sla -> now_sla + 72 * 3600 * 1000000 <= datetime_max ->
  (forall field, field ∈ required_fields ->
     is_Some (incident_data !! field)) ->
  incident_data !! "priority" = Some (PyStr (Priority_value p)) ->
  incident_data !! "created_at" = None ->
  exists incident_record,
    create_incident_record incident_number now_sla now_created now_updated
      incident_data = Prepared incident_record /\
    incident_record !! "sla_deadline" =
      Some (PyDateTime
              (now_sla + (match p with
                          | CRITICAL => 4 | HIGH => 8 | MEDIUM => 24
                          | LOW => 72
                          end) * 3600 * 1000000)) /\
    incident_record !! "created_at" = Some (PyDateTime now_created) /\
    incident_record !! "status" = Some (PyStr "new").
Proof.
  intros H0 Hmax Hreq Hp Hc. unfold create_incident_record.
  assert (Hfind :
    List.find (fun field => bool_decide (incident_data !! field = None))
      required_fields = None).
  { unfold required_fields. simpl.
    repeat match goal with
    | |- context [bool_decide (incident_data !! ?k = None)] =>
        let E := fresh in
        destruct (Hreq k) as [? E];
          [ unfold required_fields; set_solver | ];
        rewrite bool_decide_eq_false_2 by congruence; clear E
    end.
    done. }
  rewrite Hfind.
  assert (Hsla : sla_deadline_of now_sla incident_data =
                 _calculate_sla_deadline p now_sla).
  { unfold sla_deadline_of, get_or. rewrite Hp, Hc. simpl.
    by destruct p. }
  rewrite Hsla, (sla_deadline_value p now_sla H0 Hmax).
  eexists. split; [reflexivity|].
  repeat split; reflexivity.
Qed.


End IncidentRecordFacts.

(** ** Automatic assignment *)

Section AssignmentFacts.
Import PyNum PyVal Synthetic.
Import TechnicianRecommendation IntelligentIncidentManagement.
Local Open Scope Q_scope.

(** The first entry of the sorted list is an entry of the list, and no
    entry has a higher score. *)
Lemma sort_desc_head (l : list recommendation) :
  match sort_desc l with
  | [] => l = []
  | best :: _ =>
      best ∈ l /\
      forall x, x ∈ l ->
        TechnicianRecommendation.score x <=
        TechnicianRecommendation.score best
  end.
Proof.
  induction l as [|x l IH]; simpl; [done|].
  destruct (sort_desc l) as [|b r] eqn:E; simpl.
  - subst l. split; [apply list_elem_of_here|].
    intros y Hy%list_elem_of_singleton. subst y. lra.
  - destruct IH as [Hb Htop].
    destruct (Qleb (TechnicianRecommendation.score b)
                (TechnicianRecommendation.score x)) eqn:Ec.
    + apply Qleb_true in Ec. split; [apply list_elem_of_here|].
      intros y [->|Hy]%elem_of_cons; [lra|].
      specialize (Htop y Hy). lra.
    + apply Qleb_false in Ec. split; [by apply list_elem_of_further|].
      intros y [->|Hy]%elem_of_cons; [lra|]. by apply Htop.
Qed.

(** The recommendations for a pool with a technician: the head is the
    entry of a technician of the pool whose score no other reaches. *)
Lemma recommendations_head (db : db_connection) (i : incident_data) :
  _get_available_technicians db <> [] ->
  exists best rest,
    get_technician_recommendations db i 3 =
      {| rec_technician := best;
         TechnicianRecommendation.score :=
           _calculate_technician_score db best i;
         TechnicianRecommendation.reasons :=
           _get_recommendation_reasons best i |} :: rest /\
    best ∈ _get_available_technicians db /\
    forall t, t ∈ _get_available_technicians db ->
      _calculate_technician_score db t i <=
      _calculate_technician_score db best i.
Proof.
  intros Hne. unfold get_technician_recommendations.
  destruct (_get_available_technicians db) as [|t0 pool] eqn:E; [done|].
  set (mk := fun tech =>
    {| rec_technician := tech;
       TechnicianRecommendation.score :=
         _calculate_technician_score db tech i;
       TechnicianRecommendation.reasons :=
         _get_recommendation_reasons tech i |}).
  pose proof (sort_desc_head (map mk (t0 :: pool))) as H.
  destruct (sort_desc (map mk (t0 :: pool))) as [|b r] eqn:Es;
    [discriminate H|].
  destruct H as [Hb Htop].
  apply list_elem_of_fmap in Hb as (best & -> & Hbest).
  exists best, (take 2 r). split; [done|]. split; [done|].
  intros t Ht.
  apply (Htop (mk t)). apply list_elem_of_fmap. by exists t.
Qed.

Lemma recommendations_empty (db : db_connection) (i : incident_data)
    (limit : Z) :
  _get_available_technicians db = [] ->
  get_technician_recommendations db i limit = [].
Proof.
  intros H. unfold get_technician_recommendations. by rewrite H.
Qed.

(** C4.  Automatic assignment answers "no technician available" exactly
    when the pool of available technicians is empty.  For a pool that is
    not empty it selects a technician of the pool whose total score no
    technician of the pool exceeds.  An incident created with automatic
    assignment is stored pending, and with an empty pool its technician
    is left null. *)
Theorem auto_assignment_selection
    (db : db_connection) (incident : Incident) :
  selected_columns db ->
  (_auto_assign_technician db incident =
     NotAssigned no_technicians_available
   <-> _get_available_technicians db = []) /\
  (_get_available_technicians db <> [] ->
   exists best technician_id technician_name alternatives,
     _auto_assign_technician db incident =
       Assigned technician_id technician_name
         (_calculate_technician_score db best
            (recommender_incident_data incident))
         (_get_recommendation_reasons best
            (recommender_incident_data incident))
         alternatives /\
     best ∈ _get_available_technicians db /\
     best !! "id" = Some technician_id /\
     forall t, t ∈ _get_available_technicians db ->
       _calculate_technician_score db t
         (recommender_incident_data incident) <=
       _calculate_technician_score db best
         (recommender_incident_data incident)) /\
  (forall st f incident_id now incident_data created a assignment
          recommendations,
     fst (create_incident db st f incident_id now incident_data true) =
       Created created a assignment recommendations ->
     status created = PENDING /\
     (_get_available_technicians db = [] ->
      assigned_technician created = PyNone /\
      assignment = Some (NotAssigned no_technicians_available))).
Proof.
  intros Hcols.
  assert (Hsel : _get_available_technicians db <> [] ->
    exists best technician_id technician_name alternatives,
     _auto_assign_technician db incident =
       Assigned technician_id technician_name
         (_calculate_technician_score db best
            (recommender_incident_data incident))
         (_get_recommendation_reasons best
            (recommender_incident_data incident))
         alternatives /\
     best ∈ _get_available_technicians db /\
     best !! "id" = Some technician_id /\
     forall t, t ∈ _get_available_technicians db ->
       _calculate_technician_score db t
         (recommender_incident_data incident) <=
       _calculate_technician_score db best
         (recommender_incident_data incident)).
  { intros Hne.
    destruct (recommendations_head db (recommender_incident_data incident)
                Hne) as (best & rest & Hrec & Hin & Htop).
    destruct (Hcols best Hin) as [[tid Hid] [tname Hname]].
    exists best, tid, tname, rest.
    unfold _auto_assign_technician. rewrite Hrec. simpl.
    rewrite Hid, Hname. done. }
  assert (Hempty : forall inc, _get_available_technicians db = [] ->
    _auto_assign_technician db inc = NotAssigned no_technicians_available).
  { intros inc He. unfold _auto_assign_technician.
    by rewrite recommendations_empty. }
  split; [|split].
  - split; [|apply Hempty].
    intros Hno.
    destruct (_get_available_technicians db) as [|t0 pool] eqn:E; [done|].
    destruct Hsel as (? & ? & ? & ? & Ha & _); [done|]. congruence.
  - exact Hsel.
  - intros st f incident_id now incident_data created a assignment
      recommendations Hc.
    unfold create_incident in Hc.
    destruct (_save_incident _ _ _) as [st'|]; [|discriminate Hc].
    simpl in Hc. injection Hc as <- <- <- <-.
    split; [done|].
    intros He. simpl. by rewrite Hempty.
Qed.

Lemma single_candidate_columns : selected_columns single_candidate.
Proof.
  intros t Ht. apply list_elem_of_singleton in Ht. subst t.
  split; eexists; reflexivity.
Qed.

(** The pool of one candidate whose specialty does not match (specialty
    component 0) and who has no open work (workload component 1): the
    candidate is selected. *)
Lemma auto_assignment_selection_witness :
  _calculate_specialty_match (PyStr "electronico") (PyStr "motor")
    (PyStr "El motor vibra") == 0 /\
  _calculate_workload_score (PyInt 0) == 1 /\
  _auto_assign_technician single_candidate motor_incident <>
    NotAssigned no_technicians_available /\
  assignment_technician_id
    (_auto_assign_technician single_candidate motor_incident) = PyInt 7.
Proof.
  split; [vm_compute; reflexivity|].
  split; [vm_compute; reflexivity|].
  split; [|vm_compute; reflexivity].
  destruct (auto_assignment_selection single_candidate motor_incident
              single_candidate_columns) as [Hiff _].
  intros H. apply Hiff in H. discriminate H.
Defined.

End AssignmentFacts.

(** ** The technician score *)

Section TechnicianScoreFacts.
Import PyNum PyStr PyVal Synthetic TechnicianRecommendation.
Local Open Scope Q_scope.

Lemma skill_multiplier_cases (s : string) :
  skill_multiplier s = 0.6 \/ skill_multiplier s = 0.8 \/
  skill_multiplier s = 1.0 \/ skill_multiplier s = 1.2.
Proof.
  unfold skill_multiplier. simpl.
  rewrite !lookup_insert. repeat case_decide; simpl; tauto.
Qed.

Lemma priority_multiplier_cases (s : string) :
  priority_multiplier s = 0.8 \/ priority_multiplier s = 1.0 \/
  priority_multiplier s = 1.2 \/ priority_multiplier s = 1.4.
Proof.
  unfold priority_multiplier. simpl.
  rewrite !lookup_insert. repeat case_decide; simpl; tauto.
Qed.

Lemma specialty_match_range (ts et ft : pyval) :
  0 <= _calculate_specialty_match ts et ft <= 1.
Proof.
  unfold _calculate_specialty_match, specialty_match_body.
  destruct (as_str et); simpl; [|lra].
  destruct (as_str ts); simpl; [|lra].
  destruct (as_str ft); simpl; [|lra].
  repeat case_match; simpl; lra.
Qed.

Lemma workload_score_range (w : pyval) :
  0 <= _calculate_workload_score w <= 1.
Proof.
  unfold _calculate_workload_score, workload_score_body.
  repeat case_match; simpl; lra.
Qed.

Lemma location_score_range (tl il : pyval) :
  0 <= _calculate_location_score tl il <= 1.
Proof.
  unfold _calculate_location_score, location_score_body.
  destruct (_ || _); simpl; [lra|].
  destruct (as_str tl); simpl; [|lra].
  destruct (as_str il); simpl; [|lra].
  repeat case_match; simpl; lra.
Qed.

Lemma Q_or_range (x : option Q) (d lo hi : Q) :
  lo <= d <= hi -> lo <= 0 <= hi ->
  (forall q, x = Some q -> lo <= q <= hi) ->
  lo <= Q_or x d <= hi.
Proof.
  intros Hd H0 Hx. unfold Q_or. destruct x as [v|]; [|done].
  destruct (Qeq_bool v 0); [done|]. by apply Hx.
Qed.

Lemma Q_or_nonneg (x : option Q) (d : Q) :
  0 <= d -> (forall q, x = Some q -> 0 <= q) -> 0 <= Q_or x d.
Proof.
  intros Hd Hx. unfold Q_or. destruct x as [v|]; [|done].
  destruct (Qeq_bool v 0); [done|]. by apply Hx.
Qed.

Lemma performance_of_row_range (r : performance_row) :
  sane_row r -> 0 <= performance_of_row r <= 1.
Proof.
  intros (Hc & Ha & Hz). unfold performance_of_row.
  pose proof (Q_or_range (completion_rate r) 0 0 1
                ltac:(lra) ltac:(lra) Hc) as H1.
  pose proof (Q_or_nonneg (avg_resolution_time r) 24 ltac:(lra) Ha) as H2.
  assert (H3 : 0 <= Q_or (inject_Z <$> critical_resolved r) 0).
  { apply Q_or_nonneg; [lra|]. intros q Hq.
    destruct (critical_resolved r) as [z|]; [|done].
    injection Hq as <-. specialize (Hz z eq_refl).
    change 0 with (inject_Z 0). by rewrite <- Zle_Qle. }
  set (c := Q_or (completion_rate r) 0) in *.
  set (a := Q_or (avg_resolution_time r) 24) in *.
  set (k := Q_or (inject_Z <$> critical_resolved r) 0) in *.
  assert (0 <= a / 48) by (apply Qle_shift_div_l; lra).
  assert (0 <= k / 5) by (apply Qle_shift_div_l; lra).
  assert (0 <= Qmax 0 (1 - a / 48) <= 1).
  { split; [apply Q.le_max_l|]. apply Q.max_lub; lra. }
  assert (0 <= Qmin (k / 5) 1.0 <= 1).
  { split; [apply Q.min_glb; lra|].
    pose proof (Q.le_min_r (k / 5) 1.0). lra. }
  lra.
Qed.

Lemma performance_score_range (db : db_connection) (technician_id : pyval) :
  sane_performance db ->
  0 <= _calculate_performance_score db technician_id <= 1.
Proof.
  intros Hdb. unfold _calculate_performance_score.
  destruct (performance_rows db technician_id) as [[|r rest]|] eqn:E;
    try lra.
  apply performance_of_row_range. by eapply Hdb.
Qed.

Lemma experience_body_upper (ey sl pr : pyval) (e : Q) :
  experience_score_body ey sl pr = Some e -> e <= 1.68.
Proof.
  unfold experience_score_body.
  destruct (as_number ey) as [y|]; simpl; [|done].
  destruct (as_str sl) as [s|]; simpl; [|done].
  destruct (as_str pr) as [p|]; simpl; [|done].
  intros [= <-].
  pose proof (Q.le_min_r (y / 10) 1.0) as Hm.
  set (m := Qmin (y / 10) 1.0) in *.
  destruct (skill_multiplier_cases (lower s)) as [-> | [-> | [-> | ->]]];
  destruct (priority_multiplier_cases (lower p)) as [-> | [-> | [-> | ->]]];
  lra.
Qed.

Lemma experience_body_lower (ey sl pr : pyval) (e y : Q) :
  experience_score_body ey sl pr = Some e ->
  as_number ey = Some y -> 0 <= y -> 0 <= e.
Proof.
  unfold experience_score_body. intros He Hy Hpos. rewrite Hy in He.
  simpl in He.
  destruct (as_str sl) as [s|]; simpl in He; [|done].
  destruct (as_str pr) as [p|]; simpl in He; [|done].
  injection He as <-.
  assert (0 <= y / 10) by (apply Qle_shift_div_l; lra).
  assert (Hm : 0 <= Qmin (y / 10) 1.0) by (apply Q.min_glb; lra).
  set (m := Qmin (y / 10) 1.0) in *.
  destruct (skill_multiplier_cases (lower s)) as [-> | [-> | [-> | ->]]];
  destruct (priority_multiplier_cases (lower p)) as [-> | [-> | [-> | ->]]];
  lra.
Qed.

Lemma experience_score_upper (ey sl pr : pyval) :
  _calculate_experience_score ey sl pr <= 1.68.
Proof.
  unfold _calculate_experience_score.
  destruct (experience_score_body ey sl pr) as [e|] eqn:E; simpl; [|lra].
  by eapply experience_body_upper.
Qed.

Lemma experience_score_lower (ey sl pr : pyval) :
  (forall y, as_number ey = Some y -> 0 <= y) ->
  0 <= _calculate_experience_score ey sl pr.
Proof.
  intros H. unfold _calculate_experience_score.
  destruct (experience_score_body ey sl pr) as [e|] eqn:E; simpl; [|lra].
  destruct (as_number ey) as [y|] eqn:Ey.
  - eapply experience_body_lower; eauto.
  - unfold experience_score_body in E. by rewrite Ey in E.
Qed.

Lemma specialty_component_range (t : technician) (i : incident_data)
    (s : Q) :
  specialty_component t i = Some s -> 0 <= s <= 1.
Proof.
  unfold specialty_component.
  destruct (t !! "specialty"); simpl; [|done].
  intros [= <-]. apply specialty_match_range.
Qed.

Lemma workload_component_range (t : technician) (w : Q) :
  workload_component t = Some w -> 0 <= w <= 1.
Proof.
  unfold workload_component.
  destruct (t !! "current_workload"); simpl; [|done].
  intros [= <-]. apply workload_score_range.
Qed.

Lemma location_component_range (t : technician) (i : incident_data)
    (l : Q) :
  location_component t i = Some l -> 0 <= l <= 1.
Proof.
  unfold location_component.
  destruct (t !! "location"); simpl; [|done].
  intros [= <-]. apply location_score_range.
Qed.

Lemma performance_component_range (db : db_connection) (t : technician)
    (p : Q) :
  sane_performance db -> performance_component db t = Some p ->
  0 <= p <= 1.
Proof.
  intros Hdb. unfold performance_component.
  destruct (t !! "id"); simpl; [|done].
  intros [= <-]. by apply performance_score_range.
Qed.

Lemma experience_component_upper (t : technician) (i : incident_data)
    (e : Q) :
  experience_component t i = Some e -> e <= 1.68.
Proof.
  unfold experience_component.
  destruct (t !! "experience_years"); simpl; [|done].
  destruct (t !! "skill_level"); simpl; [|done].
  intros [= <-]. apply experience_score_upper.
Qed.

Lemma experience_component_lower (t : technician) (i : incident_data)
    (e : Q) :
  nonneg_years t -> experience_component t i = Some e -> 0 <= e.
Proof.
  unfold experience_component, nonneg_years. intros Hy.
  destruct (t !! "experience_years") as [ey|]; simpl in *; [|done].
  destruct (t !! "skill_level"); simpl; [|done].
  intros [= <-]. by apply experience_score_lower.
Qed.

(** C5, as the code has it.  When the technician row has the five keys
    the scorer reads, the total is the weighted sum of the five component
    scores, cut at 1.  The specialty, workload and location components
    lie in [0, 1], and so does the performance component for sane
    aggregates.  The experience component is min(years/10, 1) times the
    skill multiplier times the priority multiplier and is not cut: it is
    at most 1.68, and not negative when the years are not. *)
Theorem technician_score_components
    (db : db_connection) (t : technician) (i : incident_data)
    (s e w l p : Q) :
  specialty_component t i = Some s ->
  experience_component t i = Some e ->
  workload_component t = Some w ->
  location_component t i = Some l ->
  performance_component db t = Some p ->
  _calculate_technician_score db t i ==
    Qmin (s * 0.4 + e * 0.25 + w * 0.2 + l * 0.1 + p * 0.05) 1 /\
  0 <= s <= 1 /\ 0 <= w <= 1 /\ 0 <= l <= 1 /\
  (sane_performance db -> 0 <= p <= 1) /\
  e <= 1.68 /\
  (nonneg_years t -> 0 <= e) /\
  (forall (years : Z) (skill priority : string),
     t !! "experience_years" = Some (PyInt years) ->
     t !! "skill_level" = Some (PyStr skill) ->
     get_or i "priority" (PyStr "medium") = PyStr priority ->
     e = Qmin (inject_Z years / 10) 1.0 * skill_multiplier (lower skill)
         * priority_multiplier (lower priority)) /\
  (map skill_multiplier ["junior"; "intermediate"; "senior"; "expert"] =
     [0.6; 0.8; 1.0; 1.2] /\
   map priority_multiplier ["low"; "medium"; "high"; "critical"] =
     [0.8; 1.0; 1.2; 1.4]).
Proof.
  intros Hs He Hw Hl Hp.
  split; [|split; [|split; [|split; [|split; [|split; [|split; [|split]]]]]]].
  - unfold _calculate_technician_score, weighted_sum.
    rewrite Hs, He, Hw, Hl, Hp. simpl.
    apply Q.min_compat; [lra | reflexivity].
  - by eapply specialty_component_range.
  - by eapply workload_component_range.
  - by eapply location_component_range.
  - intros Hdb. by eapply performance_component_range.
  - by eapply experience_component_upper.
  - intros Hy. by eapply experience_component_lower.
  - intros years skill priority Hy Hk Hpr.
    unfold experience_component in He. rewrite Hy, Hk in He.
    simpl in He. rewrite Hpr in He. by injection He as <-.
  - split; vm_compute; reflexivity.
Qed.

(** The expert mechanic on the critical motor failure: every key is
    there, and the total is cut to 1. *)
Lemma technician_score_components_witness :
  _calculate_technician_score good_history veteran critical_motor_failure
  == 1.
Proof.
  eassert (Hs : specialty_component veteran critical_motor_failure
                = Some _) by (vm_compute; reflexivity).
  eassert (He : experience_component veteran critical_motor_failure
                = Some _) by (vm_compute; reflexivity).
  eassert (Hw : workload_component veteran = Some _)
    by (vm_compute; reflexivity).
  eassert (Hl : location_component veteran critical_motor_failure
                = Some _) by (vm_compute; reflexivity).
  eassert (Hp : performance_component good_history veteran = Some _)
    by (vm_compute; reflexivity).
  destruct (technician_score_components good_history veteran
              critical_motor_failure _ _ _ _ _ Hs He Hw Hl Hp)
    as [Ht _].
  rewrite Ht. vm_compute. reflexivity.
Defined.

(** C5, the documented cap against the code: ten years or more, expert
    skill and critical priority give the experience component 1.68,
    above 1. *)
Lemma experience_component_not_capped :
  experience_component veteran critical_motor_failure =
    Some (_calculate_experience_score (PyInt 12) (PyStr "expert")
            (PyStr "critical")) /\
  _calculate_experience_score (PyInt 12) (PyStr "expert")
    (PyStr "critical") == 1.68 /\
  ~ _calculate_experience_score (PyInt 12) (PyStr "expert")
      (PyStr "critical") <= 1.
Proof.
  split; [reflexivity|]. split; [vm_compute; reflexivity|].
  vm_compute. intros H. by apply H.
Qed.

Lemma weighted_sum_none (db : db_connection) (t : technician)
    (i : incident_data) :
  weighted_sum db t i = None <->
  (t !! "specialty" = None \/ t !! "experience_years" = None \/
   t !! "skill_level" = None \/ t !! "current_workload" = None \/
   t !! "location" = None \/ t !! "id" = None).
Proof.
  unfold weighted_sum, specialty_component, experience_component,
    workload_component, location_component, performance_component.
  destruct (t !! "specialty"); simpl; [|tauto].
  destruct (t !! "experience_years"); simpl; [|tauto].
  destruct (t !! "skill_level"); simpl; [|tauto].
  destruct (t !! "current_workload"); simpl; [|tauto].
  destruct (t !! "location"); simpl; [|tauto].
  destruct (t !! "id"); simpl; [|tauto].
  split; [done|]. intros [H|[H|[H|[H|[H|H]]]]]; discriminate.
Qed.

Lemma weighted_sum_nonneg (db : db_connection) (t : technician)
    (i : incident_data) (raw : Q) :
  nonneg_years t -> sane_performance db ->
  weighted_sum db t i = Some raw -> 0 <= raw.
Proof.
  intros Hy Hdb. unfold weighted_sum.
  destruct (specialty_component t i) as [s|] eqn:Hs; simpl; [|done].
  destruct (experience_component t i) as [e|] eqn:He; simpl; [|done].
  destruct (workload_component t) as [w|] eqn:Hw; simpl; [|done].
  destruct (location_component t i) as [l|] eqn:Hl; simpl; [|done].
  destruct (performance_component db t) as [p|] eqn:Hp; simpl; [|done].
  intros [= <-].
  pose proof (specialty_component_range _ _ _ Hs).
  pose proof (experience_component_lower _ _ _ Hy He).
  pose proof (workload_component_range _ _ Hw).
  pose proof (location_component_range _ _ _ Hl).
  pose proof (performance_component_range _ _ _ Hdb Hp).
  lra.
Qed.

(** C10, as the code has it.  The total score never exceeds 1: the
    weighted sum is cut at 1 (for the expert mechanic on the critical
    motor failure it is about 1.17 before the cut).  The scorer never
    raises.  When the technician row lacks one of the keys it reads, the
    result is 0.  When the row holds them, the result is the weighted sum
    of the five components, cut at 1, and an error inside a component
    only puts that component at its default: 0 for the specialty and the
    experience, 0.5 for the workload, the location and the performance.
    The total is not negative when the years of experience are not
    negative and the performance aggregates are sane. *)
Theorem technician_score_range
    (db : db_connection) (t : technician) (i : incident_data) :
  _calculate_technician_score db t i <= 1 /\
  ((t !! "specialty" = None \/ t !! "experience_years" = None \/
    t !! "skill_level" = None \/ t !! "current_workload" = None \/
    t !! "location" = None \/ t !! "id" = None) ->
   _calculate_technician_score db t i = 0.0) /\
  (nonneg_years t -> sane_performance db ->
   0 <= _calculate_technician_score db t i) /\
  (forall specialty years skill workload location id,
     t !! "specialty" = Some specialty ->
     t !! "experience_years" = Some years ->
     t !! "skill_level" = Some skill ->
     t !! "current_workload" = Some workload ->
     t !! "location" = Some location ->
     t !! "id" = Some id ->
     _calculate_technician_score db t i =
     Qmin (0.0
           + _calculate_specialty_match specialty
               (get_or i "equipment_type" (PyStr ""))
               (get_or i "failure_type" (PyStr "")) * 0.4
           + _calculate_experience_score years skill
               (get_or i "priority" (PyStr "medium")) * 0.25
           + _calculate_workload_score workload * 0.2
           + _calculate_location_score location
               (get_or i "location" (PyStr "")) * 0.1
           + _calculate_performance_score db id * 0.05) 1.0) /\
  (forall specialty equipment_type failure_type,
     as_str specialty = None ->
     _calculate_specialty_match specialty equipment_type failure_type
     = 0.0) /\
  (forall years skill priority,
     as_number years = None \/ as_str skill = None \/
     as_str priority = None ->
     _calculate_experience_score years skill priority = 0.0) /\
  (forall workload,
     as_number workload = None ->
     _calculate_workload_score workload = 0.5) /\
  (forall location incident_location,
     as_str location = None ->
     _calculate_location_score location incident_location = 0.5) /\
  (forall id,
     performance_rows db id = None ->
     _calculate_performance_score db id = 0.5) /\
  (exists raw,
     weighted_sum good_history veteran critical_motor_failure = Some raw /\
     1.16 < raw < 1.17 /\
     _calculate_technician_score good_history veteran
       critical_motor_failure == 1).
Proof.
  split; [|split; [|split; [|split; [|split; [|split; [|split;
    [|split; [|split]]]]]]]].
  - unfold _calculate_technician_score.
    destruct (weighted_sum db t i); [|lra].
    pose proof (Q.le_min_r q 1.0). lra.
  - intros Hk%(weighted_sum_none db t i).
    unfold _calculate_technician_score. by rewrite Hk.
  - intros Hy Hdb. unfold _calculate_technician_score.
    destruct (weighted_sum db t i) as [raw|] eqn:E; [|lra].
    apply Q.min_glb; [|lra]. by eapply weighted_sum_nonneg.
  - intros specialty years skill workload location id Hs Hy Hk Hw Hl Hi.
    unfold _calculate_technician_score, weighted_sum, specialty_component,
      experience_component, workload_component, location_component,
      performance_component.
    rewrite Hs, Hy, Hk, Hw, Hl, Hi. reflexivity.
  - intros specialty equipment_type failure_type Hs.
    unfold _calculate_specialty_match, specialty_match_body.
    rewrite Hs. by destruct (as_str equipment_type).
  - intros years skill priority Hn.
    unfold _calculate_experience_score, experience_score_body.
    destruct (as_number years); [|done].
    destruct (as_str skill); [|done].
    destruct (as_str priority); [|done].
    destruct Hn as [Hn|[Hn|Hn]]; discriminate Hn.
  - intros workload Hw.
    unfold _calculate_workload_score, workload_score_body.
    by rewrite Hw.
  - intros location incident_location Hl.
    unfold _calculate_location_score, location_score_body.
    rewrite Hl. by destruct (_ || _).
  - intros id Hp. unfold _calculate_performance_score. by rewrite Hp.
  - eexists. split; [vm_compute; reflexivity|].
    split; [split; reflexivity | vm_compute; reflexivity].
Qed.

(** C10, the documented statement against the code: the specialty of
    the technician is NULL, the specialty component fails inside and
    counts 0, and the total is above 0.7, not 0. *)
Lemma component_error_keeps_score :
  no_specialty !! "specialty" = Some PyNone /\
  specialty_match_body PyNone (PyStr "motor") (PyStr "mecanica") = None /\
  _calculate_specialty_match PyNone (PyStr "motor") (PyStr "mecanica")
    = 0.0 /\
  0.7 < _calculate_technician_score good_history no_specialty
          critical_motor_failure.
Proof. repeat split; vm_compute; reflexivity. Qed.

(** The cut is from above only: a technician row with -40 years of
    experience scores below 0. *)
Lemma negative_years_negative_score :
  negative_years !! "experience_years" = Some (PyInt (-40)) /\
  _calculate_technician_score single_candidate negative_years
    critical_motor_failure < 0.
Proof. split; vm_compute; reflexivity. Qed.

End TechnicianScoreFacts.

(** * Part II, continued: further properties of the code *)

(** ** Predictions: levels, confidence, dates *)

Section PredictionFacts.
Import PyNum.
Local Open Scope Q_scope.

(** X1.  The criticality level never drops when the failure probability
    or the anomaly score grows, the equipment staying the same. *)
Theorem assess_criticality_monotone
    (p p' a a' : Q) (d : AdvancedPredictiveMaintenance.equipment_data) :
  p <= p' -> a <= a' ->
  (AdvancedPredictiveMaintenance.level_rank
     (AdvancedPredictiveMaintenance._assess_criticality p a d) <=
   AdvancedPredictiveMaintenance.level_rank
     (AdvancedPredictiveMaintenance._assess_criticality p' a' d))%nat.
Proof.
  intros Hp Ha.
  assert (T4 : 0 < Float64.b64 0.4) by (vm_compute; reflexivity).
  assert (T3 : 0 < Float64.b64 0.3) by (vm_compute; reflexivity).
  assert (T46 : Float64.b64 0.4 < Float64.b64 0.6)
    by (vm_compute; reflexivity).
  assert (T68 : Float64.b64 0.6 < Float64.b64 0.8)
    by (vm_compute; reflexivity).
  unfold AdvancedPredictiveMaintenance._assess_criticality.
  set (c := default "medium" _).
  assert (Hs : AdvancedPredictiveMaintenance.criticality_score p a c <=
               AdvancedPredictiveMaintenance.criticality_score p' a' c).
  { unfold AdvancedPredictiveMaintenance.criticality_score,
      Float64.fadd, Float64.fmul.
    set (c4 := Float64.b64 0.4) in *. set (c3 := Float64.b64 0.3) in *.
    clearbody c4 c3.
    assert (H1 : Float64.b64 (p * c4) <= Float64.b64 (p' * c4))
      by (apply b64_mono; nra).
    assert (H2 : Float64.b64 (a * c3) <= Float64.b64 (a' * c3))
      by (apply b64_mono; nra).
    apply b64_mono. apply Qplus_le_compat; [|lra].
    apply b64_mono. by apply Qplus_le_compat. }
  unfold AdvancedPredictiveMaintenance.level_of_score.
  set (s := AdvancedPredictiveMaintenance.criticality_score p a c) in *.
  set (s' := AdvancedPredictiveMaintenance.criticality_score p' a' c) in *.
  set (t4 := Float64.b64 0.4) in *. set (t6 := Float64.b64 0.6) in *.
  set (t8 := Float64.b64 0.8) in *. clearbody s s' t4 t6 t8.
  qcases; try (vm_compute; lia); exfalso; lra.
Qed.

Lemma assess_criticality_monotone_witness :
  (AdvancedPredictiveMaintenance.level_rank
     (AdvancedPredictiveMaintenance._assess_criticality 0.2 0.1
        (AdvancedPredictiveMaintenance.equipment_of
           AdvancedPredictiveMaintenance.Medium)) <=
   AdvancedPredictiveMaintenance.level_rank
     (AdvancedPredictiveMaintenance._assess_criticality 0.9 0.9
        (AdvancedPredictiveMaintenance.equipment_of
           AdvancedPredictiveMaintenance.Medium)))%nat.
Proof.
  apply assess_criticality_monotone; lra.
Defined.

(** X2.  Alert level and alert of a prediction.  An anomaly makes the
    level critical whatever the probability.  An alert is asked for
    exactly when the probability is above 0.6 or an anomaly was detected,
    and its priority is high exactly when the probability is above 0.6:
    a prediction that is critical by its anomaly alone, with a
    probability of 0.6 or less, asks for an alert of priority medium.
    Without an anomaly the level follows the days of the estimated
    failure date: critical with 1 day, high with 3, medium with 7, low
    with 14 or 30. *)
Theorem alert_level_and_alert (p : Q) (is_anomaly : bool) :
  PredictiveMaintenance._determine_alert_level p true = "critical" /\
  (is_Some (PredictiveMaintenance.raised_alert p is_anomaly)
     <-> 0.6 < p \/ is_anomaly = true) /\
  (PredictiveMaintenance.raised_alert p is_anomaly = Some "high"
     <-> 0.6 < p) /\
  (PredictiveMaintenance.raised_alert p is_anomaly = Some "medium"
     <-> p <= 0.6 /\ is_anomaly = true) /\
  (PredictiveMaintenance._determine_alert_level p false = "critical"
     <-> PredictiveMaintenance.failure_date_days p = 1%Z) /\
  (PredictiveMaintenance._determine_alert_level p false = "high"
     <-> PredictiveMaintenance.failure_date_days p = 3%Z) /\
  (PredictiveMaintenance._determine_alert_level p false = "medium"
     <-> PredictiveMaintenance.failure_date_days p = 7%Z) /\
  (PredictiveMaintenance._determine_alert_level p false = "low"
     <-> PredictiveMaintenance.failure_date_days p = 14%Z \/
         PredictiveMaintenance.failure_date_days p = 30%Z).
Proof.
  unfold PredictiveMaintenance.raised_alert,
    PredictiveMaintenance.predictive_alert_priority,
    PredictiveMaintenance._determine_alert_level,
    PredictiveMaintenance.failure_date_days.
  split.
  { by rewrite orb_true_r. }
  destruct is_anomaly; rewrite ?orb_true_r, ?orb_false_r;
    qcases; simpl; repeat split;
    try (intros [x Hx]; discriminate Hx);
    try (intros; discriminate);
    try (intros; by eexists);
    try (intros; reflexivity);
    try (intros; lra);
    try (intros [?|?]; first [lra | discriminate]);
    try (intros [? ?]; first [lra | discriminate]);
    try (intros; left; first [lra | reflexivity]);
    try (intros; right; reflexivity);
    try (intros; split; first [lra | reflexivity]).
Qed.

(** X3.  The confidence of a prediction never exceeds 0.95, and 0.9
    without an anomaly; for a probability that is not negative it is at
    least 0.5; it never drops when the probability grows, and an anomaly
    never lowers it. *)
Theorem confidence_range (p p' : Q) (is_anomaly : bool) :
  PredictiveMaintenance._calculate_confidence p is_anomaly <= 0.95 /\
  PredictiveMaintenance._calculate_confidence p false <= 0.9 /\
  (0 <= p -> 0.5 <= PredictiveMaintenance._calculate_confidence p is_anomaly)
  /\
  (p <= p' ->
   PredictiveMaintenance._calculate_confidence p is_anomaly <=
   PredictiveMaintenance._calculate_confidence p' is_anomaly) /\
  PredictiveMaintenance._calculate_confidence p false <=
  PredictiveMaintenance._calculate_confidence p true.
Proof.
  unfold PredictiveMaintenance._calculate_confidence.
  set (b := Qmin 0.9 (0.5 + p * 0.4)).
  set (b' := Qmin 0.9 (0.5 + p' * 0.4)).
  assert (Hb9 : b <= 0.9) by apply Q.le_min_l.
  assert (Hb : 0 <= p -> 0.5 <= b).
  { intros. apply Q.min_glb; lra. }
  assert (Hmono : p <= p' -> b <= b').
  { intros. apply Q.min_glb; [apply Q.le_min_l|].
    pose proof (Q.le_min_r 0.9 (0.5 + p * 0.4)). fold b in H0. lra. }
  assert (Hmin : forall x y, x <= y -> Qmin 0.95 x <= Qmin 0.95 y).
  { intros x y Hxy. apply Q.min_glb; [apply Q.le_min_l|].
    pose proof (Q.le_min_r 0.95 x). lra. }
  split; [apply Q.le_min_l|].
  split; [pose proof (Q.le_min_r 0.95 b); lra|].
  split.
  { intros H0. specialize (Hb H0).
    destruct is_anomaly; apply Q.min_glb; lra. }
  split.
  { intros Hpp. specialize (Hmono Hpp).
    destruct is_anomaly; apply Hmin; lra. }
  apply Hmin. lra.
Qed.

End PredictionFacts.

(** ** Health score and anomalies: how many readings can deviate *)

Section DeviationFacts.
Import PyNum Frame.
Local Open Scope Q_scope.

Lemma Q_of_nat_S (n : nat) : Q_of_nat (S n) == Q_of_nat n + 1.
Proof.
  unfold Q_of_nat. rewrite Nat2Z.inj_succ, <- Z.add_1_r, inject_Z_plus.
  reflexivity.
Qed.

Lemma Q_of_nat_nonneg (n : nat) : 0 <= Q_of_nat n.
Proof.
  unfold Q_of_nat. change 0 with (inject_Z 0). rewrite <- Zle_Qle. lia.
Qed.

Lemma Q_of_nat_le (n m : nat) : (n <= m)%nat -> Q_of_nat n <= Q_of_nat m.
Proof. intros H. unfold Q_of_nat. rewrite <- Zle_Qle. lia. Qed.

Lemma count_if_le_length {A} (f : A -> bool) (l : list A) :
  (PredictiveMaintenance.count_if f l <= length l)%nat.
Proof.
  unfold PredictiveMaintenance.count_if.
  induction l as [|x l IH]; simpl; [lia|].
  destruct (f x); simpl; lia.
Qed.

Lemma count_if_map {A B} (f : B -> bool) (g : A -> B) (l : list A) :
  PredictiveMaintenance.count_if f (map g l) =
  PredictiveMaintenance.count_if (fun x => f (g x)) l.
Proof.
  unfold PredictiveMaintenance.count_if.
  induction l as [|x l IH]; simpl; [done|].
  destruct (f (g x)); simpl; congruence.
Qed.

(** The readings whose weight is above a bound cannot carry more than
    the total weight. *)
Lemma weight_of_marked {A} (d : A -> Q) (mark : A -> bool) (c : Q)
    (l : list A) :
  0 <= c ->
  (forall x, 0 <= d x) ->
  (forall x, mark x = true -> c <= d x) ->
  c * Q_of_nat (PredictiveMaintenance.count_if mark l) <=
  Qsum (map d l).
Proof.
  intros Hc Hd Hm. unfold PredictiveMaintenance.count_if, Qsum.
  induction l as [|x l IH]; simpl.
  - change (Q_of_nat 0) with 0. lra.
  - destruct (mark x) eqn:E; simpl.
    + rewrite Q_of_nat_S. specialize (Hm x E). lra.
    + specialize (Hd x). lra.
Qed.

Lemma square_nonneg (x : Q) : 0 <= x * x.
Proof. nra. Qed.

(** The sum of the squared deviations is the variance times [n - 1]. *)
Lemma sample_var_sum (values : list Q) (var : Q) :
  sample_var values = Some var ->
  (2 <= length values)%nat /\
  Qsum (map (fun v => (v - mean values) * (v - mean values)) values) ==
  var * (Q_of_nat (length values) - 1).
Proof.
  unfold sample_var.
  destruct values as [|v0 [|v1 rest]]; try discriminate.
  intros [= <-]. split; [simpl; lia|].
  assert (Hn : 2 <= Q_of_nat (length (v0 :: v1 :: rest))).
  { change 2 with (Q_of_nat 2). apply Q_of_nat_le. simpl. lia. }
  symmetry. rewrite Qmult_comm. apply Qmult_div_r.
  simpl length in *. lra.
Qed.

(** Under the guard, fewer than 16 readings in a hundred have a squared
    z-score above 6.25. *)
Lemma marked_share (values : list Q) (var : Q) :
  sample_var values = Some var -> 0 < var ->
  Q_of_nat
    (PredictiveMaintenance.count_if
       (fun v => Qgtb ((v - mean values) * (v - mean values) / var) 6.25)
       values) * 6.25 <=
  Q_of_nat (length values) - 1.
Proof.
  intros Hvar Hpos.
  destruct (sample_var_sum values var Hvar) as [Hlen Hsum].
  set (m := mean values) in *.
  pose proof (weight_of_marked
                (fun v => (v - m) * (v - m))
                (fun v => Qgtb ((v - m) * (v - m) / var) 6.25)
                (6.25 * var) values) as H.
  assert (Hc : 0 <= 6.25 * var) by lra.
  specialize (H Hc (fun x => square_nonneg (x - m))).
  assert (Hmark : forall x,
            Qgtb ((x - m) * (x - m) / var) 6.25 = true ->
            6.25 * var <= (x - m) * (x - m)).
  { intros x Hx%Qgtb_true.
    apply Qlt_le_weak. rewrite Qmult_comm.
    apply (Qmult_lt_r _ _ var) in Hx; [|done].
    assert (E : (x - m) * (x - m) / var * var == (x - m) * (x - m))
      by (rewrite Qmult_comm; apply Qmult_div_r; lra).
    lra. }
  specialize (H Hmark). rewrite Hsum in H.
  set (n := Q_of_nat (length values)) in *.
  set (k := Q_of_nat (PredictiveMaintenance.count_if _ _)) in *.
  clearbody n k.
  assert (Hk : 6.25 * k * var <= (n - 1) * var) by lra.
  apply Qmult_lt_0_le_reg_r in Hk; [lra|done].
Qed.

Lemma penalise_bounds (score : Q) (values : list Q) :
  exists s, PredictiveMaintenance.penalise score values = Some s /\
            score - 3.2 < s <= score.
Proof.
  unfold PredictiveMaintenance.penalise.
  destruct (sample_var values) as [var|] eqn:Hvar;
    [|exists score; split; [done|lra]].
  destruct (Qgtb var 0) eqn:E; [|exists score; split; [done|lra]].
  rewrite mapM_safe_div by by apply Qgtb_nonzero. simpl.
  eexists. split; [reflexivity|].
  rewrite (count_if_map (fun z => Qgtb z 6.25)).
  apply Qgtb_true in E.
  pose proof (marked_share values var Hvar E) as Hk.
  destruct (sample_var_sum values var Hvar) as [Hlen _].
  apply Q_of_nat_le in Hlen. change (Q_of_nat 2) with 2 in Hlen.
  set (k := Q_of_nat (PredictiveMaintenance.count_if _ _)) in *.
  assert (Hk0 : 0 <= k) by apply Q_of_nat_nonneg.
  set (n := Q_of_nat (length values)) in *.
  clearbody k n.
  assert (H0 : 0 <= k / n) by (apply Qle_shift_div_l; lra).
  assert (H1 : k / n < 0.16) by (apply Qlt_shift_div_r; lra).
  lra.
Qed.

Lemma health_step_bounds (df : gmap string column) (score : Q)
    (col : string) :
  exists s, PredictiveMaintenance.health_step df (Some score) col = Some s /\
            score - 3.2 < s <= score.
Proof.
  unfold PredictiveMaintenance.health_step. simpl.
  destruct (PredictiveMaintenance.channel_values df col) as [|v values].
  - exists score. split; [done|lra].
  - apply penalise_bounds.
Qed.

(** X4.  The health score of [_calculate_health_score] is always a number
    above 84 and at most 100, whatever the readings: a channel with
    variance has fewer than 16 readings in a hundred whose z-score is above
    2.5, so that it takes less than 3.2 points, and there are five
    channels.  The clamp [max(0, min(100, score))] therefore never acts:
    the result is the score the loop leaves. *)
Theorem health_score_above_84 (df : gmap string column) :
  exists s r,
    foldl (PredictiveMaintenance.health_step df) (Some 100)
      PredictiveMaintenance.sensor_columns = Some s /\
    PredictiveMaintenance._calculate_health_score df = Some r /\
    r == s /\ 84 < r <= 100.
Proof.
  unfold PredictiveMaintenance._calculate_health_score,
    PredictiveMaintenance.sensor_columns. cbn [foldl].
  destruct (health_step_bounds df 100 "temperature") as (s1 & -> & H1).
  destruct (health_step_bounds df s1 "vibration") as (s2 & -> & H2).
  destruct (health_step_bounds df s2 "pressure") as (s3 & -> & H3).
  destruct (health_step_bounds df s3 "voltage") as (s4 & -> & H4).
  destruct (health_step_bounds df s4 "current") as (s5 & -> & H5).
  exists s5, (Qmax 0 (Qmin 100 s5)). split; [done|]. split; [done|].
  assert (E : Qmax 0 (Qmin 100 s5) == s5).
  { rewrite (Q.min_r 100 s5) by lra. apply Q.max_r. lra. }
  rewrite E. split; [reflexivity|lra].
Qed.

Lemma channel_recommendations_shape (col : string) (values : list Q) :
  exists l,
    PredictiveMaintenance.channel_recommendations col values = Some l /\
    (length l <= 1)%nat /\
    Forall (fun r => exists v,
              last values = Some v /\
              (r = PredictiveMaintenance.CriticalValue col v \/
               r = PredictiveMaintenance.AnomalousValue col v)) l.
Proof.
  unfold PredictiveMaintenance.channel_recommendations.
  destruct (last values) as [cur|];
    [|exists []; split; [done|]; split; [simpl; lia|constructor]].
  destruct (sample_var values) as [var|];
    [|exists []; split; [done|]; split; [simpl; lia|constructor]].
  destruct (Qgtb var 0) eqn:E;
    [|exists []; split; [done|]; split; [simpl; lia|constructor]].
  rewrite safe_div_nonzero by by apply Qgtb_nonzero. simpl.
  repeat case_match; eexists; (split; [reflexivity|]);
    (split; [simpl; lia|]); repeat constructor; eauto.
Qed.

(** X5.  The list of [_generate_health_recommendations] always ends with
    the two general lines (manual, visual inspection); before them come
    the findings, at most one per channel and so at most five, each about
    the latest reading of one of the five channels, or the single line
    [within normal parameters] when there is no finding.  The list has
    three to seven lines: the cut at eight never removes anything. *)
Theorem health_recommendations_shape (equipment_id : string)
    (df : gmap string column) :
  exists findings,
    PredictiveMaintenance._generate_health_recommendations equipment_id df =
    Some (match findings with
          | [] => [PredictiveMaintenance.WithinNormalParameters]
          | _ => findings
          end ++
          [PredictiveMaintenance.ReviewManufacturerManual;
           PredictiveMaintenance.ScheduleVisualInspection]) /\
    (length findings <= 5)%nat /\
    Forall (fun r => exists col v,
              col ∈ PredictiveMaintenance.sensor_columns /\
              last (PredictiveMaintenance.channel_values df col) = Some v /\
              (r = PredictiveMaintenance.CriticalValue col v \/
               r = PredictiveMaintenance.AnomalousValue col v)) findings.
Proof.
  unfold PredictiveMaintenance._generate_health_recommendations.
  assert (Hall : forall cols,
            exists found,
              mapM (fun col =>
                      PredictiveMaintenance.channel_recommendations col
                        (PredictiveMaintenance.channel_values df col)) cols =
              Some found /\
              (length (concat found) <= length cols)%nat /\
              Forall (fun r => exists col v,
                        col ∈ cols /\
                        last (PredictiveMaintenance.channel_values df col) =
                        Some v /\
                        (r = PredictiveMaintenance.CriticalValue col v \/
                         r = PredictiveMaintenance.AnomalousValue col v))
                (concat found)).
  { induction cols as [|col cols (found & E & Hlen & Hall)].
    - exists []. split; [done|]. split; [simpl; lia|constructor].
    - destruct (channel_recommendations_shape col
                  (PredictiveMaintenance.channel_values df col))
        as (l & El & Hl & Hfl).
      exists (l :: found). cbn [mapM]. rewrite El, E. split; [done|].
      simpl. rewrite length_app. split; [lia|].
      apply Forall_app. split.
      + eapply Forall_impl; [exact Hfl|].
        intros r (v & Hv & Hr). exists col, v.
        split; [apply list_elem_of_here|done].
      + eapply Forall_impl; [exact Hall|].
        intros r (c & v & Hc & Hv & Hr). exists c, v.
        split; [by apply list_elem_of_further|done]. }
  destruct (Hall PredictiveMaintenance.sensor_columns)
    as (found & -> & Hlen & Hfa).
  exists (concat found). simpl in Hlen. split; [|done].
  cbn [mbind option_bind]. f_equal. apply take_ge.
  rewrite length_app. destruct (concat found); simpl in *; lia.
Qed.

Lemma Qsum_nonneg (l : list Q) :
  Forall (fun x => 0 <= x) l -> 0 <= Qsum l.
Proof.
  unfold Qsum. induction 1 as [|x l Hx _ IH]; simpl; lra.
Qed.

Lemma sample_var_nonneg (values : list Q) (var : Q) :
  sample_var values = Some var -> 0 <= var.
Proof.
  intros Hvar. destruct (sample_var_sum values var Hvar) as [Hlen Hsum].
  apply Q_of_nat_le in Hlen. change (Q_of_nat 2) with 2 in Hlen.
  assert (H0 : 0 <= Qsum (map (fun v => (v - mean values) *
                                        (v - mean values)) values)).
  { apply Qsum_nonneg, Forall_forall.
    intros x (v & -> & _)%list_elem_of_fmap. apply square_nonneg. }
  rewrite Hsum in H0.
  set (n := Q_of_nat (length values)) in *. clearbody n.
  destruct (Qlt_le_dec var 0) as [Hneg|]; [|done].
  exfalso. nra.
Qed.

Lemma indexed_dropna_lookup (c : column) (i : nat) (v : Q) :
  (i, v) ∈ RagAgent.indexed_dropna c -> c !! i = Some (Some v).
Proof.
  unfold RagAgent.indexed_dropna.
  intros ([j o] & Hin & Hf)%list_elem_of_omap.
  apply elem_of_lookup_imap in Hin as (k & y & [= -> ->] & Hk).
  simpl in Hf. destruct y as [w|]; [|done].
  by injection Hf as -> ->.
Qed.

Lemma length_filter_map {A B} (P : B -> bool) (g : A -> B) (l : list A) :
  length (List.filter P (map g l)) =
  PredictiveMaintenance.count_if (fun x => P (g x)) l.
Proof.
  unfold PredictiveMaintenance.count_if.
  induction l as [|x l IH]; simpl; [done|].
  destruct (P (g x)); simpl; congruence.
Qed.

(** What [detect_column] returns for a column, in full. *)
Lemma detect_column_cases (name : string) (c : column) :
  RagAgent.detect_column name c = Some [] \/
  exists var,
    (10 <= length (dropna c))%nat /\
    sample_var (dropna c) = Some var /\ 0 < var /\
    RagAgent.detect_column name c =
    Some (map (fun e : nat * Q * Q =>
                 RagAgent.Build_anomaly name (fst (fst e)) (snd (fst e))
                   (snd e) (if Qgtb (snd e) 9 then "high" else "medium"))
            (List.filter (fun e => Qgtb (snd e) 6.25)
               (map (fun iv : nat * Q =>
                       (iv, (snd iv - mean (dropna c)) *
                            (snd iv - mean (dropna c)) / var))
                  (RagAgent.indexed_dropna c)))).
Proof.
  unfold RagAgent.detect_column.
  rewrite map_snd_indexed_dropna.
  destruct (_ <? _)%nat eqn:Hlen; [by left|].
  apply Nat.ltb_ge in Hlen.
  destruct (sample_var (dropna c)) as [var|] eqn:Hvar; [|by left].
  destruct (Qeq_bool var 0) eqn:E; [by left|].
  right. exists var.
  rewrite (mapM_tag_safe_div
             (fun iv : nat * Q =>
                (snd iv - mean (dropna c)) * (snd iv - mean (dropna c))))
    by done.
  split.
  { rewrite <- (map_snd_indexed_dropna c), length_map. exact Hlen. }
  split; [done|]. split; [|done].
  pose proof (sample_var_nonneg _ _ Hvar) as H0.
  apply not_true_iff_false in E.
  destruct (Qlt_le_dec 0 var) as [|Hle]; [done|].
  exfalso. apply E, Qeq_bool_iff. lra.
Qed.

(** X6.  [_detect_anomalies] always returns a list, and every entry of
    it is a reading of one of the six numeric columns, at the row it
    names, of a column with at least ten readings, whose squared z-score
    is above 6.25 (a z-score above 2.5); its severity is high exactly
    when the squared z-score is above 9 (a z-score above 3) and medium
    otherwise. *)
Theorem detected_anomalies_facts (df : gmap string column) :
  exists found,
    RagAgent._detect_anomalies df = Some found /\
    Forall (fun a =>
              6.25 < RagAgent.z_score_sq a /\
              (RagAgent.severity a = "high" <-> 9 < RagAgent.z_score_sq a) /\
              (RagAgent.severity a = "medium" <->
               RagAgent.z_score_sq a <= 9) /\
              RagAgent.column_name a ∈ RagAgent.numeric_columns /\
              exists c,
                df !! RagAgent.column_name a = Some c /\
                c !! RagAgent.row a = Some (Some (RagAgent.value a)) /\
                (10 <= length (dropna c))%nat) found.
Proof.
  unfold RagAgent._detect_anomalies.
  set (P := fun a : RagAgent.anomaly =>
              6.25 < RagAgent.z_score_sq a /\
              (RagAgent.severity a = "high" <-> 9 < RagAgent.z_score_sq a) /\
              (RagAgent.severity a = "medium" <->
               RagAgent.z_score_sq a <= 9)).
  assert (Hcol : forall name c,
            exists l, RagAgent.detect_column name c = Some l /\
              Forall (fun a => P a /\ RagAgent.column_name a = name /\
                        c !! RagAgent.row a = Some (Some (RagAgent.value a))
                        /\ (10 <= length (dropna c))%nat) l).
  { intros name c.
    destruct (detect_column_cases name c)
      as [->|(var & Hlen & Hvar & Hpos & ->)].
    - exists []. split; [done|constructor].
    - eexists. split; [reflexivity|].
      apply Forall_forall. intros a Ha.
      apply list_elem_of_fmap in Ha as ([[i v] z] & -> & He).
      apply list_elem_of_In, filter_In in He as [Hin Hz].
      apply list_elem_of_In, list_elem_of_fmap in Hin as ([i' v'] & E & Hin).
      simpl in *. injection E as -> -> Ez.
      apply Qgtb_true in Hz.
      split; [|split; [done|split; [by apply indexed_dropna_lookup|done]]].
      unfold P. simpl. split; [done|].
      destruct (Qgtb z 9) eqn:E9.
      + apply Qgtb_true in E9. split; split; try done; intros; lra.
      + apply Qgtb_false in E9. split; split; try done; intros; lra. }
  assert (Hall : forall names,
            exists per_column,
              mapM (fun name =>
                      match df !! name with
                      | None => Some []
                      | Some c =>
                          if isna_all c then Some []
                          else RagAgent.detect_column name c
                      end) names = Some per_column /\
              Forall (fun a =>
                        P a /\ RagAgent.column_name a ∈ names /\
                        exists c,
                          df !! RagAgent.column_name a = Some c /\
                          c !! RagAgent.row a =
                          Some (Some (RagAgent.value a)) /\
                          (10 <= length (dropna c))%nat)
                (concat per_column)).
  { induction names as [|name names (per & E & Hper)].
    - exists []. split; [done|constructor].
    - assert (Hhead : exists l,
                match df !! name with
                | None => Some []
                | Some c =>
                    if isna_all c then Some []
                    else RagAgent.detect_column name c
                end = Some l /\
                Forall (fun a =>
                          P a /\ RagAgent.column_name a = name /\
                          exists c,
                            df !! name = Some c /\
                            c !! RagAgent.row a =
                            Some (Some (RagAgent.value a)) /\
                            (10 <= length (dropna c))%nat) l).
      { destruct (df !! name) as [c|];
          [|exists []; split; [done|constructor]].
        destruct (isna_all c); [exists []; split; [done|constructor]|].
        destruct (Hcol name c) as (l & El & Hl).
        exists l. split; [done|].
        eapply Forall_impl; [exact Hl|].
        intros a (HP & Hn & Hr & Hlen). split; [done|]. split; [done|].
        by exists c. }
      destruct Hhead as (l & El & Hl).
      exists (l :: per). cbn [mapM]. rewrite El, E. split; [done|].
      simpl. apply Forall_app. split.
      + eapply Forall_impl; [exact Hl|].
        intros a (HP & Hn & c & Hc & Hr & Hlen). split; [done|].
        split; [rewrite Hn; apply list_elem_of_here|].
        exists c. by rewrite Hn.
      + eapply Forall_impl; [exact Hper|].
        intros a (HP & Hn & Hc). split; [done|].
        split; [by apply list_elem_of_further|done]. }
  destruct (Hall RagAgent.numeric_columns) as (per & -> & Hper).
  exists (concat per). split; [done|].
  eapply Forall_impl; [exact Hper|].
  intros a ((H1 & H2 & H3) & Hn & Hc). done.
Qed.

(** X7.  The share of the readings of a column that [_detect_anomalies]
    can report: either none, or the column has [n >= 10] readings with a
    variance above zero and the anomalies number at most [(n - 1) / 6.25],
    fewer than 16 in a hundred. *)
Theorem detect_column_share (name : string) (c : column) :
  exists found,
    RagAgent.detect_column name c = Some found /\
    (found = [] \/
     ((10 <= length (dropna c))%nat /\
      Q_of_nat (length found) * 6.25 <=
      Q_of_nat (length (dropna c)) - 1)).
Proof.
  destruct (detect_column_cases name c)
    as [->|(var & Hlen & Hvar & Hpos & ->)].
  - exists []. split; [done|by left].
  - eexists. split; [reflexivity|]. right. split; [done|].
    rewrite length_map, length_filter_map.
    pose proof (marked_share (dropna c) var Hvar Hpos) as H.
    pose proof (count_if_map
                  (fun v => Qgtb ((v - mean (dropna c)) *
                                  (v - mean (dropna c)) / var) 6.25)
                  snd (RagAgent.indexed_dropna c)) as E.
    rewrite map_snd_indexed_dropna in E. rewrite E in H. exact H.
Qed.

End DeviationFacts.

(** ** Series that lie on a line *)

Section LinearSeriesFacts.
Import PyNum Float64 Frame Synthetic.
Local Open Scope Q_scope.
Context {numpy : NumPy}.

Lemma Qsum_app (l l' : list Q) : Qsum (l ++ l') == Qsum l + Qsum l'.
Proof.
  unfold Qsum. induction l as [|x l IH]; simpl; [lra|]. rewrite IH. lra.
Qed.

Lemma Qsum_seq_S (F : nat -> Q) (n : nat) :
  Qsum (map F (seq 0 (S n))) == Qsum (map F (seq 0 n)) + F n.
Proof.
  rewrite seq_S, map_app, Qsum_app. unfold Qsum. simpl. lra.
Qed.

Lemma zip_with_map_map {A B C D} (h : B -> C -> D) (g : A -> B)
    (f : A -> C) (l : list A) :
  zip_with h (map g l) (map f l) = map (fun i => h (g i) (f i)) l.
Proof. induction l as [|x l IH]; simpl; congruence. Qed.

(** The sums of the positions [0 .. n - 1], of their squares, and of
    the values and products of a series on a line. *)
Lemma sum_positions (n : nat) :
  2 * Qsum (map Q_of_nat (seq 0 n)) == Q_of_nat n * (Q_of_nat n - 1).
Proof.
  induction n as [|n IH].
  - reflexivity.
  - rewrite Qsum_seq_S, Q_of_nat_S. lra.
Qed.

Lemma sum_squares (n : nat) :
  6 * Qsum (map (fun i => Q_of_nat i * Q_of_nat i) (seq 0 n)) ==
  (Q_of_nat n - 1) * Q_of_nat n * (2 * Q_of_nat n - 1).
Proof.
  induction n as [|n IH].
  - reflexivity.
  - rewrite Qsum_seq_S, Q_of_nat_S.
    set (N := Q_of_nat n) in *.
    set (S2 := Qsum _) in *. clearbody S2 N. lra.
Qed.

Lemma sum_line (a b : Q) (n : nat) :
  Qsum (map (fun i => a * Q_of_nat i + b) (seq 0 n)) ==
  a * Qsum (map Q_of_nat (seq 0 n)) + b * Q_of_nat n.
Proof.
  induction n as [|n IH].
  - unfold Qsum. simpl. change (Q_of_nat 0) with 0. lra.
  - rewrite !Qsum_seq_S, Q_of_nat_S, IH. lra.
Qed.

Lemma sum_products (a b : Q) (n : nat) :
  Qsum (map (fun i => Q_of_nat i * (a * Q_of_nat i + b)) (seq 0 n)) ==
  a * Qsum (map (fun i => Q_of_nat i * Q_of_nat i) (seq 0 n)) +
  b * Qsum (map Q_of_nat (seq 0 n)).
Proof.
  induction n as [|n IH].
  - unfold Qsum. simpl. lra.
  - rewrite !Qsum_seq_S, IH. lra.
Qed.

Lemma length_line (a b : Q) (n : nat) : length (line a b n) = n.
Proof. unfold line. by rewrite length_map, length_seq. Qed.

Lemma dropna_Some (l : list Q) : dropna (Some <$> l) = l.
Proof.
  unfold dropna. induction l as [|x l IH]; [done|].
  cbn [fmap list_fmap omap list_omap]. simpl. f_equal. exact IH.
Qed.

(** The least-squares slope of a series on a line is the slope of the
    line. *)
Lemma polyfit_line (a b : Q) (n : nat) :
  (2 <= n)%nat -> fst (polyfit1 (arange n) (line a b n)) == a.
Proof.
  intros Hn. unfold polyfit1, arange, line. cbn [fst].
  rewrite length_map, length_seq, zip_with_map_map, map_map.
  rewrite sum_line, sum_products.
  pose proof (sum_positions n) as H1. pose proof (sum_squares n) as H2.
  apply Q_of_nat_le in Hn. change (Q_of_nat 2) with 2 in Hn.
  set (N := Q_of_nat n) in *.
  set (S1 := Qsum (map Q_of_nat (seq 0 n))) in *.
  set (S2 := Qsum (map (fun i => Q_of_nat i * Q_of_nat i) (seq 0 n))) in *.
  clearbody N S1 S2.
  assert (HD : 0 < N * S2 - S1 * S1).
  { assert (E : 12 * (N * S2 - S1 * S1) == N * N * (N - 1) * (N + 1)).
    { assert (E0 : 12 * (N * S2 - S1 * S1) ==
                   2 * N * (6 * S2) - 3 * ((2 * S1) * (2 * S1))) by ring.
      rewrite E0, H1, H2. ring. }
    assert (0 < N * N * (N - 1) * (N + 1)) by
      (repeat apply Qmult_lt_0_compat; lra).
    lra. }
  assert (E : N * (a * S2 + b * S1) - S1 * (a * S1 + b * N) ==
              a * (N * S2 - S1 * S1)) by ring.
  rewrite E. apply Qdiv_mult_l. lra.
Qed.

(** X8.  A series of two or more readings that lie on a line of slope
    [a]: the least-squares slope is [a].  When the slope that the
    library returns is within [tol] of it, the trend of
    [_calculate_trend] is increasing when [a] exceeds 0.1 + [tol],
    decreasing when it is below -0.1 - [tol] and stable when it lies
    between -0.1 + [tol] and 0.1 - [tol]; [_analyze_trend] reports a
    slope within [tol] of [a], and the trend increasing from
    0.01 + [tol] on, decreasing from -0.01 - [tol] on, stable when [|a|]
    is below 0.01 - [tol]. *)
Theorem linear_series_trend (a b tol : Q) (n : nat)
    (df : gmap string column) (name : string) :
  (2 <= n)%nat ->
  df !! name = Some (Some <$> line a b n) ->
  Qabs (fst (np_polyfit (arange n) (line a b n)) -
        fst (polyfit1 (arange n) (line a b n))) <= tol ->
  fst (polyfit1 (arange n) (line a b n)) == a /\
  (b64 0.1 + tol < a ->
   PredictiveMaintenance._calculate_trend (line a b n) = "increasing") /\
  (a < - b64 0.1 - tol ->
   PredictiveMaintenance._calculate_trend (line a b n) = "decreasing") /\
  (- b64 0.1 + tol <= a <= b64 0.1 - tol ->
   PredictiveMaintenance._calculate_trend (line a b n) = "stable") /\
  Qabs (RagAgent.slope (RagAgent._analyze_trend df name) - a) <= tol /\
  (b64 0.01 + tol <= a ->
   RagAgent.trend (RagAgent._analyze_trend df name) = "increasing") /\
  (a <= - b64 0.01 - tol ->
   RagAgent.trend (RagAgent._analyze_trend df name) = "decreasing") /\
  (Qabs a < b64 0.01 - tol ->
   RagAgent.trend (RagAgent._analyze_trend df name) = "stable").
Proof.
  intros Hn Hdf Htol.
  pose proof (polyfit_line a b n Hn) as Hs.
  split; [exact Hs|].
  assert (Hlen : (2 <= length (line a b n))%nat)
    by (by rewrite length_line).
  pose proof (calculate_trend_bands (line a b n) Hlen) as Hb.
  cbv zeta in Hb. rewrite length_line in Hb.
  destruct Hb as (Hb1 & Hb2 & Hb3).
  assert (Hlen' : (2 <= length (dropna (Some <$> line a b n)))%nat)
    by (by rewrite dropna_Some).
  pose proof (analyze_trend_long df name _ Hdf Hlen') as Ht.
  cbv zeta in Ht. rewrite dropna_Some, length_line in Ht.
  destruct Ht as [-> ->].
  pose proof (classify_slope_bands
                (fst (np_polyfit (arange n) (line a b n))))
    as (Hc1 & Hc2 & Hc3).
  set (s := fst (np_polyfit (arange n) (line a b n))) in *.
  set (e := fst (polyfit1 (arange n) (line a b n))) in *.
  clearbody s e.
  apply Qabs_Qle_condition in Htol.
  rewrite Hb1, Hb2, Hb3, Hc1, Hc2, Hc3.
  set (t1 := b64 0.1) in *. set (t2 := b64 0.01) in *. clearbody t1 t2.
  split; [intros; lra|]. split; [intros; lra|]. split; [intros; lra|].
  split; [apply Qabs_Qle_condition; lra|].
  split; [intros; lra|]. split; [intros; lra|].
  intros Ha. apply Qabs_Qlt_condition in Ha.
  apply Qabs_Qlt_condition. lra.
Qed.

End LinearSeriesFacts.

(** ** A series on a line, with the fit computed exactly *)

Section LinearSeriesExamples.
Import PyNum Float64 Frame Synthetic.
Local Open Scope Q_scope.
#[local] Existing Instance exact_fit.

(** Three readings 20, 20.05, 20.1. *)
Lemma linear_series_trend_witness :
  PredictiveMaintenance._calculate_trend (line 0.05 20 3) = "stable" /\
  RagAgent.trend
    (RagAgent._analyze_trend
       (one_channel "temperature" (Some <$> line 0.05 20 3))
       "temperature") = "increasing".
Proof.
  assert (Hn : (2 <= 3)%nat) by lia.
  assert (Htol :
    Qabs (fst (np_polyfit (arange 3) (line 0.05 20 3)) -
          fst (polyfit1 (arange 3) (line 0.05 20 3))) <= 0)
    by (apply Qle_bool_iff; vm_compute; reflexivity).
  pose proof (linear_series_trend 0.05 20 0 3
                (one_channel "temperature" (Some <$> line 0.05 20 3))
                "temperature" Hn eq_refl Htol)
    as (_ & _ & _ & H1 & _ & H2 & _).
  split.
  - apply H1. split; apply Qle_bool_iff; vm_compute; reflexivity.
  - apply H2. apply Qle_bool_iff; vm_compute; reflexivity.
Defined.

End LinearSeriesExamples.

(** ** The ranking of the technicians *)

Section RankingFacts.
Import PyNum PyVal TechnicianRecommendation.
Local Open Scope Q_scope.

Lemma insert_desc_perm (x : recommendation) (l : list recommendation) :
  insert_desc x l ≡ₚ x :: l.
Proof.
  induction l as [|y l IH]; simpl; [done|].
  destruct (Qleb _ _); [done|].
  rewrite IH. apply perm_swap.
Qed.

Lemma sort_desc_perm (l : list recommendation) : sort_desc l ≡ₚ l.
Proof.
  induction l as [|x l IH]; simpl; [done|].
  rewrite insert_desc_perm. by rewrite IH.
Qed.

Lemma insert_desc_descending (x : recommendation)
    (l : list recommendation) :
  descending l -> descending (insert_desc x l).
Proof.
  induction l as [|y l IH]; simpl.
  - intros _. split; [constructor|done].
  - intros [Hy Hl].
    destruct (Qleb _ _) eqn:E.
    + apply Qleb_true in E. split; [|by split].
      constructor; [done|].
      eapply Forall_impl; [exact Hy|]. intros z Hz. simpl in Hz. lra.
    + apply Qleb_false in E. simpl. split; [|by apply IH].
      rewrite insert_desc_perm. constructor; [lra|done].
Qed.

Lemma sort_desc_descending (l : list recommendation) :
  descending (sort_desc l).
Proof.
  induction l as [|x l IH]; simpl; [done|].
  by apply insert_desc_descending.
Qed.

Lemma descending_take (k : nat) (l : list recommendation) :
  descending l -> descending (take k l).
Proof.
  revert k. induction l as [|x l IH]; intros [|k]; simpl; try done.
  intros [Hx Hl]. split; [by apply Forall_take|by apply IH].
Qed.

Lemma descending_lookup (l : list recommendation) (i j : nat)
    (x y : recommendation) :
  descending l -> (i <= j)%nat -> l !! i = Some x -> l !! j = Some y ->
  TechnicianRecommendation.score y <= TechnicianRecommendation.score x.
Proof.
  revert i j. induction l as [|z l IH]; intros i j Hd Hij Hi Hj;
    [done|].
  destruct Hd as [Hz Hl].
  destruct i as [|i]; simpl in Hi.
  - injection Hi as ->. destruct j as [|j]; simpl in Hj.
    + injection Hj as ->. lra.
    + rewrite Forall_forall in Hz. apply Hz.
      by eapply list_elem_of_lookup_2.
  - destruct j as [|j]; [lia|]. simpl in Hj.
    apply (IH i j); [done|lia|done|done].
Qed.

Lemma length_slice_to {A} (l : list A) (limit : Z) :
  length (slice_to l limit) =
  if (0 <=? limit)%Z then Nat.min (Z.to_nat limit) (length l)
  else (length l - Z.to_nat (- limit))%nat.
Proof.
  unfold slice_to. destruct (0 <=? limit)%Z; rewrite length_take; lia.
Qed.

(** X9.  The list of [get_technician_recommendations]: no entry is
    followed by one with a higher score; every entry is a technician of
    the pool with the total score and the reasons computed for that
    technician; and the list holds the first [limit] entries of the
    ranked pool, that is [min(limit, size of the pool)] entries for a
    limit that is not negative, and all but the last [-limit] for a
    negative one. *)
Theorem recommendations_ranked (db : db_connection) (i : incident_data)
    (limit : Z) :
  let result := get_technician_recommendations db i limit in
  (forall (k j : nat) (x y : recommendation),
     (k <= j)%nat -> result !! k = Some x -> result !! j = Some y ->
     TechnicianRecommendation.score y <= TechnicianRecommendation.score x)
  /\
  (forall r, r ∈ result ->
     rec_technician r ∈ _get_available_technicians db /\
     TechnicianRecommendation.score r =
       _calculate_technician_score db (rec_technician r) i /\
     TechnicianRecommendation.reasons r =
       _get_recommendation_reasons (rec_technician r) i) /\
  length result =
    (if (0 <=? limit)%Z
     then Nat.min (Z.to_nat limit)
            (length (_get_available_technicians db))
     else (length (_get_available_technicians db) -
           Z.to_nat (- limit))%nat).
Proof.
  intros result. subst result. unfold get_technician_recommendations.
  destruct (_get_available_technicians db) as [|t0 pool] eqn:E.
  { split; [intros k j x y _ Hk; done|].
    split; [intros r Hr; by apply elem_of_nil in Hr|].
    simpl. destruct (0 <=? limit)%Z; lia. }
  set (mk := fun tech =>
    {| rec_technician := tech;
       TechnicianRecommendation.score :=
         _calculate_technician_score db tech i;
       TechnicianRecommendation.reasons :=
         _get_recommendation_reasons tech i |}).
  set (scored := map mk (t0 :: pool)).
  assert (Hd : descending (slice_to (sort_desc scored) limit)).
  { unfold slice_to. destruct (0 <=? limit)%Z;
      apply descending_take, sort_desc_descending. }
  split.
  { intros k j x y. by apply descending_lookup. }
  split.
  { intros r Hr.
    assert (Hin : r ∈ scored).
    { rewrite <- (sort_desc_perm scored).
      unfold slice_to in Hr.
      destruct (0 <=? limit)%Z;
        apply elem_of_take in Hr as (k & Hk & _);
        by eapply list_elem_of_lookup_2. }
    apply list_elem_of_fmap in Hin as (t & -> & Ht). simpl. done. }
  rewrite length_slice_to, (Permutation_length (sort_desc_perm scored)).
  unfold scored. by rewrite length_map.
Qed.

End RankingFacts.

(** ** Incidents: priority, estimate, and the record of a completion *)

Section IncidentFacts.
Import PyNum PyTime PyStr PyVal IntelligentIncidentManagement Synthetic.
Local Open Scope Q_scope.

(** X10.  The priority of an incident reported without the keys
    [equipment_criticality] and [production_impact], determined from its
    own analysis: critical when the description holds one of the words
    [parada], [emergencia], [critico], [urgente], high otherwise; medium
    only when the description is no text, which is the error path.  Such
    an incident is never of low priority. *)
Theorem default_priority (incident_data : gmap string pyval) :
  incident_data !! "equipment_criticality" = None ->
  incident_data !! "production_impact" = None ->
  _determine_priority incident_data (_analyze_incident incident_data) =
  match as_str (get_or incident_data "description" (PyStr "")) with
  | Some description =>
      if any_in ["parada"; "emergencia"; "critico"; "urgente"]
           (lower description)
      then CRITICAL else HIGH
  | None => MEDIUM
  end.
Proof.
  intros Hc Hi.
  unfold _determine_priority, priority_body, _analyze_incident,
    analyze_body.
  assert (E1 : get_or incident_data "equipment_criticality"
                 (PyStr "medium") = PyStr "medium")
    by (unfold get_or; by rewrite Hc).
  assert (E2 : get_or incident_data "production_impact"
                 (PyStr "medium") = PyStr "medium")
    by (unfold get_or; by rewrite Hi).
  rewrite E1, E2.
  destruct (as_str (get_or incident_data "description" (PyStr "")))
    as [description|]; [|reflexivity].
  destruct (as_str (get_or incident_data "title" (PyStr ""))) as [title|];
    cbn [mbind option_bind default risk_level].
  - destruct (any_in ["parada"; "emergencia"; "critico"; "urgente";
                      "falla total"] _);
      destruct (any_in ["parada"; "emergencia"; "critico"; "urgente"]
                  (lower description)); reflexivity.
  - destruct (any_in ["parada"; "emergencia"; "critico"; "urgente"]
                (lower description)); reflexivity.
Qed.

Lemma default_priority_witness :
  _determine_priority motor_report (_analyze_incident motor_report) = HIGH.
Proof.
  exact (default_priority motor_report eq_refl eq_refl).
Defined.

(** The estimate for an incident from its own analysis. *)
Lemma estimate_composed_cases (incident_data : gmap string pyval) :
  _estimate_resolution_time incident_data
    (_analyze_incident incident_data) ∈
  [120; 144; 156; 187; 234; 240; 288; 312; 374; 468]%Z.
Proof.
  unfold _analyze_incident, analyze_body.
  destruct (as_str (get_or incident_data "description" (PyStr "")))
    as [description|]; [|apply list_elem_of_here].
  destruct (as_str (get_or incident_data "title" (PyStr ""))) as [title|];
    [|apply list_elem_of_here].
  cbn [mbind option_bind default].
  set (full_text := (lower title ++ " " ++ lower description)%string).
  clearbody full_text.
  unfold failure_types. cbn [List.filter snd].
  destruct (any_in ["motor"; "bomba"; "compresor"; "vibracion"; "ruido"]
              full_text);
    destruct (any_in ["corto"; "cable"; "voltaje"; "corriente";
                      "electrico"] full_text);
    destruct (any_in ["presion"; "fuga"; "aceite"; "hidraulico"]
                full_text);
    destruct (any_in ["aire"; "neumatico"; "valvula"; "cilindro"]
                full_text);
    destruct (any_in ["sensor"; "controlador"; "plc"; "hmi"; "digital"]
                full_text);
    destruct (any_in ["parada"; "emergencia"; "critico"; "urgente";
                      "falla total"] full_text);
    destruct (any_in ["complejo"; "multiple"; "sistema"; "integrado"]
                full_text);
    vm_compute;
    repeat first [apply list_elem_of_here | apply list_elem_of_further].
Qed.

Lemma estimate_composed_bounds (incident_data : gmap string pyval) :
  (120 <= _estimate_resolution_time incident_data
            (_analyze_incident incident_data) <= 468)%Z.
Proof.
  pose proof (estimate_composed_cases incident_data) as H.
  set (t := _estimate_resolution_time _ _) in *. clearbody t.
  repeat (apply elem_of_cons in H as [-> | H]; [lia|]).
  by apply elem_of_nil in H.
Qed.

Lemma lookup_complexity_cases (key : string) :
  default 1.0
    ((list_to_map [("low", 0.5); ("medium", 1.0); ("high", 2.0)]
        : gmap string Q) !! key) ∈ [0.5; 1.0; 2.0].
Proof.
  destruct (_ !! key) as [v|] eqn:E;
    [|apply list_elem_of_further, list_elem_of_here].
  apply elem_of_list_to_map_2 in E. simpl.
  repeat (apply elem_of_cons in E as [[= _ <-] | E];
          [repeat first [apply list_elem_of_here
                        | apply list_elem_of_further]|]).
  by apply elem_of_nil in E.
Qed.

(** X11.  The estimated resolution time in minutes.  For any analysis
    it lies between 60 and 468.  For the analysis of the incident itself
    it is one of ten values between 120 and 468: the factor 1.5 for an
    electronic failure never comes without the factor 1.3 for several
    specialties, so that 180 and 360 minutes are never estimated. *)
Theorem estimated_resolution_time_values
    (incident_data : gmap string pyval) (a : analysis) :
  (60 <= _estimate_resolution_time incident_data a <= 468)%Z /\
  _estimate_resolution_time incident_data
    (_analyze_incident incident_data) ∈
  [120; 144; 156; 187; 234; 240; 288; 312; 374; 468]%Z /\
  (120 <= _estimate_resolution_time incident_data
            (_analyze_incident incident_data) <= 468)%Z.
Proof.
  split.
  { unfold _estimate_resolution_time.
    pose proof (lookup_complexity_cases (complexity a)) as Hc.
    destruct (mem "electronica" (suggested_tags a));
      [|destruct (mem "mecanica" (suggested_tags a))];
      destruct (1 <? size (required_specialties a))%nat;
      apply elem_of_cons in Hc as [-> | Hc];
      try (apply elem_of_cons in Hc as [-> | Hc]);
      try (apply list_elem_of_singleton in Hc as ->);
      vm_compute; split; discriminate. }
  split; [apply estimate_composed_cases|apply estimate_composed_bounds].
Qed.

Lemma row_estimated_duration (incident : Incident) :
  row_of_incident incident !! "estimated_duration" =
  Some (opt_int (estimated_duration incident)).
Proof. destruct incident. reflexivity. Qed.

Lemma row_status (incident : Incident) :
  row_of_incident incident !! "status" =
  Some (PyStr (IncidentStatus_value (status incident))).
Proof. destruct incident. reflexivity. Qed.

Lemma update_row_actual_duration (new_status : IncidentStatus)
    (now : datetime) (notes : option string) (actual_duration : option Z)
    (row : gmap string pyval) :
  update_row new_status now notes actual_duration row !! "actual_duration" =
  Some (opt_int actual_duration).
Proof.
  unfold update_row.
  rewrite !lookup_insert_ne by done. apply lookup_insert_eq.
Qed.

Lemma update_row_estimated_duration (new_status : IncidentStatus)
    (now : datetime) (notes : option string) (actual_duration : option Z)
    (row : gmap string pyval) :
  update_row new_status now notes actual_duration row
    !! "estimated_duration" = row !! "estimated_duration".
Proof. unfold update_row. by rewrite !lookup_insert_ne by done. Qed.

(** The efficiency that is recorded lies in (0, 1], and is 1 exactly
    when the work took no longer than estimated. *)
Lemma efficiency_range (e a : Q) :
  0 < e -> 0 < a ->
  0 < Qmin 1.0 (e / a) <= 1 /\ (Qmin 1.0 (e / a) == 1 <-> a <= e).
Proof.
  intros He Ha.
  assert (Hq : 0 < e / a) by (apply Qlt_shift_div_l; lra).
  assert (H1 : a <= e <-> 1 <= e / a).
  { split; intros H.
    - apply Qle_shift_div_l; lra.
    - apply (Qmult_le_r _ _ a) in H; [|done].
      assert (E : e / a * a == e)
        by (rewrite Qmult_comm; apply Qmult_div_r; lra).
      lra. }
  destruct (Q.min_spec 1.0 (e / a)) as [[Hlt E]|[Hle E]]; rewrite E.
  - split; [lra|]. split; [intros _; apply H1; lra|reflexivity].
  - split; [lra|]. split; intros H; [apply H1; lra|].
    apply H1 in H. lra.
Qed.

(** The store after an incident with a positive estimate was completed
    with a positive duration. *)
Lemma complete_records (st : store) (f : faults) (now : datetime)
    (incident_id : string) (notes : option string) (d : Z)
    (row : gmap string pyval) (e : Q) :
  incidents st !! incident_id = Some row ->
  as_number (get_or row "estimated_duration" (PyInt 0)) = Some e ->
  0 < e -> (0 < d)%Z ->
  update_incident_fails f = false ->
  select_incident_fails f = false ->
  insert_performance_fails f = false ->
  executes_writes f = true ->
  incident_performance
    (snd (update_incident_status st f now incident_id COMPLETED notes
            (Some d))) =
  incident_performance st ++
  [{| perf_incident_id := incident_id;
      perf_estimated_duration := e;
      perf_actual_duration := inject_Z d;
      efficiency := Qmin 1.0 (e / inject_Z d);
      completed_at := now |}].
Proof.
  intros Hrow He Hpos Hd Hu Hs Hi Hx.
  unfold update_incident_status. rewrite Hu, Hx. cbn [negb snd].
  unfold _generate_performance_analysis. rewrite Hs, Hx.
  cbn [negb incidents].
  rewrite lookup_alter_eq, Hrow. cbn [fmap option_fmap option_map].
  unfold get_or in *.
  rewrite update_row_estimated_duration, update_row_actual_duration.
  cbn [default opt_int as_number]. rewrite He.
  assert (E1 : Qgtb e 0 = true) by (apply Qgtb_true; lra).
  assert (E2 : Qgtb (inject_Z d) 0 = true).
  { apply Qgtb_true. change 0 with (inject_Z 0). rewrite <- Zlt_Qlt. lia. }
  rewrite E1. unfold Datatypes.id. cbn [as_number].
  rewrite E2, Hi. reflexivity.
Qed.

(** X12.  Completing a stored incident whose estimate is positive, with
    a positive duration, no query raising: when the data-access object
    carries statements out, exactly one row is appended to
    [incident_performance], with the incident, the estimate, the
    duration, and the efficiency [min(1, estimate / duration)], which
    lies in (0, 1] and is 1 exactly when the work took no longer than
    estimated; when it does not, as with the [DatabaseConnection] of the
    repository, no row is appended. *)
Theorem completion_records_performance (st : store) (f : faults)
    (now : datetime) (incident_id : string) (notes : option string)
    (d : Z) (row : gmap string pyval) (e : Q) :
  incidents st !! incident_id = Some row ->
  as_number (get_or row "estimated_duration" (PyInt 0)) = Some e ->
  0 < e -> (0 < d)%Z ->
  update_incident_fails f = false ->
  select_incident_fails f = false ->
  insert_performance_fails f = false ->
  incident_performance
    (snd (update_incident_status st f now incident_id COMPLETED notes
            (Some d))) =
  (if executes_writes f
   then incident_performance st ++
        [{| perf_incident_id := incident_id;
            perf_estimated_duration := e;
            perf_actual_duration := inject_Z d;
            efficiency := Qmin 1.0 (e / inject_Z d);
            completed_at := now |}]
   else incident_performance st) /\
  incident_performance
    (snd (update_incident_status st database_connection now incident_id
            COMPLETED notes (Some d))) =
  incident_performance st /\
  0 < Qmin 1.0 (e / inject_Z d) <= 1 /\
  (Qmin 1.0 (e / inject_Z d) == 1 <-> inject_Z d <= e).
Proof.
  intros Hrow He Hpos Hd Hu Hs Hi.
  split.
  { destruct (executes_writes f) eqn:Hx.
    - by apply (complete_records st f now incident_id notes d row).
    - by rewrite update_dropped. }
  split; [by rewrite update_dropped|].
  apply efficiency_range; [done|].
  change 0 with (inject_Z 0). rewrite <- Zlt_Qlt. lia.
Qed.

(** An incident in progress that was estimated at 144 minutes,
    completed after 180. *)
Lemma completion_records_performance_witness :
  incident_performance
    (snd (update_incident_status store_with_estimate no_faults 5000%Z
            "INC-2" COMPLETED None (Some 180%Z))) =
  [{| perf_incident_id := "INC-2";
      perf_estimated_duration := inject_Z 144;
      perf_actual_duration := inject_Z 180;
      efficiency := Qmin 1.0 (inject_Z 144 / inject_Z 180);
      completed_at := 5000%Z |}].
Proof.
  assert (Hpos : 0 < inject_Z 144) by reflexivity.
  assert (Hd : (0 < 180)%Z) by lia.
  exact (proj1 (completion_records_performance store_with_estimate
                  no_faults 5000%Z "INC-2" None 180%Z _ (inject_Z 144)
                  eq_refl eq_refl Hpos Hd eq_refl eq_refl eq_refl)).
Defined.

(** What [create_incident] returns and stores when the row can be
    written. *)
Lemma create_incident_saved
    (recommender : TechnicianRecommendation.db_connection) (st : store)
    (f : faults) (incident_id : string) (now : datetime)
    (incident_data : gmap string pyval) (auto_assign : bool) :
  json_serializable (get_or incident_data "attachments" (PyList [])) = true ->
  insert_incident_fails f = false ->
  incidents st !! incident_id = None ->
  exists incident a assignment recommendations,
    create_incident recommender st f incident_id now incident_data
      auto_assign =
    (Created incident a assignment recommendations,
     if executes_writes f
     then {| incidents :=
               <[incident_id := row_of_incident incident]> (incidents st);
             incident_performance := incident_performance st |}
     else st) /\
    IntelligentIncidentManagement.id incident = incident_id /\
    status incident = PENDING /\
    estimated_duration incident =
      Some (_estimate_resolution_time incident_data
              (_analyze_incident incident_data)) /\
    priority incident =
      _determine_priority incident_data (_analyze_incident incident_data) /\
    created_at incident = now /\
    (auto_assign = false -> assigned_technician incident = PyNone).
Proof.
  intros Hjson Hins Hfree. unfold create_incident.
  set (incident := match (if auto_assign then _ else _) with
                   | Some _ => _ | None => _ end).
  assert (Hfields :
            IntelligentIncidentManagement.id incident = incident_id /\
            status incident = PENDING /\
            estimated_duration incident =
              Some (_estimate_resolution_time incident_data
                      (_analyze_incident incident_data)) /\
            priority incident =
              _determine_priority incident_data
                (_analyze_incident incident_data) /\
            created_at incident = now /\
            attachments incident =
              get_or incident_data "attachments" (PyList []) /\
            (auto_assign = false -> assigned_technician incident = PyNone)).
  { unfold incident. destruct auto_assign; repeat split; done. }
  destruct Hfields as (Hid & Hst & Hest & Hpri & Hcr & Hatt & Hasg).
  unfold _save_incident. rewrite Hatt, Hjson, Hins, Hid, Hfree.
  cbn [negb]. eexists _, _, _, _.
  split; [by destruct (executes_writes f)|]. done.
Qed.

(** With a data-access object that carries no statement out, the
    identifier need not be free. *)
Lemma create_incident_dropped
    (recommender : TechnicianRecommendation.db_connection) (st : store)
    (f : faults) (incident_id : string) (now : datetime)
    (incident_data : gmap string pyval) (auto_assign : bool) :
  json_serializable (get_or incident_data "attachments" (PyList [])) = true ->
  insert_incident_fails f = false ->
  executes_writes f = false ->
  exists incident a assignment recommendations,
    create_incident recommender st f incident_id now incident_data
      auto_assign =
    (Created incident a assignment recommendations, st) /\
    IntelligentIncidentManagement.id incident = incident_id /\
    status incident = PENDING.
Proof.
  intros Hjson Hins Hx. unfold create_incident.
  set (incident := match (if auto_assign then _ else _) with
                   | Some _ => _ | None => _ end).
  assert (Hfields :
            IntelligentIncidentManagement.id incident = incident_id /\
            status incident = PENDING /\
            attachments incident =
              get_or incident_data "attachments" (PyList [])).
  { unfold incident. destruct auto_assign; repeat split; done. }
  destruct Hfields as (Hid & Hst & Hatt).
  unfold _save_incident. rewrite Hatt, Hjson, Hins, Hx.
  cbn [negb]. eexists _, _, _, _. split; [reflexivity|]. done.
Qed.

(** X13.  The outcome of [create_incident].  When the attachments
    cannot be written or the insert raises, it reports an error and the
    store is unchanged.  Otherwise, with a data-access object that
    carries statements out: on a free identifier it stores exactly one
    new row under the identifier, with status pending, the priority and
    the estimate it determined, and leaves every other row and the
    performance table as they were; on a taken identifier it reports an
    error and the store is unchanged.  With an object that carries no
    statement out, as the [DatabaseConnection] of the repository, it
    reports the incident as created, pending, and the store is
    unchanged. *)
Theorem create_incident_outcome
    (recommender : TechnicianRecommendation.db_connection) (st : store)
    (f : faults) (incident_id : string) (now : datetime)
    (incident_data : gmap string pyval) (auto_assign : bool) :
  let result :=
    create_incident recommender st f incident_id now incident_data
      auto_assign in
  if json_serializable (get_or incident_data "attachments" (PyList []))
     && negb (insert_incident_fails f)
  then
    if executes_writes f
    then
      if bool_decide (incidents st !! incident_id = None)
      then
        exists incident a assignment recommendations,
          fst result = Created incident a assignment recommendations /\
          incidents (snd result) !! incident_id =
            Some (row_of_incident incident) /\
          column_of (snd result) incident_id "status" =
            Some (PyStr "pending") /\
          column_of (snd result) incident_id "estimated_duration" =
            Some (PyInt (_estimate_resolution_time incident_data
                           (_analyze_incident incident_data))) /\
          column_of (snd result) incident_id "priority" =
            Some (PyStr (IncidentPriority_value
                           (_determine_priority incident_data
                              (_analyze_incident incident_data)))) /\
          (forall other, other <> incident_id ->
             incidents (snd result) !! other = incidents st !! other) /\
          incident_performance (snd result) = incident_performance st
      else result = (CreateError, st)
    else
      exists incident a assignment recommendations,
        result = (Created incident a assignment recommendations, st) /\
        IntelligentIncidentManagement.id incident = incident_id /\
        status incident = PENDING
  else result = (CreateError, st).
Proof.
  intros result.
  destruct (json_serializable _) eqn:Hjson; cbn [andb].
  2: { subst result. unfold create_incident.
       set (incident := match (if auto_assign then _ else _) with
                        | Some _ => _ | None => _ end).
       assert (Hatt : attachments incident =
                      get_or incident_data "attachments" (PyList []))
         by (unfold incident; by destruct auto_assign).
       unfold _save_incident. by rewrite Hatt, Hjson. }
  destruct (insert_incident_fails f) eqn:Hins; cbn [andb negb].
  { subst result. unfold create_incident, _save_incident. rewrite Hins.
    by destruct (negb _). }
  destruct (executes_writes f) eqn:Hx.
  2: { by apply create_incident_dropped. }
  case_bool_decide as Hfree.
  - destruct (create_incident_saved recommender st f incident_id now
                incident_data auto_assign Hjson Hins Hfree)
      as (incident & a & asg & recs & E & Hid & Hst & Hest & Hpri & _).
    rewrite Hx in E.
    exists incident, a, asg, recs. subst result. rewrite E. cbn [fst snd].
    unfold column_of. cbn [incidents incident_performance].
    rewrite lookup_insert_eq. cbn [mbind option_bind].
    split; [done|]. split; [done|].
    split; [by rewrite row_status, Hst|].
    split; [by rewrite row_estimated_duration, Hest|].
    split; [destruct incident; cbn in Hpri; by rewrite <- Hpri|].
    split; [|done].
    intros other Hne. by rewrite lookup_insert_ne.
  - subst result. unfold create_incident.
    set (incident := match (if auto_assign then _ else _) with
                     | Some _ => _ | None => _ end).
    assert (Hid : IntelligentIncidentManagement.id incident = incident_id)
      by (unfold incident; by destruct auto_assign).
    unfold _save_incident. rewrite Hid, Hins, Hx.
    destruct (negb _); [done|]. cbn [negb].
    destruct (incidents st !! incident_id); [done|]. by destruct Hfree.
Qed.

(** X14.  From report to record, no query raising: an incident created
    by [create_incident] on a free identifier, then completed with a
    positive duration.  With a data-access object that carries
    statements out it is stored pending, then completed, and leaves
    exactly one row in [incident_performance], with the estimate made at
    creation and an efficiency in (0, 1]; with one that carries none
    out, as the [DatabaseConnection] of the repository, the store is the
    same after the two calls as before them.  The estimate made at
    creation is 120 minutes at least. *)
Theorem created_then_completed
    (recommender : TechnicianRecommendation.db_connection) (st : store)
    (f : faults) (incident_id : string) (now later : datetime)
    (incident_data : gmap string pyval) (auto_assign : bool)
    (notes : option string) (d : Z) :
  json_serializable (get_or incident_data "attachments" (PyList [])) = true ->
  incidents st !! incident_id = None ->
  (0 < d)%Z ->
  insert_incident_fails f = false ->
  update_incident_fails f = false ->
  select_incident_fails f = false ->
  insert_performance_fails f = false ->
  let st1 :=
    snd (create_incident recommender st f incident_id now
           incident_data auto_assign) in
  let st2 :=
    snd (update_incident_status st1 f later incident_id COMPLETED
           notes (Some d)) in
  let t :=
    _estimate_resolution_time incident_data
      (_analyze_incident incident_data) in
  (executes_writes f = true ->
   column_of st1 incident_id "status" = Some (PyStr "pending") /\
   column_of st2 incident_id "status" = Some (PyStr "completed") /\
   incident_performance st2 =
     incident_performance st ++
     [{| perf_incident_id := incident_id;
         perf_estimated_duration := inject_Z t;
         perf_actual_duration := inject_Z d;
         efficiency := Qmin 1.0 (inject_Z t / inject_Z d);
         completed_at := later |}]) /\
  (executes_writes f = false -> st1 = st /\ st2 = st) /\
  (120 <= t)%Z /\
  0 < Qmin 1.0 (inject_Z t / inject_Z d) <= 1.
Proof.
  intros Hjson Hfree Hd Hins Hupd Hsel Hperf_ok st1 st2 t.
  pose proof (estimate_composed_bounds incident_data) as [Ht _].
  fold t in Ht.
  assert (Hpos : 0 < inject_Z t).
  { change 0 with (inject_Z 0). rewrite <- Zlt_Qlt. lia. }
  assert (Hdpos : 0 < inject_Z d).
  { change 0 with (inject_Z 0). rewrite <- Zlt_Qlt. lia. }
  split; [|split; [|split; [done|by apply efficiency_range]]].
  - intros Hx.
    destruct (create_incident_saved recommender st f incident_id now
                incident_data auto_assign Hjson Hins Hfree)
      as (incident & a & asg & recs & E & Hid & Hst & Hest & _).
    rewrite Hx in E. fold t in Hest.
    assert (Hrow : incidents st1 !! incident_id =
                   Some (row_of_incident incident)).
    { unfold st1. rewrite E. cbn [snd incidents]. apply lookup_insert_eq. }
    assert (Hperf : incident_performance st1 = incident_performance st).
    { unfold st1. by rewrite E. }
    split.
    { unfold column_of. rewrite Hrow. cbn [mbind option_bind].
      by rewrite row_status, Hst. }
    split.
    { unfold column_of, st2.
      rewrite update_incidents, Hupd, Hx. cbn [orb negb].
      rewrite lookup_alter_eq, Hrow. cbn [fmap option_fmap option_map].
      cbn [mbind option_bind]. apply update_row_status. }
    unfold st2. rewrite <- Hperf.
    apply (complete_records st1 f later incident_id notes d
             (row_of_incident incident)); try done.
    unfold get_or. by rewrite row_estimated_duration, Hest.
  - intros Hx.
    destruct (create_incident_dropped recommender st f incident_id now
                incident_data auto_assign Hjson Hins Hx)
      as (incident & a & asg & recs & E & _).
    assert (E1 : st1 = st) by (unfold st1; by rewrite E).
    split; [exact E1|].
    unfold st2. rewrite E1. by rewrite update_dropped.
Qed.

(** The report of the motor, created in an empty store that carries
    statements out, and completed after 180 minutes. *)
Lemma created_then_completed_witness :
  column_of
    (snd (update_incident_status store_with_pending no_faults 5000%Z
            "INC-1" COMPLETED None (Some 180%Z))) "INC-1" "status" =
  Some (PyStr "completed").
Proof.
  assert (Hd : (0 < 180)%Z) by lia.
  destruct (created_then_completed no_technicians empty_store no_faults
              "INC-1" 1000%Z 5000%Z motor_report true None
              180%Z eq_refl eq_refl Hd eq_refl eq_refl eq_refl eq_refl)
    as [H _].
  exact (proj1 (proj2 (H eq_refl))).
Defined.

Lemma Qgtb_inject_Z_nonpos (z : Z) : (z <= 0)%Z -> Qgtb (inject_Z z) 0 = false.
Proof.
  intros H. apply Qgtb_false. change 0 with (inject_Z 0).
  rewrite <- Zle_Qle. lia.
Qed.

(** X15.  No row is added to [incident_performance] by a status update
    to a status other than completed, nor by a completion that passes no
    duration (the default), or one that is not positive. *)
Theorem no_performance_record (st : store) (f : faults) (now : datetime)
    (incident_id : string) (new_status : IncidentStatus)
    (notes : option string) (actual_duration : option Z) :
  new_status <> COMPLETED \/
  (forall d, actual_duration = Some d -> (d <= 0)%Z) ->
  incident_performance
    (snd (update_incident_status st f now incident_id new_status notes
            actual_duration)) =
  incident_performance st.
Proof.
  intros H.
  destruct (update_incident_fails f) eqn:Hu;
    [unfold update_incident_status; by rewrite Hu|].
  destruct (executes_writes f) eqn:Hx; [|by rewrite update_dropped].
  unfold update_incident_status. rewrite Hu, Hx. cbn [negb snd].
  destruct new_status; try done.
  destruct H as [H|H]; [done|].
  unfold _generate_performance_analysis.
  destruct (select_incident_fails f); [done|]. cbn [incidents].
  rewrite lookup_alter_eq.
  destruct (incidents st !! incident_id) as [row|];
    cbn [fmap option_fmap option_map]; [|done].
  unfold get_or. rewrite update_row_actual_duration.
  cbn [default]. unfold Datatypes.id.
  destruct (as_number _) as [e|]; [|done].
  destruct (Qgtb e 0); [|done].
  destruct actual_duration as [d|]; cbn [opt_int as_number]; [|done].
  by rewrite Qgtb_inject_Z_nonpos by by apply H.
Qed.

(** The incident of the motor, completed without a duration. *)
Lemma no_performance_record_witness :
  incident_performance
    (snd (update_incident_status store_with_estimate no_faults 5000%Z
            "INC-2" COMPLETED None None)) = [].
Proof.
  apply (no_performance_record store_with_estimate no_faults 5000%Z
           "INC-2" COMPLETED None None).
  right. intros d Hd. discriminate Hd.
Defined.

(** X16.  A status update for an identifier that no stored incident
    carries reports success, with the new status, and changes nothing in
    the store. *)
Theorem update_of_unknown_incident (st : store) (f : faults)
    (now : datetime) (incident_id : string) (new_status : IncidentStatus)
    (notes : option string) (actual_duration : option Z) :
  incidents st !! incident_id = None ->
  update_incident_fails f = false ->
  update_incident_status st f now incident_id new_status notes
    actual_duration =
  (Updated incident_id (IncidentStatus_value new_status) now, st).
Proof.
  intros Hnone Hu.
  destruct (executes_writes f) eqn:Hx; [|by apply update_dropped].
  unfold update_incident_status. rewrite Hu, Hx. cbn [negb].
  assert (E : alter (update_row new_status now notes actual_duration)
                incident_id (incidents st) = incidents st).
  { apply map_eq. intros k. rewrite lookup_alter.
    case_decide as Hk; [|done]. subst k. by rewrite Hnone. }
  rewrite E.
  assert (Est : {| incidents := incidents st;
                   incident_performance := incident_performance st |} = st)
    by (by destruct st).
  rewrite Est. f_equal.
  destruct new_status; try done.
  unfold _generate_performance_analysis.
  destruct (select_incident_fails f); [done|]. by rewrite Hnone.
Qed.

Lemma update_of_unknown_incident_witness :
  update_incident_status empty_store no_faults 2000%Z "INC-404" COMPLETED
    None (Some 30%Z) =
  (Updated "INC-404" "completed" 2000%Z, empty_store).
Proof.
  exact (update_of_unknown_incident empty_store no_faults 2000%Z "INC-404"
           COMPLETED None (Some 30%Z) eq_refl eq_refl).
Defined.

End IncidentFacts.

(** ** Sensor metrics *)

Section MetricFacts.
Import PyNum Frame Synthetic.
Local Open Scope Q_scope.
Context {numpy : NumPy}.

Lemma min_of_le (v : Q) (rest : list Q) (x : Q) :
  x ∈ v :: rest -> min_of v rest <= x.
Proof.
  unfold min_of. induction rest as [|y rest IH]; simpl.
  - intros ->%list_elem_of_singleton. lra.
  - intros Hx.
    assert (Hcases : x = y \/ x ∈ v :: rest).
    { apply elem_of_cons in Hx as [->|Hx]; [right; apply list_elem_of_here|].
      apply elem_of_cons in Hx as [->|Hx]; [by left|].
      right. by apply list_elem_of_further. }
    destruct Hcases as [->|Hin].
    + apply Q.le_min_l.
    + specialize (IH Hin).
      pose proof (Q.le_min_r y (foldr Qmin v rest)). lra.
Qed.

Lemma max_of_ge (v : Q) (rest : list Q) (x : Q) :
  x ∈ v :: rest -> x <= max_of v rest.
Proof.
  unfold max_of. induction rest as [|y rest IH]; simpl.
  - intros ->%list_elem_of_singleton. lra.
  - intros Hx.
    assert (Hcases : x = y \/ x ∈ v :: rest).
    { apply elem_of_cons in Hx as [->|Hx]; [right; apply list_elem_of_here|].
      apply elem_of_cons in Hx as [->|Hx]; [by left|].
      right. by apply list_elem_of_further. }
    destruct Hcases as [->|Hin].
    + apply Q.le_max_l.
    + specialize (IH Hin).
      pose proof (Q.le_max_r y (foldr Qmax v rest)). lra.
Qed.

Lemma Qsum_bounds (a b : Q) (l : list Q) :
  (forall x, x ∈ l -> a <= x <= b) ->
  a * Q_of_nat (length l) <= Qsum l <= b * Q_of_nat (length l).
Proof.
  unfold Qsum. induction l as [|x l IH]; intros H.
  - simpl. change (Q_of_nat 0) with 0. lra.
  - cbn [length foldr]. rewrite Q_of_nat_S.
    pose proof (H x (list_elem_of_here _ _)) as Hx.
    assert (Hl : forall y, y ∈ l -> a <= y <= b)
      by (intros y Hy; apply H; by apply list_elem_of_further).
    specialize (IH Hl). lra.
Qed.

Lemma mean_bounds (a b : Q) (l : list Q) :
  l <> [] -> (forall x, x ∈ l -> a <= x <= b) -> a <= mean l <= b.
Proof.
  intros Hne H. pose proof (Qsum_bounds a b l H) as [H1 H2].
  assert (Hn : 0 < Q_of_nat (length l)).
  { destruct l as [|x l]; [done|]. cbn [length]. rewrite Q_of_nat_S.
    pose proof (Q_of_nat_nonneg (length l)). lra. }
  unfold mean. split.
  - by apply Qle_shift_div_l.
  - by apply Qle_shift_div_r.
Qed.

(** X17.  Every entry of the dict of [_calculate_sensor_metrics] belongs
    to one of the six listed channels and is consistent: the current
    value is the latest reading and lies between the minimum and the
    maximum, the squared deviation is not negative, and it is defined
    exactly when the channel has two readings or more. *)
Theorem sensor_metric_invariants (df : gmap string column) (col : string)
    (m : PredictiveMaintenance.sensor_metric) :
  PredictiveMaintenance._calculate_sensor_metrics df !! col = Some m ->
  col ∈ PredictiveMaintenance.metric_columns /\
  (exists cur,
     PredictiveMaintenance.current m = Some cur /\
     last (PredictiveMaintenance.channel_values df col) = Some cur /\
     PredictiveMaintenance.min m <= cur <= PredictiveMaintenance.max m) /\
  (forall v, PredictiveMaintenance.std_sq m = Some v -> 0 <= v) /\
  (is_Some (PredictiveMaintenance.std_sq m) <->
   (2 <= length (PredictiveMaintenance.channel_values df col))%nat).
Proof.
  rewrite sensor_metrics_lookup.
  case_bool_decide as Hcol; [|done]. intros Hm.
  split; [done|].
  unfold PredictiveMaintenance.metric_of_values in Hm.
  destruct (PredictiveMaintenance.channel_values df col)
    as [|v rest] eqn:E; [done|].
  injection Hm as <-.
  cbn [PredictiveMaintenance.current PredictiveMaintenance.average
       PredictiveMaintenance.min PredictiveMaintenance.max
       PredictiveMaintenance.std_sq].
  assert (Hb : forall x, x ∈ v :: rest ->
            min_of v rest <= x <= max_of v rest).
  { intros x Hx. split; [by apply min_of_le|by apply max_of_ge]. }
  split.
  { destruct (last (v :: rest)) as [cur|] eqn:El.
    - exists cur. split; [done|]. split; [done|].
      apply Hb. apply last_Some in El as [l' ->].
      apply elem_of_app. right. apply list_elem_of_here.
    - by apply last_None in El. }
  split; [intros var Hvar; exact (sample_var_nonneg (v :: rest) _ Hvar)|].
  destruct rest as [|w rest]; simpl.
  - split; [intros [? Hv]; discriminate Hv|lia].
  - split; [lia|by eexists].
Qed.

End MetricFacts.

(** ** Sensor metrics of a concrete frame *)

Section MetricExamples.
Import PyNum Frame Synthetic.
Local Open Scope Q_scope.
#[local] Existing Instance exact_fit.

(** Three readings of one channel. *)
Lemma sensor_metric_invariants_witness :
  exists m,
    PredictiveMaintenance._calculate_sensor_metrics
      (one_channel "pressure" [Some 4; None; Some 6; Some 5])
      !! "pressure" = Some m /\
    (forall v, PredictiveMaintenance.std_sq m = Some v -> 0 <= v).
Proof.
  destruct (PredictiveMaintenance._calculate_sensor_metrics
              (one_channel "pressure" [Some 4; None; Some 6; Some 5])
              !! "pressure") as [m|] eqn:E;
    [|vm_compute in E; discriminate E].
  exists m. split; [reflexivity|].
  exact (proj1 (proj2 (proj2 (sensor_metric_invariants _ _ m E)))).
Defined.

End MetricExamples.

(** ** Estimates and ratings *)

Section EstimateFacts.
Import PyNum PyVal.
Local Open Scope Q_scope.

Lemma category_multiplier_range (category : string) :
  1 <= default 1.0 (IncidentManagement.category_multipliers !! category)
    <= 1.6.
Proof.
  destruct (_ !! category) as [v|] eqn:E; [|simpl; lra].
  apply elem_of_list_to_map_2 in E. change (1 <= v <= 1.6).
  repeat (apply elem_of_cons in E as [[= _ ->] | E]; [lra|]).
  by apply elem_of_nil in E.
Qed.

(** X18.  The resolution estimate of the incident service against its
    SLA table: for an incident of a valid priority the estimate is
    defined, its maximum is the SLA hours of that priority times the
    factor of the category, which lies between 1 and 1.6, so that the
    maximum is never below the SLA window; and the minimum is positive
    and at most a quarter of the maximum. *)
Theorem resolution_estimate_and_sla
    (incident_data : gmap string pyval) (p : IncidentManagement.Priority) :
  incident_data !! "priority" =
    Some (PyStr (IncidentManagement.Priority_value p)) ->
  (forall l, incident_data !! "category" <> Some (PyList l)) ->
  exists e h,
    IncidentManagement._estimate_resolution_time incident_data = Some e /\
    IncidentManagement.sla_hours p = Some h /\
    inject_Z h <= IncidentManagement.estimated_max_hours e
      <= 1.6 * inject_Z h /\
    0 < IncidentManagement.estimated_min_hours e /\
    4 * IncidentManagement.estimated_min_hours e <=
      IncidentManagement.estimated_max_hours e.
Proof.
  intros Hp Hc. unfold IncidentManagement._estimate_resolution_time.
  assert (Ep : get_or incident_data "priority" (PyStr "medium") =
               PyStr (IncidentManagement.Priority_value p))
    by (unfold get_or; by rewrite Hp).
  assert (Hb : IncidentManagement.table_get IncidentManagement.base_times
                 (PyStr (IncidentManagement.Priority_value p)) (4, 24)%Z =
               Some (match p with
                     | IncidentManagement.CRITICAL => (1, 4)%Z
                     | IncidentManagement.HIGH => (2, 8)%Z
                     | IncidentManagement.MEDIUM => (4, 24)%Z
                     | IncidentManagement.LOW => (8, 72)%Z
                     end))
    by (destruct p; reflexivity).
  assert (Hm : exists k,
            IncidentManagement.table_get
              IncidentManagement.category_multipliers
              (get_or incident_data "category" (PyStr "infrastructure"))
              1.0 = Some k /\
            1 <= k <= 1.6).
  { unfold get_or.
    destruct (incident_data !! "category") as [[| | |s|l|]|] eqn:E;
      cbn [default IncidentManagement.table_get];
      try (eexists; split; [reflexivity|lra]).
    - eexists. split; [reflexivity|]. apply category_multiplier_range.
    - by destruct (Hc l).
    - eexists. split; [reflexivity|].
      apply (category_multiplier_range "infrastructure"). }
  destruct Hm as (k & Ek & Hk).
  rewrite Ep, Hb, Ek. cbn [mbind option_bind].
  destruct p; eexists _, _; (split; [reflexivity|]);
    (split; [reflexivity|]); cbn; unfold inject_Z; lra.
Qed.

Lemma resolution_estimate_and_sla_witness :
  exists e,
    IncidentManagement._estimate_resolution_time
      (list_to_map [("priority", PyStr "critical");
                    ("category", PyStr "security")]
         : gmap string pyval) = Some e /\
    4 <= IncidentManagement.estimated_max_hours e.
Proof.
  set (report := list_to_map [("priority", PyStr "critical");
                              ("category", PyStr "security")]
                   : gmap string pyval).
  assert (Hp : report !! "priority" =
               Some (PyStr (IncidentManagement.Priority_value
                              IncidentManagement.CRITICAL)))
    by reflexivity.
  assert (Hc : forall l, report !! "category" <> Some (PyList l))
    by (intros l H; discriminate H).
  destruct (resolution_estimate_and_sla report IncidentManagement.CRITICAL
              Hp Hc)
    as (e & h & He & Hh & Hmax & _).
  exists e. split; [exact He|].
  injection Hh as <-. exact (proj1 Hmax).
Defined.

(** X19.  The workload score of the incident manager lies between 0 and
    1; the error path gives 0.5 and with it the status medium; and a
    technician is rated overloaded only with more than one pending
    incident. *)
Theorem manager_workload_score_facts (workload : gmap string pyval) :
  0 <= ManagerWorkload._calculate_workload_score workload <= 1 /\
  (ManagerWorkload.manager_workload_body workload = None ->
   ManagerWorkload._get_workload_status
     (ManagerWorkload._calculate_workload_score workload) = "medium") /\
  (ManagerWorkload._get_workload_status
     (ManagerWorkload._calculate_workload_score workload) = "overloaded" ->
   exists pending,
     as_number (get_or workload "pending" (PyInt 0)) = Some pending /\
     1 < pending).
Proof.
  unfold ManagerWorkload._calculate_workload_score,
    ManagerWorkload.manager_workload_body.
  destruct (as_number (get_or workload "pending" (PyInt 0)))
    as [pending|]; cbn [mbind option_bind];
    [|split; [cbn; lra|split; [reflexivity|intros H; discriminate H]]].
  destruct (as_number (get_or workload "in_progress" (PyInt 0)))
    as [in_progress|]; cbn [mbind option_bind];
    [|split; [cbn; lra|split; [reflexivity|intros H; discriminate H]]].
  destruct (as_number (get_or workload "critical_count" (PyInt 0)))
    as [critical|]; cbn [mbind option_bind];
    [|split; [cbn; lra|split; [reflexivity|intros H; discriminate H]]].
  cbn [default]. unfold Datatypes.id.
  split.
  { match goal with |- context [Qmin ?x 1.0] => set (total := x) end.
    assert (H0 : 0 <= total) by (subst total; qcases; lra).
    clearbody total.
    pose proof (Q.le_min_r total 1.0).
    split; [apply Q.min_glb; lra|lra]. }
  split; [intros H; discriminate H|].
  intros H. exists pending. split; [reflexivity|].
  destruct (Qlt_le_dec 1 pending) as [|Hle]; [done|]. exfalso.
  revert H. unfold ManagerWorkload._get_workload_status.
  assert (E5 : Qgtb pending 5 = false) by (apply Qgtb_false; lra).
  assert (E3 : Qgtb pending 3 = false) by (apply Qgtb_false; lra).
  assert (E1 : Qgtb pending 1 = false) by (apply Qgtb_false; lra).
  rewrite E5, E3, E1.
  match goal with |- context [Qmin ?x 1.0] => set (total := x) end.
  assert (Ht : total <= 0.6) by (subst total; qcases; lra).
  clearbody total.
  pose proof (Q.le_min_l total 1.0) as Hmin.
  assert (E8 : Qgeb (Qmin total 1.0) 0.8 = false)
    by (apply Qgeb_false; lra).
  rewrite E8. repeat case_match; discriminate.
Qed.

(** X20.  The list of [predict_failures]: one entry for each row whose
    predicted class is 1, in the order of the rows; an entry carries the
    position and the probability of its row; its confidence is high
    exactly when the probability is above 0.8, which is exactly when the
    failure is estimated within 3 days. *)
Theorem failure_predictions_facts (outputs : list (Z * Q)) :
  Forall (fun e =>
            outputs !! MlModels.index e = Some (1%Z, MlModels.probability e)
            /\
            (MlModels.confidence e = "high" <->
             0.8 < MlModels.probability e) /\
            (MlModels.confidence e = "high" <->
             (MlModels.days_until_failure e <= 3)%Z) /\
            (MlModels.confidence e = "medium" <->
             (7 <= MlModels.days_until_failure e)%Z))
    (MlModels.failure_predictions outputs) /\
  length (MlModels.failure_predictions outputs) =
  PredictiveMaintenance.count_if (fun o => (fst o =? 1)%Z) outputs /\
  map MlModels.index (MlModels.failure_predictions outputs) =
  List.filter (fun i => match outputs !! i with
                        | Some o => (fst o =? 1)%Z
                        | None => false
                        end) (seq 0 (length outputs)).
Proof.
  unfold MlModels.failure_predictions.
  set (F := fun e : nat * (Z * Q) =>
              if (fst (snd e) =? 1)%Z
              then Some {| MlModels.index := fst e;
                           MlModels.probability := snd (snd e);
                           MlModels.confidence :=
                             if Qgtb (snd (snd e)) 0.8
                             then "high" else "medium";
                           MlModels.days_until_failure :=
                             MlModels._estimate_days_until_failure
                               (snd (snd e)) |}
              else None).
  split; [|split].
  - apply Forall_forall. intros e He.
    apply list_elem_of_omap in He as ([i [pred prob]] & Hin & HF).
    apply elem_of_lookup_imap in Hin as (j & o & [= -> <-] & Hj).
    unfold F in HF. cbn [fst snd] in HF.
    destruct (Z.eqb_spec pred 1) as [->|]; [|done].
    injection HF as <-.
    cbn [MlModels.index MlModels.probability MlModels.confidence
         MlModels.days_until_failure].
    split; [done|].
    unfold MlModels._estimate_days_until_failure.
    qcases; repeat split; intros; try discriminate; try lra; try lia;
      try reflexivity.
  - unfold PredictiveMaintenance.count_if.
    assert (Hgen : forall g : nat -> nat,
              length (omap F (imap (fun i o => (g i, o)) outputs)) =
              length (List.filter (fun o : Z * Q => (fst o =? 1)%Z)
                        outputs)).
    { induction outputs as [|o outputs IH]; intros g; [done|].
      cbn [imap omap list_omap List.filter]. unfold F at 1. cbn [fst snd].
      destruct (fst o =? 1)%Z; cbn [length]; by rewrite <- (IH (g ∘ S)). }
    apply (Hgen (fun i => i)).
  - assert (Hgen : forall k,
              map MlModels.index
                (omap F (imap (fun i o => (k + i, o)%nat) outputs)) =
              List.filter (fun i => match outputs !! (i - k)%nat with
                                    | Some o => (fst o =? 1)%Z
                                    | None => false
                                    end) (seq k (length outputs))).
    { induction outputs as [|o outputs IH]; intros k; [done|].
      cbn [imap omap list_omap length seq List.filter].
      rewrite Nat.sub_diag. cbn [lookup list_lookup].
      unfold F at 1. cbn [fst snd].
      assert (Etail :
                map MlModels.index
                  (omap F (imap ((fun i o => (k + i, o)%nat) ∘ S) outputs))
                = List.filter
                    (fun i => match (o :: outputs) !! (i - k)%nat with
                              | Some o0 => (fst o0 =? 1)%Z
                              | None => false
                              end) (seq (S k) (length outputs))).
      { rewrite (imap_ext _ (fun i o => (S k + i, o)%nat))
          by (intros; simpl; f_equal; lia).
        rewrite IH. apply filter_ext_in. intros i Hi%in_seq.
        replace (i - k)%nat with (S (i - S k)) by lia. done. }
      destruct (fst o =? 1)%Z; cbn [map MlModels.index].
      - rewrite Nat.add_0_r. f_equal. exact Etail.
      - exact Etail. }
    specialize (Hgen 0%nat).
    rewrite (imap_ext _ (fun i o => (i, o))) in Hgen by done.
    rewrite Hgen. apply filter_ext. intros i. by rewrite Nat.sub_0_r.
Qed.

(** X21.  The time to failure of [_estimate_time_to_failure] is 33.6,
    67.2 or 168 hours: the floors of 24 and 48 hours never act.  With
    33.6 hours the predicted failure type is overheating, with 67.2 it is
    imbalance or overheating, and whenever the type is unknown (a feature
    is missing) the time is the week of the error path. *)
Theorem time_to_failure_values (features : list (option Q)) :
  let t := AdvancedPredictiveMaintenance._estimate_time_to_failure features in
  let type := AdvancedPredictiveMaintenance._predict_failure_type features in
  (t == 33.6 \/ t == 67.2 \/ t == 168) /\
  (t == 33.6 -> type = "sobrecalentamiento") /\
  (t == 67.2 -> type = "desbalance" \/ type = "sobrecalentamiento") /\
  (type = "desconocido" -> t == 168).
Proof.
  unfold AdvancedPredictiveMaintenance._estimate_time_to_failure,
    AdvancedPredictiveMaintenance._predict_failure_type,
    AdvancedPredictiveMaintenance.time_to_failure_body,
    AdvancedPredictiveMaintenance.failure_type_body.
  assert (Hmono : forall x,
            AdvancedPredictiveMaintenance.feature_above x 0.8 = true ->
            AdvancedPredictiveMaintenance.feature_above x 0.7 = true).
  { intros [v|]; [|done]. simpl. intros H%Qgtb_true.
    apply Qgtb_true. lra. }
  repeat match goal with
         | |- context [features !! ?i] =>
             destruct (features !! i) as [?|]; cbn [mbind option_bind]
         | |- context [AdvancedPredictiveMaintenance.feature_above ?x ?b] =>
             destruct (AdvancedPredictiveMaintenance.feature_above x b)
               eqn:?
         end;
    try match goal with
        | H : AdvancedPredictiveMaintenance.feature_above ?x 0.8 = true,
          H' : AdvancedPredictiveMaintenance.feature_above ?x 0.7 = false
          |- _ => rewrite (Hmono _ H) in H'; discriminate H'
        end;
    cbv zeta; cbn [default]; unfold Datatypes.id;
    repeat split;
    first [ reflexivity
          | vm_compute; reflexivity
          | left; vm_compute; reflexivity
          | right; left; vm_compute; reflexivity
          | right; right; vm_compute; reflexivity
          | intros H; vm_compute in H; discriminate H
          | intros _; vm_compute; reflexivity
          | intros _; left; reflexivity
          | intros _; right; reflexivity ].
Qed.

End EstimateFacts.

(** ** The analysis of an incident, and the workload in the ranking *)

Section AnalysisFacts.
Import PyNum PyStr PyVal Synthetic.
Local Open Scope Q_scope.

(** X22.  The analysis of [_analyze_incident]: the risk is high exactly
    when the incident is tagged [critico], and is medium otherwise; the
    complexity is high or medium; neither is ever low.  Every tag is one
    of the five failure types or [critico]; a specialty is required
    exactly when a failure type was detected, an electronic failure
    always requires two specialties, and at most one safety concern is
    raised. *)
Theorem analysis_invariants (incident_data : gmap string pyval) :
  let a := IntelligentIncidentManagement._analyze_incident incident_data in
  (IntelligentIncidentManagement.risk_level a = "high" <->
   "critico" ∈ IntelligentIncidentManagement.suggested_tags a) /\
  (IntelligentIncidentManagement.risk_level a = "medium" <->
   "critico" ∉ IntelligentIncidentManagement.suggested_tags a) /\
  (IntelligentIncidentManagement.complexity a = "high" \/
   IntelligentIncidentManagement.complexity a = "medium") /\
  IntelligentIncidentManagement.suggested_tags a ⊆
    ["mecanica"; "electrica"; "hidraulica"; "neumatica"; "electronica";
     "critico"] /\
  (IntelligentIncidentManagement.required_specialties a = ∅ <->
   IntelligentIncidentManagement.suggested_tags a ⊆ ["critico"]) /\
  ("electronica" ∈ IntelligentIncidentManagement.suggested_tags a ->
   (2 <= size (IntelligentIncidentManagement.required_specialties a))%nat)
  /\
  (length (IntelligentIncidentManagement.safety_concerns a) <= 1)%nat.
Proof.
  cbv zeta.
  unfold IntelligentIncidentManagement._analyze_incident,
    IntelligentIncidentManagement.analyze_body.
  destruct (as_str (get_or incident_data "description" (PyStr "")))
    as [description|];
    [|unfold iff; compute_done].
  destruct (as_str (get_or incident_data "title" (PyStr ""))) as [title|];
    [|unfold iff; compute_done].
  cbn [mbind option_bind default]. unfold Datatypes.id.
  set (full_text := (lower title ++ " " ++ lower description)%string).
  clearbody full_text.
  unfold IntelligentIncidentManagement.failure_types.
  cbn [List.filter snd
       IntelligentIncidentManagement.risk_level
       IntelligentIncidentManagement.suggested_tags
       IntelligentIncidentManagement.complexity
       IntelligentIncidentManagement.required_specialties
       IntelligentIncidentManagement.safety_concerns].
  repeat apply conj;
    repeat match goal with
           | |- context [IntelligentIncidentManagement.any_in ?k
                           full_text] =>
               destruct (IntelligentIncidentManagement.any_in k full_text)
           end;
    compute_done.
Qed.

Lemma workload_score_antitone (w w' : Z) :
  (0 <= w <= w')%Z ->
  TechnicianRecommendation._calculate_workload_score (PyInt w') <=
  TechnicianRecommendation._calculate_workload_score (PyInt w).
Proof.
  intros [H0 Hle].
  assert (Hq : inject_Z w <= inject_Z w') by (rewrite <- Zle_Qle; lia).
  assert (Hcases : forall z, (0 <= z)%Z ->
            (inject_Z z == 0 /\ Qeq_bool (inject_Z z) 0 = true) \/
            (1 <= inject_Z z /\ Qeq_bool (inject_Z z) 0 = false)).
  { intros z Hz. destruct (Z.eq_dec z 0%Z) as [->|Hne]; [by left|].
    right. split.
    - change 1 with (inject_Z 1). rewrite <- Zle_Qle. lia.
    - apply not_true_iff_false. intros E%Qeq_bool_iff.
      apply Hne. unfold Qeq in E. simpl in E. lia. }
  unfold TechnicianRecommendation._calculate_workload_score,
    TechnicianRecommendation.workload_score_body.
  cbn [as_number].
  destruct (Hcases w H0) as [[H1 E]|[H1 E]]; rewrite E;
    (destruct (Hcases w' ltac:(lia)) as [[H1' E']|[H1' E']]; rewrite E');
    qcases; cbn; lra.
Qed.

(** X23.  More open work never raises a technician's score: for the
    same technician, incident and history, the total score with a larger
    [current_workload] (both not negative) is at most the score with the
    smaller one. *)
Theorem more_work_never_raises_score
    (db : TechnicianRecommendation.db_connection)
    (t : TechnicianRecommendation.technician)
    (i : TechnicianRecommendation.incident_data) (w w' : Z) :
  (0 <= w <= w')%Z ->
  t !! "current_workload" = Some (PyInt w) ->
  TechnicianRecommendation._calculate_technician_score db
    (<["current_workload" := PyInt w']> t) i <=
  TechnicianRecommendation._calculate_technician_score db t i.
Proof.
  intros Hw Ht.
  pose proof (workload_score_antitone w w' Hw) as Hs.
  unfold TechnicianRecommendation._calculate_technician_score,
    TechnicianRecommendation.weighted_sum,
    TechnicianRecommendation.specialty_component,
    TechnicianRecommendation.experience_component,
    TechnicianRecommendation.workload_component,
    TechnicianRecommendation.location_component,
    TechnicianRecommendation.performance_component.
  rewrite lookup_insert_eq, Ht, !lookup_insert_ne by done.
  destruct (t !! "specialty") as [sp|]; cbn [mbind option_bind]; [|lra].
  destruct (t !! "experience_years") as [ey|];
    cbn [mbind option_bind]; [|lra].
  destruct (t !! "skill_level") as [sl|]; cbn [mbind option_bind]; [|lra].
  destruct (t !! "location") as [loc|]; cbn [mbind option_bind]; [|lra].
  destruct (t !! "id") as [tid|]; cbn [mbind option_bind]; [|lra].
  set (a := TechnicianRecommendation._calculate_specialty_match _ _ _).
  set (b := TechnicianRecommendation._calculate_experience_score _ _ _).
  set (c := TechnicianRecommendation._calculate_location_score _ _).
  set (d := TechnicianRecommendation._calculate_performance_score _ _).
  set (x := TechnicianRecommendation._calculate_workload_score (PyInt w))
    in *.
  set (x' := TechnicianRecommendation._calculate_workload_score (PyInt w'))
    in *.
  clearbody a b c d x x'.
  apply Q.min_glb; [|apply Q.le_min_r].
  pose proof (Q.le_min_l (0.0 + a * 0.4 + b * 0.25 + x' * 0.2 + c * 0.1
                          + d * 0.05) 1.0).
  lra.
Qed.

(** The veteran without open work, against the same with five. *)
Lemma more_work_never_raises_score_witness :
  TechnicianRecommendation._calculate_technician_score good_history
    (<["current_workload" := PyInt 5]> veteran) critical_motor_failure <=
  TechnicianRecommendation._calculate_technician_score good_history
    veteran critical_motor_failure.
Proof.
  assert (Hw : (0 <= 0 <= 5)%Z) by lia.
  exact (more_work_never_raises_score good_history veteran
           critical_motor_failure 0 5 Hw eq_refl).
Defined.

End AnalysisFacts.
